(* ===== verification/_CoqProject ===== *)
-Q . S2P
Prelude.v
PyStr.v
PosixPath.v
Scene.v
AssetIO.v
Merge.v
MergeSpec.v
Binding.v
Cli.v
CliText.v
Pipeline.v
DriverRuns.v
StartColors.v
Scenarios.v
