(* ===== verification/Prelude.v ===== *)
(** * A verified model of the Blender FBX -> GLB animation merger

    The repository's [src/scripts/fbx_to_glb.py] is a Blender batch script:
    it imports a rigged model FBX, then every animation FBX in the order
    given, keeps the actions each import creates (renamed after the source
    file), deletes the duplicate objects each animation import brings
    along, binds an action to the main armature and exports one GLB.
    [src/scripts/start_colors.py] is an unrelated face-colour stub writer:
    it counts the faces of an OBJ file and writes one white RGBA line per
    face.

    ** The parts and how they interact

    [main] (lines 115-120) reads [sys.argv], takes the words after
    Blender's [--] and calls [_blender_main] (lines 26-112), which
    - resets the session ([read_factory_settings], line 30),
    - parses [--model], [--anim]..., [--out] ([_parse_args], lines 18-23);
      argparse prints its help to stdout and exits on [-h], and prints
      the usage and an error message to stderr and exits on a bad command
      line,
    - makes the paths absolute and checks that they exist (lines 34-42),
    - imports the base FBX and picks its first armature (lines 45-51),
    - runs the merge loop (lines 53-83): snapshot the object and action
      sets, import, diff, rename the new actions, delete the new objects,
    - finalizes the binding of the armature (lines 85-91),
    - creates the output directory and exports the GLB (lines 93-112).
    The Blender scene is the one shared mutable state; every stage reads
    and writes it through Blender's operators.

    ** Files

    - [Prelude]: the notation scope [pipe_scope]; the state-and-exception
      monad [stE] ([sret], [sbind], [sraise], [sfor] for Python [for]
      loops) in which the driver is written, since Python raises and never
      rolls back; the step invariants [stable] and [raise_stable] (a
      relation between the states before and after a call, whatever it
      returns or whenever it raises) with their rules for [sbind]; the tactics [invc], [split_run], [inv_bind]; the hint
      databases [pipeline] and [pipeline_rw]; list lemmas shared by the
      components (filter splitting, filter extensionality, and
      [foldl_update_idem], which turns a loop of keyed idempotent updates
      into one [map]).
    - [PyStr]: Python [str] operations ([lower], [startswith], [rfind],
      slicing, [rstrip], [lstrip], [strip], [split], [join], [repr]) on
      Rocq strings, and the [re.sub] that collapses runs of newlines in
      argparse's help ([collapse_breaks]).
    - [PosixPath]: CPython's [posixpath] functions the script calls
      ([abspath]/[normpath]/[join2], [basename], [splitext] with its
      leading-dot loop, [stem], [dirname], [psplit]).
    - [Scene]: [bpy.data.objects] and [bpy.data.actions] as lists of
      records with identities ([obj], [action], [scene]); the snapshots
      [obj_set]/[act_set] (Python [set]s of datablocks as [gset]s of
      identities); the operators [deselect_all], [select_set],
      [delete_selected]; the well-formedness [wf] (unique identities).
    - [AssetIO]: the interface to Blender's importer and exporter, a class
      [AssetIO] of operations and a class [AssetIOLaws] of the import's
      contract (it keeps every existing object up to selection and every
      existing action, and keeps identities unique); the instance
      [Scripted] plays back a table of FBX contents and discharges the
      laws ([Scripted_laws]).
    - [Merge]: the loop body [import_animation] and the loop
      [import_animations] (lines 53-83), with [prefix_action] (lines
      68-71), [rename_new_actions] and [delete_new_objects] (lines 73-80);
      its theorems are proved in Sections over any lawful [AssetIO].
    - [MergeSpec]: the abstract specification of the loop: a clip
      library ([library]: object keys and a [gmap] from clip identity to
      name), the step [absorb] (a source adds the clips its import
      created, renamed by [prefix_name]) and the function [merge_spec]
      over the sources in order, which stops at the first source the
      importer refuses; the importer is seen at the level of the library
      through the class [LibraryImport] (the clips an import creates),
      tied to [AssetIO.import_fbx] by [LibraryImportLaws] and instantiated
      for [Scripted]; the abstraction [abs] of a scene and the refinement
      proof that the loop computes [merge_spec].
    - [Binding]: [finalize_binding] (lines 85-91) and its specification
      [expected_binding].
    - [Cli]: [main]'s separator split and the argparse parser, following
      CPython 3.11's [_parse_known_args] for this parser, with its error
      messages (ambiguous option, expected one argument, ignored explicit
      argument, required and unrecognized arguments).
    - [CliText]: argparse's [HelpFormatter] for a parser described by a
      [parser_spec] (description, optionals, positionals): the usage with
      [get_lines] wrapping, the help with its sections, [textwrap] of the
      helps and the description, and the final collapse and strip; the
      instance [fbx_parser] for lines 19-22.
    - [Pipeline]: the world (scene, working directory, file system,
      written GLBs, stdout, stderr, [sys.argv], terminal columns),
      [os.makedirs], and the driver [blender_main] and [main], with what a
      run that returns has done; the parse step writes argparse's help or
      error text.
    - [DriverRuns]: the converse direction: the runs of the driver when its
      collaborators succeed (progress), the exit for a base model without
      an armature, and [main]'s handling of the [--] separator; what a run
      that raises leaves behind ([no_output], proved step by step with
      [stable]); and the composition of the command line, the driver, the
      merge loop and the finalizer against [MergeSpec].
    - [StartColors]: [process_obj_file] of [start_colors.py] (lines 4-19)
      over a text file system (contents by path, directories) that the
      input and output handles share, in its own [stE] instance with the
      [OSError]s [open] raises; text-mode line iteration with universal
      newlines ([universal], [py_lines]); [open]'s path check ([fspath]:
      a list raises [TypeError]); its command line ([sc_main], which reads
      [sys.argv] from the process state: CPython 3.11's argparse for a
      parser with two positionals, [consume_positionals] between option
      strings ([flush], [take_groups]), the words each positional takes
      under [-*A-*] ([take_group]), the removal of the first [--] from them
      ([get_value]), which can leave a list, the required and
      unrecognized-arguments errors, and the texts of [sc_parser] written
      to stdout or stderr).
    - [Scenarios]: the spec's sessions run on [Scripted] by [vm_compute],
      a [start_colors.py] world, and the witnesses of the theorems.

    ** What is proved

    - Cleanup is exact: an iteration deletes exactly the objects its import
      created ([Merge.import_animation_objects]); over the loop the objects
      stay those of the base import ([Merge.import_animations_invariant]).
    - Clip accounting: an iteration keeps every older action unchanged and
      adds exactly the imported ones, each renamed by [prefix_action]
      ([import_animation_actions]); renaming is idempotent
      ([prefix_action_idem]); a source whose import creates no action is
      accepted silently, with the actions and [existing_actions] as they
      were ([import_animation_no_new_clip], against the spec's strict
      growth); every clip the loop adds is named after one of the
      sources ([import_animations_names]); two sources of different stems
      that each bring a clip of the same name, starting with neither
      stem, end with both clips under two different names
      ([import_animations_order], the spec's order sensitivity).
    - Refinement: every run of the loop from a well-formed scene computes
      what [merge_spec] computes on the abstracted scene, on the normal
      and on the raising path ([MergeSpec.import_animations_refines]);
      end to end, a successful [main] exports exactly the clip library
      [merge_spec] gives for the sources in the order given
      ([DriverRuns.main_exports_merged]).
    - The driver: a missing input raises before any import with only the
      factory reset done ([Pipeline.blender_main_missing_input]); a normal
      return has written one GLB of a well-formed scene holding exactly the
      base objects and all base actions ([blender_main_output]), with the
      armature bound ([blender_main_binding], [Binding.finalize_binding_spec]);
      an import failure stops the loop at the first failing source
      ([Merge.import_animations_raise]); a base model without an armature
      exits at line 51 with nothing written
      ([DriverRuns.blender_main_no_armature]); a run that raises, at any
      exit, has written no GLB, created or removed no file and printed
      nothing but argparse's help on [-h], though the directories
      [os.makedirs] made before a failing export remain
      ([DriverRuns.main_raise_no_output]); when argparse exits, the run
      ends after the session reset with the help on stdout or the usage
      and the error on stderr ([DriverRuns.blender_main_parser_exit]).
    - Progress: the loop returns normally when every import succeeds
      ([Merge.import_animations_progress]), and so does the whole driver
      when every collaborator succeeds ([DriverRuns.blender_main_progress]);
      [main] rejects a command line without [--] and otherwise runs the
      driver on the words after it ([DriverRuns.main_spec]).
    - Paths and command line: [splitext], modelled from
      [genericpath._splitext], equals the function CPython documents,
      [splitext_ref] (the extension runs from the last period of the last
      component that is not one of its leading periods)
      ([PosixPath.splitext_spec]); with an absolute working directory
      [abspath] returns an absolute path ([abspath_abs]); the parser
      returns what a caller writes ([Cli.parse_args_render]); the usage
      of the parser is one line, and its help seven fixed lines, exactly
      on terminals at least [len(prog) + 52] columns wide, and wraps on
      every narrower one ([CliText.format_help_wide]).
    - Fuel and file system: [os.makedirs] terminates: above the path's
      length the fuel never runs out and does not change the result
      ([Pipeline.makedirs_terminates]); on a well-formed file system it
      keeps the files and the well-formedness [fs_wf] and leaves the path
      a directory, does nothing on an existing directory ([exist_ok]) and
      fails on a file ([makedirs_spec]).
    - [start_colors.py]: a normal run writes one line per face
      ([StartColors.process_obj_file_ok]); an in-place run empties the
      input ([process_obj_file_in_place]); a missing output directory is
      reported as a missing input ([process_obj_file_missing_out_dir]); a
      missing input writes nothing ([process_obj_file_missing_input]); the
      line iteration loses nothing ([py_lines_concat]); the output is at
      most eight times the input ([output_size_bound]); the file system
      stays well-formed and only the output file changes
      ([process_obj_file_fs]); two plain words run it, any other number is a
      usage error naming the missing or the extra words, [-h] prints the
      help, whose text on a wide terminal is given ([sc_main_two_args],
      [sc_main_wrong_count], [sc_main_help_text]); an unknown option
      anywhere among the two values is the only unrecognized argument
      ([sc_parse_unknown]); [i -- --] stores the empty list as the output
      and ends in a [TypeError] message ([sc_main_dashdash_output]).
    - The spec's scenarios, evaluated as examples: in particular the
      spec's hero session keeps the clip names [Walk] and [Run]
      ([Scenarios.hero_scenario]), which the spec expects to be
      [walk_Walk] and [run_Run].

    ** Bounds, fuel and modelling choices

    - [PosixPath.splitext_loop] runs with fuel [S (length p)], more than
      the [dotIndex - filenameIndex] iterations of CPython's loop;
      [Pipeline.makedirs] runs with fuel [S (length name)], one more than
      the number of recursive calls on strictly shorter heads; it returns
      [None] only when the fuel runs out, which
      [Pipeline.makedirs_terminates] excludes for that fuel.
    - Identities are natural numbers; Python object identity is modelled by
      them, and [wf] states that they are unique.
    - Strings are byte strings; [lower] folds only ASCII letters (CPython
      folds every Unicode letter).
    - Terminal widths are integers ([Z]), since argparse computes with
      [columns - 2] and a narrow terminal makes widths negative.  [wrap]
      is [textwrap]'s greedy fill for words shorter than the width, which
      holds for every text the scripts give (no word is longer than 11
      characters and the help width is at least 11); the model was
      compared with CPython 3.11.2 on every width from 1 to 120 columns
      for both parsers and on random command lines.
    - The selection flag of an object is not part of its [obj_key]: the
      importer selects what it imports, so the contract only fixes objects
      up to selection.

    ** Not modelled

    - The FBX and glTF encodings and Blender's operators themselves: they
      are the [AssetIO] interface (an import either raises or obeys the
      laws; an export either raises or writes the current scene).
    - Blender's renaming of a datablock whose new name is taken
      (["Walk.001"]) and its truncation of names to 63 bytes (so a
      long [f"{base}_{a.name}"] at line 71 is cut short): names are
      plain fields here, and the theorems on names hold for the name
      the script assigns, before Blender adjusts it.
    - The process exit codes: [parse_args] exits with status 0 after the
      help and 2 after an error; the model keeps the kind of exit
      ([Help], [ArgError], [SCHelp], [SCError]) but not the number, and
      under Blender the status the process returns is Blender's.  The two
      parsers follow the source of CPython 3.11.2's [argparse]; in 3.11.2
      an option's value is the next value word and never a [--].
    - [textwrap]'s breaking of words longer than the width and of
      hyphenated words, which no text of the scripts needs.
    - Blender keeps [bpy.data.actions] sorted by name; the model keeps
      creation order, so the "first action" bound at line 89 is the first
      in that order ([Binding.expected_binding]).
    - In [start_colors.py]: UTF-8 decoding errors, permissions, links, and
      the quoting of [str(OSError)] for paths with quotes or escapes.

    ** Plan

    Modelled in this order: the merge loop and its contract, the binding,
    the driver with its errors, the command line and paths, their round
    trips and fuel bounds, [start_colors.py], the abstract specification
    of the merge with its refinement proof, the command line of
    [start_colors.py], the no-partial-output property of failing runs,
    the end-to-end composition with the specification, [argparse]'s
    chained [-h] flags and [--] removal, and then argparse's messages, its
    help formatter for both parsers and the streams they are written to,
    with [sys.argv] read from the process state.  Open: Blender's name order of
    [bpy.data.actions] as a law of [AssetIO], and the idempotence of
    [normpath].
*)

From stdpp Require Export base list strings gmap.

(** ** Notation scope of the development *)

Declare Scope pipe_scope.
Delimit Scope pipe_scope with pipe.

(** ** The outcome of a Python computation that can raise *)

(** [Ok a] is a normal return; [Raise e] is an exception that propagates
    to the top of the script (nothing in the modelled code catches). *)
Inductive outcome (E A : Type) : Type :=
| Ok (a : A)
| Raise (e : E).
Arguments Ok {E A} a.
Arguments Raise {E A} e.

(** A state-and-exception monad: the state is threaded through every
    call and survives an exception (Python has no rollback). *)
Definition stE (S E A : Type) : Type := S -> S * outcome E A.

Definition sret {S E A} (a : A) : stE S E A := fun s => (s, Ok a).

Definition sbind {S E A B} (c : stE S E A) (k : A -> stE S E B) : stE S E B :=
  fun s => match c s with
           | (s', Ok a) => k a s'
           | (s', Raise e) => (s', Raise e)
           end.

Definition sraise {S E A} (e : E) : stE S E A := fun s => (s, Raise e).

Definition sget {S E} : stE S E S := fun s => (s, Ok s).

Definition smodify {S E} (f : S -> S) : stE S E unit := fun s => (f s, Ok tt).

(** [do x <- c; k] binds; [do _ <- c; k] sequences. *)
Notation "'do' x <- c ; k" := (sbind c (fun x => k))
  (at level 10, x name, c at level 100, k at level 200) : pipe_scope.

(** [for x in xs: body(x)] *)
Fixpoint sfor {S E A} (xs : list A) (body : A -> stE S E unit) : stE S E unit :=
  match xs with
  | [] => sret tt
  | x :: xs' => sbind (body x) (fun _ => sfor xs' body)
  end.

(** ** Tactics shared by the development *)

Ltac invc H := inversion H; subst; clear H.

(** Split a goal on the [Ok]/[Raise] result of a monadic call [c s]. *)
Ltac split_run c s :=
  let E := fresh "Hrun" in
  destruct (c s) as [? [?|?]] eqn:E.

Create HintDb pipeline discriminated.

Create Rewrite HintDb pipeline_rw.

(** ** Monad lemmas *)

Section Monad.
Context {S E : Type}.

Lemma sbind_ok {A B} (c : stE S E A) (k : A -> stE S E B) s s' a :
  c s = (s', Ok a) -> sbind c k s = k a s'.
Proof. intros H. unfold sbind. by rewrite H. Qed.

Lemma sbind_raise {A B} (c : stE S E A) (k : A -> stE S E B) s s' e :
  c s = (s', Raise e) -> sbind c k s = (s', Raise e).
Proof. intros H. unfold sbind. by rewrite H. Qed.

(** A bind that returned normally ran both halves normally. *)
Lemma sbind_ok_inv {A B} (c : stE S E A) (k : A -> stE S E B) s s' b :
  sbind c k s = (s', Ok b) -> exists s1 a, c s = (s1, Ok a) /\ k a s1 = (s', Ok b).
Proof. unfold sbind. destruct (c s) as [s1 [a|e]]; [eauto | done]. Qed.

(** A loop whose body always returns normally is a left fold of the
    body's state transformer. *)
Lemma sfor_total {A} (xs : list A) (body : A -> stE S E unit) (f : A -> S -> S) s :
  (forall x s, body x s = (f x s, Ok tt)) ->
  sfor xs body s = (foldl (fun s x => f x s) s xs, Ok tt).
Proof.
  intros Hb. revert s. induction xs as [|x xs IH]; intros s; [done|].
  simpl. rewrite (sbind_ok _ _ _ _ _ (Hb x s)). apply IH.
Qed.
End Monad.

(** ** Step invariants

    A relation [Q] between the state before and after a computation is
    [stable] for a computation that relates its states by [Q] whatever
    its outcome, and [raise_stable] when it does so whenever it raises.
    Like a Hoare rule for sequences, the two lift through [sbind]. *)

Section Stable.
Context {S E : Type} (Q : S -> S -> Prop).

Definition stable {A} (c : stE S E A) : Prop := forall s s' r, c s = (s', r) -> Q s s'.

Definition raise_stable {A} (c : stE S E A) : Prop := forall s s' e, c s = (s', Raise e) -> Q s s'.

Context (Qrefl : forall s, Q s s) (Qtrans : forall s1 s2 s3, Q s1 s2 -> Q s2 s3 -> Q s1 s3).

Lemma stable_ret {A} (a : A) : stable (sret a).
Proof. intros s s' r [= <- _]. apply Qrefl. Qed.

Lemma stable_raise {A} (e : E) : stable (A := A) (sraise e).
Proof. intros s s' r [= <- _]. apply Qrefl. Qed.

Lemma stable_bind {A B} (c : stE S E A) (k : A -> stE S E B) :
  stable c -> (forall a, stable (k a)) -> stable (sbind c k).
Proof.
  intros Hc Hk s s' r. unfold sbind. destruct (c s) as [s1 [a|e]] eqn:E1.
  - intros H. exact (Qtrans _ _ _ (Hc _ _ _ E1) (Hk a _ _ _ H)).
  - intros [= <- _]. exact (Hc _ _ _ E1).
Qed.

Lemma stable_raise_stable {A} (c : stE S E A) : stable c -> raise_stable c.
Proof. intros Hc s s' e. apply Hc. Qed.

(** The first call relates its states; the rest relates them whenever it
    raises. *)
Lemma raise_stable_bind {A B} (c : stE S E A) (k : A -> stE S E B) :
  stable c -> (forall a, raise_stable (k a)) -> raise_stable (sbind c k).
Proof.
  intros Hc Hk s s' e. unfold sbind. destruct (c s) as [s1 [a|e1]] eqn:E1.
  - intros H. exact (Qtrans _ _ _ (Hc _ _ _ E1) (Hk a _ _ _ H)).
  - intros [= <- _]. exact (Hc _ _ _ E1).
Qed.

(** The first call relates its states when it raises, and the rest never
    raises. *)
Lemma raise_stable_bind_last {A B} (c : stE S E A) (k : A -> stE S E B) :
  raise_stable c -> (forall a s s' e, k a s <> (s', Raise e)) -> raise_stable (sbind c k).
Proof.
  intros Hc Hk s s' e. unfold sbind. destruct (c s) as [s1 [a|e1]] eqn:E1.
  - intros H. by destruct (Hk a s1 s' e).
  - intros [= <- _]. exact (Hc _ _ _ E1).
Qed.

Lemma stable_sfor {A} (xs : list A) (body : A -> stE S E unit) :
  (forall x, stable (body x)) -> stable (sfor xs body).
Proof. intros Hb. induction xs as [|x xs IH]; simpl; [apply stable_ret | by apply stable_bind]. Qed.
End Stable.

(** Peel the first call off a monadic run [H : sbind c k s = (s', Ok b)]. *)
Ltac inv_bind H :=
  let s1 := fresh "w" in let a := fresh "r" in let H1 := fresh "Hstep" in
  apply sbind_ok_inv in H as (s1 & a & H1 & H).

(** ** List lemmas shared by the components *)

Section Lists.
Context {A : Type}.

(** stdpp's [fmap] on lists is the Standard Library's [map]. *)
Lemma fmap_as_map {B} (f : A -> B) (l : list A) : f <$> l = map f l.
Proof. induction l as [|x l IH]; [done|]. simpl. by rewrite <- IH. Qed.

(** Membership in [map f l] (stdpp states it for [f <$> l]). *)
Lemma elem_of_map {B} (f : A -> B) (l : list A) (y : B) :
  y ∈ map f l <-> exists x, y = f x /\ x ∈ l.
Proof. apply list_elem_of_fmap. Qed.

Lemma elem_of_map_2 {B} (f : A -> B) (l : list A) (x : A) : x ∈ l -> f x ∈ map f l.
Proof. apply list_elem_of_fmap_2. Qed.

(** Filtering on a predicate and its negation splits a list. *)
Lemma filter_split_length (P : A -> Prop) `{!forall x, Decision (P x)} (l : list A) :
  length (filter P l) + length (filter (fun x => ~ P x) l) = length l.
Proof.
  induction l as [|x l IH]; [done|]. rewrite !filter_cons.
  repeat case_decide; simpl; try lia; tauto.
Qed.

Lemma filter_all (P : A -> Prop) `{!forall x, Decision (P x)} (l : list A) :
  Forall P l -> filter P l = l.
Proof.
  induction 1 as [|x l Hx _ IH]; [done|]. rewrite filter_cons.
  by rewrite decide_True, IH.
Qed.

Lemma filter_none (P : A -> Prop) `{!forall x, Decision (P x)} (l : list A) :
  Forall (fun x => ~ P x) l -> filter P l = [].
Proof.
  induction 1 as [|x l Hx _ IH]; [done|]. rewrite filter_cons.
  by rewrite decide_False.
Qed.

(** Mapping a function that is the identity on the members that
    satisfy [P], and that keeps [P], does not change [filter P]. *)
Lemma filter_map_id (P : A -> Prop) `{!forall x, Decision (P x)} (f : A -> A) (l : list A) :
  (forall x, P x -> f x = x) ->
  (forall x, P (f x) <-> P x) ->
  filter P (map f l) = filter P l.
Proof.
  intros Hid Hp. induction l as [|x l IH]; [done|]. simpl. rewrite !filter_cons.
  destruct (decide (P x)) as [Hx|Hx].
  - rewrite (Hid x Hx), decide_True by done. by f_equal.
  - rewrite decide_False by (rewrite Hp; done). done.
Qed.

Lemma NoDup_map_filter {B} (f : A -> B) (P : A -> Prop) `{!forall x, Decision (P x)} (l : list A) :
  NoDup (map f l) -> NoDup (map f (filter P l)).
Proof.
  intros Hnd. eapply sublist_NoDup; [exact Hnd|]. apply (fmap_sublist f), sublist_filter.
Qed.

(** [filter] only looks at the members of the list. *)
Lemma filter_ext_in (P Q : A -> Prop) `{!forall x, Decision (P x), !forall x, Decision (Q x)} (l : list A) :
  (forall x, x ∈ l -> (P x <-> Q x)) -> filter P l = filter Q l.
Proof.
  induction l as [|x l IH]; intros Hpq; [done|]. rewrite !filter_cons.
  rewrite IH by (intros y Hy; apply Hpq; set_solver).
  assert (P x <-> Q x) as Hx by (apply Hpq; set_solver).
  destruct (decide (P x)), (decide (Q x)); done || tauto.
Qed.

(** A Python loop [for i in ids: item_with_key(i).update()] over a list
    of items, when the update keeps the key and is idempotent, is one
    [map]: every item whose key is among [ids] is updated once.  In
    particular the loop does not depend on the order of [ids]. *)
Lemma foldl_update_idem {K} `{!EqDecision K} (key : A -> K) (f : A -> A) (ids : list K) (l : list A) :
  (forall x, key (f x) = key x) -> (forall x, f (f x) = f x) ->
  foldl (fun l i => map (fun x => if decide (key x = i) then f x else x) l) l ids =
  map (fun x => if decide (key x ∈ ids) then f x else x) l.
Proof.
  intros Hk Hf. revert l. induction ids as [|i ids IH]; intros l; simpl.
  - induction l as [|x l IHl]; [done|]. simpl in *. by f_equal.
  - rewrite IH, map_map. apply map_ext. intros x. simpl.
    repeat case_decide; subst; rewrite ?Hk in *; rewrite ?Hf; try done; set_solver.
Qed.
End Lists.

#[export] Hint Resolve NoDup_filter : pipeline.
