(* ===== verification/PyStr.v ===== *)
(** * Python [str] operations used by the scripts

    The scripts use [str.lower], [str.startswith], [str.rfind], slicing
    and f-string concatenation.  A Python string is modelled as a Rocq
    [string] (a list of 8-bit characters); [lower] maps the ASCII letters
    A-Z and leaves every other character unchanged (Python also folds
    non-ASCII letters; see the root header). *)

From S2P Require Import Prelude.
From Stdlib Require Import Ascii ZArith.

Open Scope pipe_scope.

Module PyStr.

(** ** Characters *)

Definition lower_char (c : ascii) : ascii :=
  let n := nat_of_ascii c in
  if (65 <=? n) && (n <=? 90) then ascii_of_nat (n + 32) else c.

(** [s.lower()] *)
Fixpoint lower (s : string) : string :=
  match s with
  | EmptyString => EmptyString
  | String c s' => String (lower_char c) (lower s')
  end.

(** [s.startswith(p)] *)
Definition startswith (s p : string) : bool := String.prefix p s.

(** [s.rfind(c)] for a one-character needle: the last index of [c] in
    [s], or [-1]. *)
Fixpoint rfind_from (c : ascii) (s : string) (i : Z) (best : Z) : Z :=
  match s with
  | EmptyString => best
  | String d s' => rfind_from c s' (i + 1) (if Ascii.eqb c d then i else best)
  end.

Definition rfind (s : string) (c : ascii) : Z := rfind_from c s 0 (-1).

(** [s[i:]] and [s[:i]] for [0 <= i] (the scripts never slice with a
    negative index). *)
Definition slice_from (s : string) (i : nat) : string :=
  String.substring i (String.length s - i) s.

Definition slice_to (s : string) (i : nat) : string := String.substring 0 i s.

(** [s.rstrip(c)] for a one-character argument. *)
Fixpoint rstrip (s : string) (c : ascii) : string :=
  match s with
  | EmptyString => EmptyString
  | String d s' =>
      match rstrip s' c with
      | EmptyString => if Ascii.eqb c d then EmptyString else String d EmptyString
      | r => String d r
      end
  end.

(** [s.split(c)] for a one-character separator (never empty: [''.split('/')
    = ['']]). *)
Fixpoint split (s : string) (c : ascii) : list string :=
  match s with
  | EmptyString => [EmptyString]
  | String d s' =>
      match split s' c with
      | [] => [String d EmptyString]
      | w :: ws => if Ascii.eqb c d then EmptyString :: w :: ws else String d w :: ws
      end
  end.

(** [c in s] for a one-character [c] *)
Fixpoint has_char (c : ascii) (s : string) : bool :=
  match s with
  | EmptyString => false
  | String d s' => Ascii.eqb c d || has_char c s'
  end.

(** The lower-case hexadecimal digit of [n < 16]. *)
Definition hex_digit (n : nat) : ascii :=
  if n <? 10 then ascii_of_nat (48 + n) else ascii_of_nat (87 + n).

(** One character of a [str] inside [repr(s)] quoted by [q]
    ([unicode_repr]): the quote and the backslash are escaped, tab,
    newline and carriage return by name, other control characters as
    [\xNN]; every other character stands for itself. *)
Definition repr_char (q c : ascii) : string :=
  let n := nat_of_ascii c in
  if Ascii.eqb c q || Ascii.eqb c "\"%char then String "\"%char (String c EmptyString)
  else if n =? 9 then "\t"
  else if n =? 10 then "\n"
  else if n =? 13 then "\r"
  else if (n <? 32) || (n =? 127) then
    String "\"%char (String "x"%char (String (hex_digit (n / 16)) (String (hex_digit (n mod 16)) EmptyString)))
  else String c EmptyString.

Fixpoint repr_body (q : ascii) (s : string) : string :=
  match s with
  | EmptyString => EmptyString
  | String c s' => repr_char q c +:+ repr_body q s'
  end.

(** [repr(s)]: single quotes, unless [s] has a single quote and no double
    quote. *)
Definition py_repr (s : string) : string :=
  let q := if has_char "'"%char s && negb (has_char "034"%char s) then "034"%char else "'"%char in
  String q (repr_body q s +:+ String q EmptyString).

(** The index of the last [c] in [s] (meaningful when [has_char c s]):
    the reference for [rfind]. *)
Fixpoint last_idx (c : ascii) (s : string) : nat :=
  match s with
  | EmptyString => 0
  | String _ s' => if has_char c s' then S (last_idx c s') else 0
  end.

(** [c.join(ws)] *)
Fixpoint join (c : ascii) (ws : list string) : string :=
  match ws with
  | [] => EmptyString
  | [w] => w
  | w :: ws' => w +:+ String c (join c ws')
  end.

(** [n] newlines *)
Definition newlines (n : nat) : string := String.concat "" (repeat (String "010"%char EmptyString) n).

(** [re.sub(r'\n\n\n+', '\n\n', s)]: a run of three or more newlines
    becomes two; [n] counts the newlines of the run being read. *)
Fixpoint collapse_from (n : nat) (s : string) : string :=
  match s with
  | EmptyString => newlines (Nat.min n 2)
  | String c s' =>
      if Ascii.eqb c "010"%char then collapse_from (S n) s'
      else newlines (Nat.min n 2) +:+ String c (collapse_from 0 s')
  end.

Definition collapse_breaks (s : string) : string := collapse_from 0 s.

(** [s.lstrip(c)] and [s.strip(c)] for a one-character argument. *)
Fixpoint lstrip (s : string) (c : ascii) : string :=
  match s with
  | EmptyString => EmptyString
  | String d s' => if Ascii.eqb c d then lstrip s' c else s
  end.

Definition strip (s : string) (c : ascii) : string := lstrip (rstrip s c) c.

(** ** Lemmas *)

Lemma lower_app s t : lower (s +:+ t) = lower s +:+ lower t.
Proof. induction s as [|c s IH]; simpl; [done|]. by rewrite IH. Qed.

Lemma lower_char_idem c : lower_char (lower_char c) = lower_char c.
Proof.
  destruct c as [[] [] [] [] [] [] [] []]; vm_compute; reflexivity.
Qed.

Lemma lower_idem s : lower (lower s) = lower s.
Proof. induction s as [|c s IH]; simpl; [done|]. by rewrite lower_char_idem, IH. Qed.

Lemma prefix_app p q : String.prefix p (p +:+ q) = true.
Proof.
  induction p as [|c p IH]; simpl; [by destruct q|].
  destruct (ascii_dec c c); [done|congruence].
Qed.

Lemma startswith_app p q : startswith (p +:+ q) p = true.
Proof. apply prefix_app. Qed.

Lemma length_lower s : String.length (lower s) = String.length s.
Proof. induction s; simpl; auto. Qed.

Lemma append_cons c s t : String c s +:+ t = String c (s +:+ t).
Proof. done. Qed.

Lemma substring_full (s : string) : String.substring 0 (String.length s) s = s.
Proof. induction s as [|c s IH]; simpl; [done|]. by rewrite IH. Qed.

Lemma substring_app_split (s : string) (n : nat) :
  n <= String.length s -> slice_to s n +:+ slice_from s n = s.
Proof.
  unfold slice_to, slice_from. revert n. induction s as [|c s IH]; intros [|n] Hn; simpl in *.
  - done.
  - lia.
  - by rewrite substring_full.
  - rewrite append_cons. f_equal. apply IH. lia.
Qed.

Lemma substring_from_S c s n m : String.substring (S n) m (String c s) = String.substring n m s.
Proof. done. Qed.

Lemma has_char_substring c s n m : has_char c s = false -> has_char c (String.substring n m s) = false.
Proof.
  revert n m. induction s as [|d s IH]; intros [|n] [|m]; simpl; try done;
    intros [H1 H2]%orb_false_iff; [rewrite H1; simpl| |]; apply IH; done.
Qed.

Lemma rfind_from_spec c s i best :
  rfind_from c s i best = if has_char c s then (i + Z.of_nat (last_idx c s))%Z else best.
Proof.
  revert i best. induction s as [|d s IH]; intros i best; simpl; [done|].
  rewrite IH. destruct (has_char c s), (Ascii.eqb c d); simpl; lia.
Qed.

Lemma rfind_spec s c : rfind s c = if has_char c s then Z.of_nat (last_idx c s) else (-1)%Z.
Proof. unfold rfind. rewrite rfind_from_spec. by destruct (has_char c s). Qed.

Lemma rfind_cons d s c :
  rfind (String d s) c = if has_char c s then (1 + rfind s c)%Z else if Ascii.eqb c d then 0%Z else (-1)%Z.
Proof.
  rewrite !rfind_spec. simpl. destruct (has_char c s), (Ascii.eqb c d); simpl; lia.
Qed.

Lemma last_idx_lt c s : has_char c s = true -> last_idx c s < String.length s.
Proof.
  induction s as [|d s IH]; simpl; [done|]. intros _. destruct (has_char c s) eqn:E; [|lia].
  specialize (IH eq_refl). lia.
Qed.

(** [-1 <= s.rfind(c) < len(s)] *)
Lemma rfind_bounds s c : (-1 <= rfind s c < Z.of_nat (String.length s))%Z.
Proof.
  rewrite rfind_spec. destruct (has_char c s) eqn:E; [|destruct s; simpl; lia].
  pose proof (last_idx_lt c s E). lia.
Qed.

Lemma append_nil s : s +:+ "" = s.
Proof. induction s as [|c s IH]; [done|]. by rewrite append_cons, IH. Qed.

Lemma slice_from_cons d s n : slice_from (String d s) (S n) = slice_from s n.
Proof. done. Qed.

Lemma append_assoc s1 s2 s3 : s1 +:+ (s2 +:+ s3) = (s1 +:+ s2) +:+ s3.
Proof. induction s1 as [|c s1 IH]; [done|]. by rewrite !append_cons, IH. Qed.

Lemma length_append s1 s2 : String.length (s1 +:+ s2) = String.length s1 + String.length s2.
Proof. induction s1 as [|c s1 IH]; [done|]. rewrite append_cons. simpl. by rewrite IH. Qed.

(** Concatenation cancels on the right. *)
Lemma append_inj_r a b t : a +:+ t = b +:+ t -> a = b.
Proof.
  revert b. induction a as [|c a IH]; intros [|d b]; rewrite ?append_cons; try done.
  all: try (intros H; apply (f_equal String.length) in H; simpl in H; rewrite !length_append in H; simpl in H; lia).
  - intros H. injection H. intros Hs ->. by rewrite (IH b Hs).
Qed.

Lemma length_rstrip s c : String.length (rstrip s c) <= String.length s.
Proof.
  induction s as [|d s IH]; simpl; [lia|].
  destruct (rstrip s c); [destruct (Ascii.eqb c d)|]; simpl in *; lia.
Qed.

Lemma length_slices s n :
  n <= String.length s -> String.length (slice_to s n) + String.length (slice_from s n) = String.length s.
Proof. intros Hn. rewrite <- length_append. by rewrite substring_app_split. Qed.

(** Text without newlines passes through the collapse unchanged. *)
Lemma collapse_from_plain a b :
  has_char "010"%char a = false -> collapse_from 0 (a +:+ b) = a +:+ collapse_from 0 b.
Proof.
  induction a as [|d a IH]; intros H; [done|]. cbn [has_char] in H. apply orb_false_iff in H as [Hd Ha].
  rewrite append_cons. cbn [collapse_from]. rewrite Ascii.eqb_sym, Hd, IH by done. done.
Qed.

(** The right strip only looks at the tail once it keeps a character. *)
Lemma rstrip_app a b c : rstrip b c <> "" -> rstrip (a +:+ b) c = a +:+ rstrip b c.
Proof.
  intros Hb. induction a as [|d a IH]; [done|]. rewrite !append_cons. cbn [rstrip]. rewrite IH.
  destruct (a +:+ rstrip b c) eqn:E; [|done]. destruct a; [destruct (Hb E) | discriminate].
Qed.

End PyStr.

#[export] Hint Rewrite PyStr.lower_app PyStr.lower_idem : pipeline_rw.
#[export] Hint Resolve PyStr.startswith_app PyStr.prefix_app : pipeline.
