(* ===== verification/PosixPath.v ===== *)
(** * [os.path] on POSIX, as called by [fbx_to_glb.py]

    The script turns every path into an absolute one ([os.path.abspath],
    lines 34-36), takes the clip prefix of an animation source from
    [os.path.splitext(os.path.basename(ap))[0]] (line 67) and creates the
    output directory [os.path.dirname(out_path) or "."] (line 93).  These
    definitions follow CPython's [posixpath] and [genericpath._splitext]
    line by line; the scripts only call them.  [splitext] is proved
    equal to [splitext_ref], the function CPython's documentation
    describes. *)

From S2P Require Import Prelude PyStr.
From Stdlib Require Import Ascii ZArith Lia.

Open Scope pipe_scope.

Module PosixPath.
Import PyStr.

Definition sep : ascii := "/"%char.
Definition extsep : ascii := "."%char.

(** [posixpath.basename]: [i = p.rfind(sep) + 1; return p[i:]] *)
Definition basename (p : string) : string :=
  slice_from p (Z.to_nat (rfind p sep + 1)).

(** The [while] loop of [genericpath._splitext] that skips the leading
    dots of the file name; [fuel] bounds the iterations
    ([dotIndex - filenameIndex] are enough, see [splitext_loop_fuel]). *)
Fixpoint splitext_loop (fuel : nat) (p : string) (filenameIndex dotIndex : nat) : string * string :=
  match fuel with
  | O => (p, EmptyString)
  | S fuel' =>
      if filenameIndex <? dotIndex then
        if negb (String.eqb (String.substring filenameIndex 1 p) (String extsep EmptyString))
        then (slice_to p dotIndex, slice_from p dotIndex)
        else splitext_loop fuel' p (S filenameIndex) dotIndex
      else (p, EmptyString)
  end.

(** [posixpath.splitext] = [genericpath._splitext(p, '/', None, '.')] *)
Definition splitext (p : string) : string * string :=
  let sepIndex := rfind p sep in
  let dotIndex := rfind p extsep in
  if (sepIndex <? dotIndex)%Z
  then splitext_loop (S (String.length p)) p (Z.to_nat (sepIndex + 1)) (Z.to_nat dotIndex)
  else (p, EmptyString).

(** [os.path.splitext(os.path.basename(ap))[0]] (line 67) *)
Definition stem (ap : string) : string := fst (splitext (basename ap)).

(** [posixpath.dirname] *)
Definition dirname (p : string) : string :=
  let i := Z.to_nat (rfind p sep + 1) in
  let head := slice_to p i in
  if negb (String.eqb head EmptyString) &&
     negb (String.eqb head (String.concat EmptyString (repeat (String sep EmptyString) (String.length head))))
  then rstrip head sep
  else head.

(** [posixpath.split] *)
Definition psplit (p : string) : string * string :=
  let i := Z.to_nat (rfind p sep + 1) in
  let head := slice_to p i in
  let tail := slice_from p i in
  let head := if negb (String.eqb head EmptyString) &&
                 negb (String.eqb head (String.concat EmptyString (repeat (String sep EmptyString) (String.length head))))
              then rstrip head sep else head in
  (head, tail).

(** [posixpath.join(a, b)] for two arguments *)
Definition join2 (a b : string) : string :=
  if startswith b (String sep EmptyString) then b
  else if String.eqb a EmptyString || (match String.get (String.length a - 1) a with
                                       | Some c => Ascii.eqb c sep | None => false end)
  then a +:+ b
  else a +:+ String sep b.

(** The component loop of [posixpath.normpath] *)
Definition normpath_step (initial_slashes : nat) (new_comps : list string) (comp : string) : list string :=
  if String.eqb comp "" || String.eqb comp "." then new_comps
  else if negb (String.eqb comp "..")
          || (Nat.eqb initial_slashes 0 && match new_comps with [] => true | _ => false end)
          || (match last new_comps with Some w => String.eqb w ".." | None => false end)
  then new_comps ++ [comp]
  else match new_comps with
       | [] => new_comps
       | _ => removelast new_comps
       end.

(** [posixpath.normpath] (the pure-Python version of CPython 3.10/3.11,
    the versions bundled with Blender 3.x/4.x) *)
Definition normpath (path : string) : string :=
  if String.eqb path "" then "."
  else
    let initial_slashes :=
      if startswith path "/" then
        if startswith path "//" && negb (startswith path "///") then 2 else 1
      else 0 in
    let comps := fold_left (normpath_step initial_slashes) (split path sep) [] in
    let path' := String.concat EmptyString (repeat "/" initial_slashes) +:+ join sep comps in
    if String.eqb path' "" then "." else path'.

(** [posixpath.abspath], given the current directory [cwd] *)
Definition abspath (cwd path : string) : string :=
  normpath (if startswith path "/" then path else join2 cwd path).

(** ** The documented behaviour of [splitext]

    The Python documentation: [splitext(path)] returns [(root, ext)] with
    [root + ext == path], where [ext] runs from the last period of the
    last path component, and the leading periods of that component belong
    to [root].  This reference is stated on the last component
    ([basename]) without the index arithmetic and the loop of the code. *)

(** The component without its leading periods. *)
Fixpoint drop_dots (s : string) : string :=
  match s with
  | EmptyString => EmptyString
  | String c s' => if Ascii.eqb c extsep then drop_dots s' else s
  end.

(** The suffix of [s] from its last period, if it has one. *)
Fixpoint last_dot_suffix (s : string) : option string :=
  match s with
  | EmptyString => None
  | String c s' =>
      match last_dot_suffix s' with
      | Some e => Some e
      | None => if Ascii.eqb c extsep then Some s else None
      end
  end.

Definition splitext_ref (p : string) : string * string :=
  match last_dot_suffix (drop_dots (basename p)) with
  | Some e => (slice_to p (String.length p - String.length e), e)
  | None => (p, EmptyString)
  end.

(** ** Lemmas *)

Lemma basename_cons d s :
  basename (String d s) =
  if has_char sep s then basename s else if Ascii.eqb sep d then s else String d s.
Proof.
  unfold basename. rewrite rfind_cons. destruct (has_char sep s) eqn:E.
  - rewrite rfind_spec, E. replace (Z.to_nat (1 + Z.of_nat (last_idx sep s) + 1)) with (S (S (last_idx sep s))) by lia.
    rewrite slice_from_cons. f_equal. lia.
  - destruct (Ascii.eqb sep d); simpl.
    + unfold slice_from. simpl. rewrite Nat.sub_0_r. apply substring_full.
    + unfold slice_from. simpl. f_equal. apply substring_full.
Qed.

Lemma basename_no_sep_aux p : has_char sep (basename p) = false.
Proof.
  induction p as [|d s IH]; [done|]. rewrite basename_cons.
  destruct (has_char sep s) eqn:E; [done|]. destruct (Ascii.eqb sep d) eqn:Ed; [done|].
  cbn [has_char]. by rewrite Ed, E.
Qed.

Lemma splitext_loop_cases fuel p fi di :
  splitext_loop fuel p fi di = (p, EmptyString) \/
  splitext_loop fuel p fi di = (slice_to p di, slice_from p di).
Proof.
  revert fi. induction fuel as [|fuel IH]; intros fi; simpl; [by left|].
  destruct (fi <? di); [|by left]. destruct (negb _); [by right | apply IH].
Qed.

(** The leading-dot loop of [splitext] gives the same result with any
    fuel larger than the number of iterations, so the fuel [S (len p)]
    used by [splitext] computes CPython's result. *)
Lemma splitext_loop_fuel p fi di f1 f2 :
  di - fi < f1 -> di - fi < f2 -> splitext_loop f1 p fi di = splitext_loop f2 p fi di.
Proof.
  revert fi f2. induction f1 as [|f1 IH]; intros fi [|f2] H1 H2; simpl; try lia.
  destruct (Nat.ltb_spec fi di); [|done]. destruct (negb _); [done|]. apply IH; lia.
Qed.

(** Which of its two results [splitext] returns. *)
Lemma splitext_cases p :
  splitext p = (p, EmptyString) \/
  exists di, di < String.length p /\ splitext p = (slice_to p di, slice_from p di).
Proof.
  unfold splitext. pose proof (rfind_bounds p sep). pose proof (rfind_bounds p extsep).
  destruct (Z.ltb_spec (rfind p sep) (rfind p extsep)); [|by left].
  destruct (splitext_loop_cases (S (String.length p)) p (Z.to_nat (rfind p sep + 1)) (Z.to_nat (rfind p extsep)))
    as [-> | ->]; [by left|]. right. exists (Z.to_nat (rfind p extsep)). split; [lia|done].
Qed.

Lemma has_char_slice_to c s n : has_char c s = false -> has_char c (slice_to s n) = false.
Proof. apply has_char_substring. Qed.

Lemma stem_no_sep ap : has_char sep (stem ap) = false.
Proof.
  unfold stem. pose proof (basename_no_sep_aux ap) as Hb.
  destruct (splitext_cases (basename ap)) as [-> | (di & _ & ->)]; simpl; [done|].
  by apply has_char_slice_to.
Qed.

Lemma psplit_length p :
  String.length (psplit p).1 + String.length (psplit p).2 <= String.length p.
Proof.
  unfold psplit. pose proof (rfind_bounds p sep).
  pose proof (length_slices p (Z.to_nat (rfind p sep + 1))) as Hl.
  pose proof (length_rstrip (slice_to p (Z.to_nat (rfind p sep + 1))) sep).
  destruct (_ && _); simpl; lia.
Qed.

Lemma startswith_sep s : startswith s "/" = true -> exists t, s = String sep t.
Proof.
  destruct s as [|c t]; [done|]. unfold startswith. rewrite String.prefix_correct. simpl.
  intros [= ->]. by exists t.
Qed.

Lemma startswith_cons_sep t : startswith (String sep t) "/" = true.
Proof. by destruct t. Qed.

Lemma concat_slashes k X :
  String.concat "" (repeat "/" (S k)) +:+ X = String sep (String.concat "" (repeat "/" k) +:+ X).
Proof. destruct k; simpl; by rewrite append_cons. Qed.

Lemma normpath_abs path : startswith path "/" = true -> startswith (normpath path) "/" = true.
Proof.
  intros [t ->]%startswith_sep. unfold normpath. cbv zeta. rewrite !startswith_cons_sep.
  destruct (_ && _); rewrite concat_slashes; apply startswith_cons_sep.
Qed.

Lemma join2_abs a b : startswith a "/" = true -> startswith (join2 a b) "/" = true.
Proof.
  intros [t ->]%startswith_sep. unfold join2.
  destruct (startswith b _) eqn:Hb; [exact Hb|]. destruct (_ || _); rewrite append_cons; apply startswith_cons_sep.
Qed.

(** ** [splitext] against its documented behaviour *)

Lemma last_dot_suffix_spec s :
  last_dot_suffix s = if has_char extsep s then Some (slice_from s (last_idx extsep s)) else None.
Proof.
  induction s as [|c s IH]; [done|]. cbn [last_dot_suffix has_char last_idx]. rewrite IH.
  destruct (has_char extsep s) eqn:E; [by rewrite orb_true_r|]. rewrite orb_false_r, (Ascii.eqb_sym c extsep).
  destruct (Ascii.eqb extsep c); [|done]. unfold slice_from. simpl. by rewrite substring_full.
Qed.

Lemma length_slice_from s n : String.length (slice_from s n) = String.length s - n.
Proof.
  unfold slice_from. revert n. induction s as [|c s IH]; intros [|n]; simpl; [done | done | | apply IH].
  by rewrite substring_full.
Qed.

Lemma length_last_dot_suffix s e : last_dot_suffix s = Some e -> String.length e <= String.length s.
Proof.
  rewrite last_dot_suffix_spec. destruct (has_char extsep s); [|done]. intros [= <-].
  rewrite length_slice_from. lia.
Qed.

Lemma length_drop_dots s : String.length (drop_dots s) <= String.length s.
Proof. induction s as [|c s IH]; simpl; [lia|]. destruct (Ascii.eqb c extsep); simpl; lia. Qed.

Lemma length_basename p : String.length (basename p) <= String.length p.
Proof.
  induction p as [|d s IH]; [done|]. rewrite basename_cons. cbn [String.length].
  destruct (has_char sep s); [lia|]. destruct (Ascii.eqb sep d); cbn [String.length]; lia.
Qed.

Lemma basename_no_sep p : has_char sep p = false -> basename p = p.
Proof. intros H. unfold basename. rewrite rfind_spec, H. unfold slice_from. simpl. by rewrite Nat.sub_0_r, substring_full. Qed.

Lemma substring_first c s : String.substring 0 1 (String c s) = String c EmptyString.
Proof. by destruct s. Qed.

Lemma splitext_loop_step f p fi di :
  splitext_loop (S f) p fi di =
  if fi <? di then
    if negb (String.eqb (String.substring fi 1 p) (String extsep EmptyString))
    then (slice_to p di, slice_from p di)
    else splitext_loop f p (S fi) di
  else (p, EmptyString).
Proof. done. Qed.

(** One character in front of the path: the loop runs one index later. *)
Lemma splitext_loop_shift f ch p fi di :
  splitext_loop f (String ch p) (S fi) (S di) =
  ((String ch (splitext_loop f p fi di).1), (splitext_loop f p fi di).2).
Proof.
  revert fi. induction f as [|f IH]; intros fi; [done|]. cbn [splitext_loop].
  change (S fi <? S di) with (fi <? di). destruct (fi <? di); [|done].
  change (String.substring (S fi) 1 (String ch p)) with (String.substring fi 1 p).
  destruct (negb _); [|apply IH]. done.
Qed.

Ltac rfind_facts p :=
  pose proof (rfind_bounds p sep); pose proof (rfind_bounds p extsep).

(** The shifted loop, brought back to the fuel [splitext p] uses. *)
Ltac loop_shift_fuel p :=
  rewrite splitext_loop_shift;
  rewrite ?(splitext_loop_fuel p _ _ (S (S (String.length p))) (S (String.length p))) by lia; done.

(** A character in front of the path shifts the split when the last
    component does not start with it: a separator in [p], or [ch] a
    separator or a leading period. *)
Lemma splitext_shift ch p :
  has_char sep p || Ascii.eqb ch sep || Ascii.eqb ch extsep = true ->
  splitext (String ch p) = (String ch (splitext p).1, (splitext p).2).
Proof.
  intros Hc. unfold splitext. rewrite !rfind_cons. rfind_facts p.
  change (String.length (String ch p)) with (S (String.length p)).
  destruct (has_char extsep p) eqn:Hd.
  - assert (Hdi : rfind p extsep = Z.of_nat (last_idx extsep p)) by (by rewrite rfind_spec, Hd).
    pose proof (last_idx_lt _ _ Hd).
    replace (Z.to_nat (1 + rfind p extsep)) with (S (Z.to_nat (rfind p extsep))) by lia.
    destruct (has_char sep p) eqn:Hs.
    + replace (Z.to_nat (1 + rfind p sep + 1)) with (S (Z.to_nat (rfind p sep + 1))) by lia.
      destruct (Z.ltb_spec (rfind p sep) (rfind p extsep));
        [rewrite (proj2 (Z.ltb_lt (1 + rfind p sep) (1 + rfind p extsep))) by lia; loop_shift_fuel p|].
      by rewrite (proj2 (Z.ltb_ge (1 + rfind p sep) (1 + rfind p extsep))) by lia.
    + assert (Hsp : rfind p sep = (-1)%Z) by (by rewrite rfind_spec, Hs).
      rewrite Hsp. simpl in Hc. rewrite Ascii.eqb_sym.
      destruct (Ascii.eqb ch sep) eqn:Ec.
      * rewrite (proj2 (Z.ltb_lt 0 (1 + rfind p extsep))), (proj2 (Z.ltb_lt (-1) (rfind p extsep))) by lia.
        change (Z.to_nat (0 + 1)) with (S (Z.to_nat (-1 + 1))). loop_shift_fuel p.
      * apply Ascii.eqb_eq in Hc as ->.
        rewrite (proj2 (Z.ltb_lt (-1) (1 + rfind p extsep))), (proj2 (Z.ltb_lt (-1) (rfind p extsep))) by lia.
        change (Z.to_nat (-1 + 1)) with 0. rewrite (splitext_loop_step (S (String.length p)) (String extsep p)).
        rewrite (proj2 (Nat.ltb_lt 0 (S (Z.to_nat (rfind p extsep))))) by lia.
        rewrite (substring_first extsep p).
        rewrite String.eqb_refl. cbn [negb]. loop_shift_fuel p.
  - assert (Hdp : rfind p extsep = (-1)%Z) by (by rewrite rfind_spec, Hd).
    rewrite Hdp, (proj2 (Z.ltb_ge (rfind p sep) (-1))) by lia.
    destruct (Ascii.eqb extsep ch) eqn:Ec.
    + apply Ascii.eqb_eq in Ec as <-. destruct (has_char sep p) eqn:Hs; [|done].
      by rewrite (proj2 (Z.ltb_ge (1 + rfind p sep) 0)) by (rewrite rfind_spec, Hs; lia).
    + destruct (has_char sep p) eqn:Hs; [|destruct (Ascii.eqb sep ch)].
      all: by rewrite (proj2 (Z.ltb_ge _ (-1))) by (rewrite ?rfind_spec, ?Hs; lia).
Qed.

(** A last component that starts with [ch], neither a separator nor a
    period: the extension starts at the last period of [p], if any. *)
Lemma splitext_other ch p :
  has_char sep p = false -> Ascii.eqb ch sep = false -> Ascii.eqb ch extsep = false ->
  splitext (String ch p) =
  if has_char extsep p then (String ch (slice_to p (last_idx extsep p)), slice_from p (last_idx extsep p))
  else (String ch p, EmptyString).
Proof.
  intros Hs Hcs Hcd. unfold splitext. rewrite !rfind_cons, Hs, (Ascii.eqb_sym sep), Hcs, (Ascii.eqb_sym extsep), Hcd.
  destruct (has_char extsep p) eqn:Hd; [|done].
  rewrite rfind_spec, Hd, (proj2 (Z.ltb_lt (-1) (1 + Z.of_nat (last_idx extsep p)))) by lia.
  replace (Z.to_nat (1 + Z.of_nat (last_idx extsep p))) with (S (last_idx extsep p)) by lia.
  change (Z.to_nat (-1 + 1)) with 0. rewrite splitext_loop_step, (proj2 (Nat.ltb_lt 0 (S (last_idx extsep p)))) by lia.
  rewrite substring_first.
  assert (String.eqb (String ch EmptyString) (String extsep EmptyString) = false) as ->.
  { apply String.eqb_neq. intros [= ->]. by rewrite Ascii.eqb_refl in Hcd. }
  done.
Qed.

Lemma slice_to_cons ch p n : slice_to (String ch p) (S n) = String ch (slice_to p n).
Proof. done. Qed.

(** The extension the reference finds is a suffix of the path. *)
Lemma splitext_ref_short p e :
  last_dot_suffix (drop_dots (basename p)) = Some e -> String.length e <= String.length p.
Proof.
  intros He. pose proof (length_last_dot_suffix _ _ He). pose proof (length_drop_dots (basename p)).
  pose proof (length_basename p). lia.
Qed.

Lemma splitext_ref_shift ch p :
  has_char sep p || Ascii.eqb ch sep || Ascii.eqb ch extsep = true ->
  splitext_ref (String ch p) = (String ch (splitext_ref p).1, (splitext_ref p).2).
Proof.
  intros Hc. assert (Hb : drop_dots (basename (String ch p)) = drop_dots (basename p)).
  { rewrite basename_cons. destruct (has_char sep p) eqn:Hs; [done|]. rewrite (basename_no_sep p Hs).
    rewrite (Ascii.eqb_sym sep). destruct (Ascii.eqb ch sep); [done|]. simpl in Hc.
    cbn [drop_dots]. by rewrite Hc. }
  unfold splitext_ref. rewrite Hb. destruct (last_dot_suffix (drop_dots (basename p))) as [e|] eqn:He; [|done].
  pose proof (splitext_ref_short p e He). cbn [String.length].
  replace (S (String.length p) - String.length e) with (S (String.length p - String.length e)) by lia.
  done.
Qed.

Lemma splitext_ref_other ch p :
  has_char sep p = false -> Ascii.eqb ch sep = false -> Ascii.eqb ch extsep = false ->
  splitext_ref (String ch p) =
  if has_char extsep p then (String ch (slice_to p (last_idx extsep p)), slice_from p (last_idx extsep p))
  else (String ch p, EmptyString).
Proof.
  intros Hs Hcs Hcd. unfold splitext_ref. rewrite basename_cons, Hs, (Ascii.eqb_sym sep), Hcs.
  cbn [drop_dots]. rewrite Hcd. cbn [last_dot_suffix]. rewrite Hcd, last_dot_suffix_spec.
  destruct (has_char extsep p) eqn:Hd; [|done]. pose proof (last_idx_lt _ _ Hd).
  rewrite length_slice_from. cbn [String.length].
  replace (S (String.length p) - (String.length p - last_idx extsep p)) with (S (last_idx extsep p)) by lia.
  done.
Qed.

(** C21: [os.path.splitext] as modelled from [genericpath._splitext]
    (the two [rfind]s and the leading-period loop) is the documented
    function: the extension runs from the last period of the last path
    component, the leading periods of that component belong to the root,
    and without such a period the extension is empty. *)
Theorem splitext_spec p : splitext p = splitext_ref p.
Proof.
  induction p as [|ch p IH]; [done|].
  destruct (has_char sep p || Ascii.eqb ch sep || Ascii.eqb ch extsep) eqn:Hc.
  - by rewrite (splitext_shift ch p Hc), (splitext_ref_shift ch p Hc), IH.
  - apply orb_false_iff in Hc as [Hc Hcd]. apply orb_false_iff in Hc as [Hs Hcs].
    by rewrite (splitext_other ch p Hs Hcs Hcd), (splitext_ref_other ch p Hs Hcs Hcd).
Qed.

(** [splitext] splits without losing anything: [root + ext == p]. *)
Lemma splitext_roundtrip p : (splitext p).1 +:+ (splitext p).2 = p.
Proof.
  destruct (splitext_cases p) as [-> | (di & Hdi & ->)]; simpl; [apply append_nil|].
  apply substring_app_split. lia.
Qed.

(** C38: With an absolute working directory, [os.path.abspath] returns
    an absolute path, so the paths the script checks and imports (lines
    34-36) are absolute whatever the user wrote. *)
Theorem abspath_abs cwd p : startswith cwd "/" = true -> startswith (abspath cwd p) "/" = true.
Proof.
  intros Hc. unfold abspath. apply normpath_abs.
  destruct (startswith p "/") eqn:Hp; [exact Hp | by apply join2_abs].
Qed.

End PosixPath.
