(* ===== verification/Scene.v ===== *)
(** * The Blender scene state the merger reads and mutates

    [bpy.data.objects] and [bpy.data.actions] of the running Blender
    session, with the attributes [fbx_to_glb.py] touches: an object's
    identity, [type], [select_get()/select_set()] flag and
    [animation_data] (with its [action] slot); an action's identity and
    mutable [name].  Python compares these datablocks by identity
    ([set(bpy.data.objects)]), so each carries an [id] that is unique in
    the session: [wf] states it.  Collections are lists in Blender's
    iteration order. *)

From S2P Require Import Prelude.

Open Scope pipe_scope.

Module Scene.

(** [Object.type]: the script only tests for ["ARMATURE"]. *)
Inductive otype : Type :=
| MESH
| ARMATURE
| EMPTY
| OTHER.

#[export] Instance otype_eq_dec : EqDecision otype.
Proof. solve_decision. Defined.

(** [AnimData]: only its [action] slot is read or written. *)
Record anim_data : Type := mk_anim_data { ad_action : option nat }.

#[export] Instance anim_data_eq_dec : EqDecision anim_data.
Proof. intros [a] [b]. destruct (decide (a = b)); [left|right]; congruence. Defined.

Record obj : Type := mk_obj {
  obj_id : nat;
  obj_name : string;
  obj_type : otype;
  obj_anim : option anim_data;
  obj_select : bool
}.

Record action : Type := mk_action {
  act_id : nat;
  act_name : string
}.

Record scene : Type := mk_scene {
  objects : list obj;
  actions : list action
}.

(** [bpy.ops.wm.read_factory_settings(use_empty=True)] *)
Definition empty_scene : scene := mk_scene [] [].

(** ** Snapshots: [set(bpy.data.objects)], [set(bpy.data.actions)] *)

Definition obj_ids (s : scene) : list nat := map obj_id (objects s).
Definition act_ids (s : scene) : list nat := map act_id (actions s).

Definition obj_set (s : scene) : gset nat := list_to_set (obj_ids s).
Definition act_set (s : scene) : gset nat := list_to_set (act_ids s).

(** Identities are unique within the session. *)
Definition wf (s : scene) : Prop := NoDup (obj_ids s) /\ NoDup (act_ids s).

(** What an object is, apart from its selection flag (which imports and
    the cleanup stage change freely). *)
Definition obj_key (o : obj) : nat * string * otype * option anim_data :=
  (obj_id o, obj_name o, obj_type o, obj_anim o).

(** What an object is, apart from its selection flag and its binding. *)
Definition obj_ident (o : obj) : nat * string * otype := (obj_id o, obj_name o, obj_type o).

(** ** Object operations *)

Definition set_select (b : bool) (o : obj) : obj :=
  mk_obj (obj_id o) (obj_name o) (obj_type o) (obj_anim o) b.

Definition set_anim (ad : option anim_data) (o : obj) : obj :=
  mk_obj (obj_id o) (obj_name o) (obj_type o) ad (obj_select o).

(** Apply [f] to the object with identity [i] (a Python reference to it). *)
Definition update_obj (i : nat) (f : obj -> obj) (s : scene) : scene :=
  mk_scene (map (fun o => if decide (obj_id o = i) then f o else o) (objects s)) (actions s).

(** The object a Python reference [i] denotes, if it is still in the scene. *)
Definition find_obj (i : nat) (s : scene) : option obj :=
  head (filter (fun o => obj_id o = i) (objects s)).

(** [bpy.ops.object.select_all(action="DESELECT")] (line 77) *)
Definition deselect_all (s : scene) : scene :=
  mk_scene (map (set_select false) (objects s)) (actions s).

(** [o.select_set(True)] (line 79) *)
Definition select_set (i : nat) (b : bool) (s : scene) : scene :=
  update_obj i (set_select b) s.

(** [bpy.ops.object.delete(use_global=False)] (line 80): removes the
    selected objects; actions are datablocks of their own and stay. *)
Definition delete_selected (s : scene) : scene :=
  mk_scene (filter (fun o => obj_select o = false) (objects s)) (actions s).

(** ** Action operations *)

Definition update_action (i : nat) (f : action -> action) (s : scene) : scene :=
  mk_scene (objects s) (map (fun a => if decide (act_id a = i) then f a else a) (actions s)).

Definition find_action (i : nat) (s : scene) : option action :=
  head (filter (fun a => act_id a = i) (actions s)).

(** [a.name = n] *)
Definition set_action_name (n : string) (a : action) : action := mk_action (act_id a) n.

(** ** Lemmas *)

Lemma obj_ident_of_keys (l1 l2 : list obj) :
  map obj_key l1 = map obj_key l2 -> map obj_ident l1 = map obj_ident l2.
Proof. intros H. apply (f_equal (map (fun k => k.1))) in H. by rewrite !map_map in H. Qed.

Lemma find_obj_elem x s : x ∈ objects s -> exists o, find_obj (obj_id x) s = Some o.
Proof.
  unfold find_obj. intros Hx. destruct (filter (fun o => obj_id o = obj_id x) (objects s)) eqn:E; [|by eexists].
  exfalso. assert (x ∈ filter (fun o => obj_id o = obj_id x) (objects s)) as Hin
    by (by apply list_elem_of_filter). rewrite E in Hin. set_solver.
Qed.

Lemma update_obj_ident i f s :
  (forall x, obj_ident (f x) = obj_ident x) -> map obj_ident (objects (update_obj i f s)) = map obj_ident (objects s).
Proof.
  intros Hf. unfold update_obj. simpl. rewrite map_map. apply map_ext. intros o. by case_decide.
Qed.

Lemma update_obj_ids i f s :
  (forall x, obj_id (f x) = obj_id x) -> obj_ids (update_obj i f s) = obj_ids s.
Proof.
  intros Hf. unfold obj_ids, update_obj. simpl. rewrite map_map. apply map_ext. intros o. by case_decide.
Qed.

End Scene.
