(* ===== verification/AssetIO.v ===== *)
(** * The Blender operators the merger calls: the Asset I/O interface

    [bpy.ops.import_scene.fbx] and [bpy.ops.export_scene.gltf] are
    Blender's, not the repository's.  [AssetIO] states what the merger
    relies on: an import either raises or adds datablocks with fresh
    identities, leaving every existing object (apart from its selection
    flag) and every existing action as it was.  The theorems about the
    merger are proved against this class.  [Scripted] is an instance that
    plays back a fixed table of FBX contents (the "fake provider" of the
    spec); it discharges the laws, and the witnesses run on it. *)

From S2P Require Import Prelude Scene.

Open Scope pipe_scope.

Module AssetIO.
Import Scene.

(** The keyword arguments of [bpy.ops.export_scene.gltf] (lines 96-110). *)
Record export_settings : Type := mk_export_settings {
  export_format : string;
  export_yup : bool;
  export_apply : bool;
  export_animations : bool;
  export_skins : bool;
  export_morph : bool;
  export_materials : string;
  export_colors : bool;
  export_normals : bool;
  export_texcoords : bool;
  export_tangents : bool;
  export_image_format : string
}.

(** The fixed configuration the script passes (lines 98-109). *)
Definition glb_settings : export_settings :=
  mk_export_settings "GLB" true true true true false "EXPORT" true true true false "AUTO".

Class AssetIO : Type := {
  (** [bpy.ops.import_scene.fbx(filepath=p, use_anim=True)]; [None]: the
      operator raised. *)
  import_fbx : string -> scene -> option scene;
  (** [bpy.ops.export_scene.gltf(filepath=p, **settings)]; [false]: the
      operator raised.  It reads the scene and writes the file [p]. *)
  export_gltf : string -> export_settings -> scene -> bool
}.

(** The contract of the import operator. *)
Class AssetIOLaws `{AssetIO} : Prop := {
  import_wf : forall p s s', wf s -> import_fbx p s = Some s' -> wf s';
  import_keeps_objects : forall p s s', import_fbx p s = Some s' ->
    map obj_key (filter (fun o => obj_id o ∈ obj_ids s) (objects s')) = map obj_key (objects s);
  import_keeps_actions : forall p s s', import_fbx p s = Some s' ->
    filter (fun a => act_id a ∈ act_ids s) (actions s') = actions s
}.

(** ** A scripted instance *)

Record fbx_object : Type := mk_fbx_object { fo_name : string; fo_type : otype }.

(** What importing one FBX file creates. *)
Record fbx_file : Type := mk_fbx_file {
  fbx_objects : list fbx_object;
  fbx_actions : list string
}.

Record script : Type := mk_script {
  sc_files : list (string * fbx_file);
  sc_export_fails : list string
}.

Definition fresh_id (l : list nat) : nat := S (list_max l).

Definition fbx_lookup (p : string) (files : list (string * fbx_file)) : option fbx_file :=
  snd <$> head (filter (fun e => e.1 = p) files).

(** Like Blender's FBX importer: the imported objects are appended and
    selected, the others deselected; an imported armature is bound to the
    first imported action. *)
Definition scripted_import (sc : script) (p : string) (s : scene) : option scene :=
  match fbx_lookup p (sc_files sc) with
  | None => None
  | Some f =>
      let a0 := fresh_id (act_ids s) in
      let o0 := fresh_id (obj_ids s) in
      let new_acts := zip_with mk_action (seq a0 (length (fbx_actions f))) (fbx_actions f) in
      let bind := match fbx_actions f with [] => None | _ => Some (mk_anim_data (Some a0)) end in
      let mk i fo := mk_obj i (fo_name fo) (fo_type fo)
                       (if decide (fo_type fo = ARMATURE) then bind else None) true in
      let new_objs := zip_with mk (seq o0 (length (fbx_objects f))) (fbx_objects f) in
      Some (mk_scene (map (set_select false) (objects s) ++ new_objs) (actions s ++ new_acts))
  end.

Definition scripted_export (sc : script) (p : string) (_ : export_settings) (_ : scene) : bool :=
  negb (bool_decide (p ∈ sc_export_fails sc)).

#[export] Instance Scripted (sc : script) : AssetIO := {|
  import_fbx := scripted_import sc;
  export_gltf := scripted_export sc
|}.

(** ** Lemmas for the scripted instance *)

Lemma map_zip_with_key {A B C} (k : C -> A) (g : A -> B -> C) (ks : list A) (xs : list B) :
  (forall i x, k (g i x) = i) -> length ks = length xs -> map k (zip_with g ks xs) = ks.
Proof.
  intros Hk. revert xs. induction ks as [|i ks IH]; intros [|x xs] Hl; simpl in *; try done.
  rewrite Hk, IH; [done | lia].
Qed.

Lemma elem_le_list_max (x : nat) (l : list nat) : x ∈ l -> x <= list_max l.
Proof.
  intros Hx. assert (Forall (fun k => k <= list_max l) l) as Hf.
  { apply list_max_le. lia. }
  rewrite Forall_forall in Hf. by apply Hf.
Qed.

Lemma fresh_not_old (x n : nat) (l : list nat) : x ∈ l -> x ∉ seq (fresh_id l) n.
Proof. intros Hx%elem_le_list_max. rewrite elem_of_seq. unfold fresh_id. lia. Qed.

Lemma NoDup_app_fresh (l : list nat) (n : nat) : NoDup l -> NoDup (l ++ seq (fresh_id l) n).
Proof.
  intros Hl. apply NoDup_app. split; [done|]. split; [|apply NoDup_seq].
  intros x Hx. by apply fresh_not_old.
Qed.

Lemma obj_key_set_select b o : obj_key (set_select b o) = obj_key o.
Proof. done. Qed.

(** Restricting [old ++ new] to the old identities gives back [old]
    when the new identities are fresh. *)
Lemma filter_old_fresh {C} (key : C -> nat) (old new : list C) (n : nat) :
  map key new = seq (fresh_id (map key old)) n ->
  filter (fun o => key o ∈ map key old) (old ++ new) = old.
Proof.
  intros Hnew. rewrite filter_app, filter_all, filter_none, app_nil_r; [done| |].
  - apply Forall_forall. intros o Ho Hold.
    apply (fresh_not_old (key o) n (map key old) Hold). rewrite <- Hnew.
    by apply elem_of_map_2.
  - apply Forall_forall. intros o Ho. by apply elem_of_map_2.
Qed.

Section ScriptedLaws.
Context (sc : script).

Lemma scripted_import_wf p s s' : wf s -> scripted_import sc p s = Some s' -> wf s'.
Proof.
  unfold scripted_import, wf, obj_ids, act_ids.
  destruct (fbx_lookup p (sc_files sc)) as [f|]; [|done]. intros [Ho Ha] [= <-]. simpl.
  rewrite !map_app, map_map. simpl.
  rewrite !map_zip_with_key by (done || apply length_seq).
  split; by apply NoDup_app_fresh.
Qed.

Lemma scripted_import_keeps_objects p s s' : scripted_import sc p s = Some s' ->
  map obj_key (filter (fun o => obj_id o ∈ obj_ids s) (objects s')) = map obj_key (objects s).
Proof.
  unfold scripted_import, obj_ids. destruct (fbx_lookup p (sc_files sc)) as [f|]; [|done].
  intros [= <-]. simpl.
  replace (map obj_id (objects s)) with (map obj_id (map (set_select false) (objects s)))
    by (rewrite map_map; done).
  rewrite (filter_old_fresh obj_id _ _ (length (fbx_objects f))).
  - by rewrite map_map.
  - rewrite map_map. apply map_zip_with_key; [done | apply length_seq].
Qed.

Lemma scripted_import_keeps_actions p s s' : scripted_import sc p s = Some s' ->
  filter (fun a => act_id a ∈ act_ids s) (actions s') = actions s.
Proof.
  unfold scripted_import, act_ids. destruct (fbx_lookup p (sc_files sc)) as [f|]; [|done].
  intros [= <-]. simpl. apply (filter_old_fresh act_id _ _ (length (fbx_actions f))).
  apply map_zip_with_key; [done | apply length_seq].
Qed.
End ScriptedLaws.

#[export] Instance Scripted_laws (sc : script) : @AssetIOLaws (Scripted sc).
Proof.
  split; [apply scripted_import_wf | apply scripted_import_keeps_objects
         | apply scripted_import_keeps_actions].
Qed.

End AssetIO.
