(* ===== verification/Merge.v ===== *)
(** * The animation merge loop of [fbx_to_glb.py] (lines 53-83)

    For every animation source [ap], in order: snapshot the action and
    object sets, import [ap], prefix the names of the new actions with
    the file's stem unless they already start with it, select and delete
    the new objects, and add the new actions to [existing_actions].
    The loop is written in the state-and-exception monad of the prelude
    over [Scene.scene]; an import that raises stops the loop with the
    path of the source. *)

From S2P Require Import Prelude PyStr PosixPath Scene AssetIO.

Open Scope pipe_scope.

Module Merge.
Import Scene AssetIO.

(** ** Renaming (lines 66-71) *)

(** The body of [for a in new_actions]: [if not a.name.lower().startswith(
    base.lower()): a.name = f"{base}_{a.name}"]. *)
Definition prefix_action (base : string) (a : action) : action :=
  if negb (PyStr.startswith (PyStr.lower (act_name a)) (PyStr.lower base))
  then set_action_name (base +:+ "_" +:+ act_name a) a
  else a.

Definition rename_new_actions (base : string) (new_actions : list nat) (s : scene) : scene :=
  foldl (fun s i => update_action i (prefix_action base) s) s new_actions.

(** ** Cleanup (lines 73-80) *)

Definition delete_new_objects (new_objs : list nat) (s : scene) : scene :=
  match new_objs with
  | [] => s
  | _ => delete_selected (foldl (fun s i => select_set i true s) (deselect_all s) new_objs)
  end.

Section Loop.
Context `{IO : AssetIO}.

(** One iteration of [for ap in anim_paths] (lines 58-83).  The state
    is the scene; [existing] is the local [existing_actions]. *)
Definition import_animation (ap : string) (existing : gset nat) : stE scene string (gset nat) :=
  fun s =>
    let before_actions := act_set s in
    let before_objs := obj_set s in
    match import_fbx ap s with
    | None => (s, Raise ap)
    | Some s1 =>
        let new_actions := elements (act_set s1 ∖ before_actions) in
        let base := PosixPath.stem ap in
        let s2 := rename_new_actions base new_actions s1 in
        let new_objs := elements (obj_set s2 ∖ before_objs) in
        let s3 := delete_new_objects new_objs s2 in
        (s3, Ok (existing ∪ list_to_set new_actions))
    end.

(** [for ap in anim_paths: ...] *)
Fixpoint import_animations (aps : list string) (existing : gset nat) : stE scene string (gset nat) :=
  match aps with
  | [] => sret existing
  | ap :: aps' => sbind (import_animation ap existing) (import_animations aps')
  end.
End Loop.

(** ** Renaming and cleanup, one call at a time *)

Lemma prefix_action_id b a : act_id (prefix_action b a) = act_id a.
Proof. unfold prefix_action. by destruct (negb _). Qed.

Lemma prefix_action_idempotent b a : prefix_action b (prefix_action b a) = prefix_action b a.
Proof.
  unfold prefix_action at 2.
  destruct (PyStr.startswith (PyStr.lower (act_name a)) (PyStr.lower b)) eqn:E; simpl.
  - unfold prefix_action. by rewrite E.
  - unfold prefix_action. cbn [act_name set_action_name].
    by rewrite E, PyStr.lower_app, PyStr.startswith_app.
Qed.

(** C6: Renaming is idempotent: a clip renamed with a stem already starts with that stem up to case, so renaming it again leaves it unchanged. *)
Theorem prefix_action_idem b a : prefix_action b (prefix_action b a) = prefix_action b a.
Proof. apply prefix_action_idempotent. Qed.

(** After renaming, the name starts with the stem, up to case. *)
Lemma prefix_action_startswith b a :
  PyStr.startswith (PyStr.lower (act_name (prefix_action b a))) (PyStr.lower b) = true.
Proof.
  unfold prefix_action. destruct (PyStr.startswith (PyStr.lower (act_name a)) (PyStr.lower b)) eqn:E; [done|].
  cbn [negb act_name set_action_name]. by rewrite PyStr.lower_app, PyStr.startswith_app.
Qed.

Lemma prefix_action_fresh b a :
  PyStr.startswith (PyStr.lower (act_name a)) (PyStr.lower b) = false ->
  prefix_action b a = set_action_name (b +:+ "_" +:+ act_name a) a.
Proof. unfold prefix_action. by intros ->. Qed.

Lemma rename_new_actions_eq b ids s :
  rename_new_actions b ids s =
  mk_scene (objects s) (map (fun a => if decide (act_id a ∈ ids) then prefix_action b a else a) (actions s)).
Proof.
  unfold rename_new_actions. rewrite <- (foldl_update_idem act_id (prefix_action b) ids (actions s))
    by (apply prefix_action_id || apply prefix_action_idempotent).
  revert s. induction ids as [|i ids IH]; intros [os acts]; [done|]. simpl. by rewrite IH.
Qed.

Lemma select_new_spec ids s :
  foldl (fun s i => select_set i true s) s ids =
  mk_scene (map (fun o => if decide (obj_id o ∈ ids) then set_select true o else o) (objects s)) (actions s).
Proof.
  rewrite <- (foldl_update_idem obj_id (set_select true) ids (objects s)) by done.
  revert s. induction ids as [|i ids IH]; intros [os acts]; [done|]. simpl. by rewrite IH.
Qed.

Lemma delete_new_objects_eq new s :
  map obj_key (objects (delete_new_objects new s)) = map obj_key (filter (fun o => obj_id o ∉ new) (objects s))
  /\ actions (delete_new_objects new s) = actions s.
Proof.
  unfold delete_new_objects. destruct new as [|i new'] eqn:Hn.
  - split; [|done]. f_equal. symmetry. apply filter_all, Forall_forall. set_solver.
  - rewrite <- Hn. rewrite select_new_spec. split; [|done]. simpl. rewrite map_map.
    induction (objects s) as [|o os IH]; [done|]. simpl. rewrite !filter_cons.
    destruct (decide (obj_id o ∈ new)); simpl; repeat case_decide; simpl in *;
      try done; try congruence; by f_equal.
Qed.


Lemma obj_ids_rename b ids s : obj_ids (rename_new_actions b ids s) = obj_ids s.
Proof. by rewrite rename_new_actions_eq. Qed.

Lemma act_ids_rename b ids s : act_ids (rename_new_actions b ids s) = act_ids s.
Proof.
  rewrite rename_new_actions_eq. unfold act_ids. simpl. rewrite map_map.
  apply map_ext. intros a. case_decide; [apply prefix_action_id | done].
Qed.

Lemma obj_ids_of_keys (l1 l2 : list obj) : map obj_key l1 = map obj_key l2 -> map obj_id l1 = map obj_id l2.
Proof.
  intros H. apply (f_equal (map (fun k => k.1.1.1))) in H. by rewrite !map_map in H.
Qed.

(** ** One merge step, against the import contract *)

Section Step.
Context `{IO : AssetIO} `{!AssetIOLaws}.

Lemma import_obj_ids_sub ap s s1 : import_fbx ap s = Some s1 -> obj_ids s ⊆ obj_ids s1.
Proof.
  intros Hi i Hin. pose proof (obj_ids_of_keys _ _ (import_keeps_objects _ _ _ Hi)) as Hk.
  unfold obj_ids at 1 in Hin. rewrite <- Hk in Hin.
  apply elem_of_map in Hin as (o & -> & Ho%list_elem_of_filter).
  unfold obj_ids. apply elem_of_map_2, Ho.
Qed.

Lemma import_act_ids_sub ap s s1 : import_fbx ap s = Some s1 -> act_ids s ⊆ act_ids s1.
Proof.
  intros Hi i Hin. unfold act_ids at 1 in Hin. rewrite <- (import_keeps_actions _ _ _ Hi) in Hin.
  apply elem_of_map in Hin as (a & -> & Ha%list_elem_of_filter).
  unfold act_ids. apply elem_of_map_2, Ha.
Qed.

(** What one step computes when the import returns [s1]. *)
Lemma import_animation_eq ap ex s s1 :
  import_fbx ap s = Some s1 ->
  let s2 := rename_new_actions (PosixPath.stem ap) (elements (act_set s1 ∖ act_set s)) s1 in
  import_animation ap ex s =
    (delete_new_objects (elements (obj_set s2 ∖ obj_set s)) s2,
     Ok (ex ∪ list_to_set (elements (act_set s1 ∖ act_set s)))).
Proof. intros Hi. unfold import_animation. by rewrite Hi. Qed.

Lemma step_objects ap ex s s' ex' :
  import_animation ap ex s = (s', Ok ex') -> map obj_key (objects s') = map obj_key (objects s).
Proof.
  destruct (import_fbx ap s) as [s1|] eqn:Hi; [|unfold import_animation; by rewrite Hi].
  rewrite (import_animation_eq _ _ _ _ Hi). intros [= <- _].
  rewrite (proj1 (delete_new_objects_eq _ _)), rename_new_actions_eq.
  rewrite <- (import_keeps_objects _ _ _ Hi). f_equal. apply filter_ext_in. intros o Ho.
  assert (obj_id o ∈ obj_ids s1) by (unfold obj_ids; by apply elem_of_map_2).
  unfold obj_set. simpl. rewrite elem_of_elements, elem_of_difference, !elem_of_list_to_set.
  unfold obj_ids in *. simpl. destruct (decide (obj_id o ∈ map obj_id (objects s))); tauto.
Qed.

(** C2: One iteration of the animation loop leaves the objects exactly as they were before the import (selection flags apart): the objects the import created are all deleted and no other object is touched. *)
Theorem import_animation_objects ap ex s s' ex' :
  import_animation ap ex s = (s', Ok ex') -> map obj_key (objects s') = map obj_key (objects s).
Proof. apply step_objects. Qed.

Lemma step_actions ap ex s s1 s' ex' :
  import_fbx ap s = Some s1 -> import_animation ap ex s = (s', Ok ex') ->
  actions s' = map (fun a => if decide (act_id a ∈ act_ids s) then a else prefix_action (PosixPath.stem ap) a)
                   (actions s1).
Proof.
  intros Hi. rewrite (import_animation_eq _ _ _ _ Hi). intros [= <- _].
  rewrite (proj2 (delete_new_objects_eq _ _)), rename_new_actions_eq. simpl.
  apply map_ext_in. intros a Ha%list_elem_of_In.
  assert (act_id a ∈ act_ids s1) by (unfold act_ids; by apply elem_of_map_2).
  unfold act_set. case_decide as H1; case_decide as H2; try done;
    rewrite elem_of_elements, elem_of_difference, !elem_of_list_to_set in H1; tauto.
Qed.

(** C3: After one iteration, the action list is the one the import produced, where every action the import created is renamed by [prefix_action] with the source's stem and every older action is unchanged. *)
Theorem import_animation_actions ap ex s s1 s' ex' :
  import_fbx ap s = Some s1 -> import_animation ap ex s = (s', Ok ex') ->
  actions s' = map (fun a => if decide (act_id a ∈ act_ids s) then a else prefix_action (PosixPath.stem ap) a)
                   (actions s1).
Proof. apply step_actions. Qed.

Lemma import_animation_raise ap ex s : import_fbx ap s = None -> import_animation ap ex s = (s, Raise ap).
Proof. intros Hi. unfold import_animation. by rewrite Hi. Qed.

(** Renaming keeps identities: the action identities after the step are
    those right after the import. *)
Lemma import_animation_act_ids ap ex s s1 s' ex' :
  import_fbx ap s = Some s1 -> import_animation ap ex s = (s', Ok ex') -> act_ids s' = act_ids s1.
Proof.
  intros Hi Hr. unfold act_ids. rewrite (step_actions _ _ _ _ _ _ Hi Hr), map_map.
  apply map_ext. intros a. case_decide; [done | apply prefix_action_id].
Qed.

Lemma step_clip_count ap ex s s1 s' ex' :
  import_fbx ap s = Some s1 -> import_animation ap ex s = (s', Ok ex') ->
  length (actions s') = length (actions s) + length (filter (fun a => act_id a ∉ act_ids s) (actions s1)).
Proof.
  intros Hi Hr. rewrite (step_actions _ _ _ _ _ _ Hi Hr), length_map.
  rewrite <- (import_keeps_actions _ _ _ Hi). symmetry.
  apply (filter_split_length (fun a => act_id a ∈ act_ids s)).
Qed.

(** Clip accounting: after one iteration the number of actions is the number before it plus the number of actions the import created. *)
Theorem import_animation_clip_count ap ex s s1 s' ex' :
  import_fbx ap s = Some s1 -> import_animation ap ex s = (s', Ok ex') ->
  length (actions s') = length (actions s) + length (filter (fun a => act_id a ∉ act_ids s) (actions s1)).
Proof. apply step_clip_count. Qed.

Lemma step_keeps_clips ap ex s s' ex' :
  import_animation ap ex s = (s', Ok ex') -> filter (fun a => act_id a ∈ act_ids s) (actions s') = actions s.
Proof.
  destruct (import_fbx ap s) as [s1|] eqn:Hi; [|by rewrite import_animation_raise].
  intros Hr. rewrite (step_actions _ _ _ _ _ _ Hi Hr), filter_map_id.
  - apply (import_keeps_actions _ _ _ Hi).
  - intros a Ha. by rewrite decide_True.
  - intros a. case_decide; [done|]. by rewrite prefix_action_id.
Qed.

Lemma step_existing ap ex s s' ex' :
  ex = act_set s -> import_animation ap ex s = (s', Ok ex') -> ex' = act_set s'.
Proof.
  intros ->. destruct (import_fbx ap s) as [s1|] eqn:Hi; [|by rewrite import_animation_raise].
  intros Hr. pose proof (import_act_ids_sub _ _ _ Hi) as Hsub.
  unfold act_set. rewrite (import_animation_act_ids _ _ _ _ _ _ Hi Hr).
  rewrite (import_animation_eq _ _ _ _ Hi) in Hr. injection Hr as _ <-.
  apply set_eq. intros x. destruct (decide (x ∈ act_ids s)); set_solver.
Qed.

Lemma step_wf ap ex s s' ex' : wf s -> import_animation ap ex s = (s', Ok ex') -> wf s'.
Proof.
  intros Hwf. destruct (import_fbx ap s) as [s1|] eqn:Hi; [|by rewrite import_animation_raise].
  destruct (import_wf _ _ _ Hwf Hi) as [Ho Ha]. intros Hr. split.
  - rewrite (import_animation_eq _ _ _ _ Hi) in Hr. injection Hr as <- _.
    unfold obj_ids. rewrite (obj_ids_of_keys _ _ (proj1 (delete_new_objects_eq _ _))).
    rewrite rename_new_actions_eq. by apply NoDup_map_filter.
  - by rewrite (import_animation_act_ids _ _ _ _ _ _ Hi Hr).
Qed.

(** A clip present before the step is still there after it. *)
Lemma step_keeps_in ap ex s s' ex' a :
  import_animation ap ex s = (s', Ok ex') -> a ∈ actions s -> a ∈ actions s'.
Proof.
  intros Hr Ha. rewrite <- (step_keeps_clips _ _ _ _ _ Hr) in Ha.
  by apply list_elem_of_filter in Ha as [_ Ha].
Qed.

(** A clip the import created comes out of the step renamed. *)
Lemma step_created_in ap ex s s1 s' ex' a :
  import_fbx ap s = Some s1 -> import_animation ap ex s = (s', Ok ex') ->
  a ∈ actions s1 -> act_id a ∉ act_ids s -> prefix_action (PosixPath.stem ap) a ∈ actions s'.
Proof.
  intros Hi Hr Ha Hn. rewrite (step_actions _ _ _ _ _ _ Hi Hr).
  apply list_elem_of_In, in_map_iff. exists a. rewrite decide_False by done.
  split; [done | by apply list_elem_of_In].
Qed.

(** Every clip a step adds starts with the source's stem, up to case. *)
Lemma step_new_names ap ex s s' ex' a :
  import_animation ap ex s = (s', Ok ex') -> a ∈ actions s' -> act_id a ∉ act_ids s ->
  PyStr.startswith (PyStr.lower (act_name a)) (PyStr.lower (PosixPath.stem ap)) = true.
Proof.
  destruct (import_fbx ap s) as [s1|] eqn:Hi; [|by rewrite import_animation_raise].
  intros Hr Ha Hn. rewrite (step_actions _ _ _ _ _ _ Hi Hr) in Ha.
  apply list_elem_of_In, in_map_iff in Ha as (a0 & <- & _).
  case_decide as Ho; [done | apply prefix_action_startswith].
Qed.

(** C15: An animation source whose import creates no action is accepted
    silently: the iteration returns normally, [existing_actions] is left
    as it was and the action list after it is the one before it. *)
Theorem import_animation_no_new_clip ap ex s s1 :
  import_fbx ap s = Some s1 -> act_ids s1 ⊆ act_ids s ->
  exists s', import_animation ap ex s = (s', Ok ex) /\ actions s' = actions s.
Proof.
  intros Hi Hsub. assert (Hd : act_set s1 ∖ act_set s = ∅).
  { apply leibniz_equiv. intros x. unfold act_set. rewrite elem_of_difference, !elem_of_list_to_set. set_solver. }
  assert (Hr : import_animation ap ex s = (fst (import_animation ap ex s), Ok ex)).
  { rewrite (import_animation_eq _ _ _ _ Hi). cbv zeta. cbn [fst].
    by rewrite Hd, elements_empty, list_to_set_nil, union_empty_r_L. }
  eexists. split; [exact Hr|]. rewrite (step_actions _ _ _ _ _ _ Hi Hr).
  rewrite <- (import_keeps_actions _ _ _ Hi), filter_all.
  - rewrite <- (map_id (actions s1)) at 2. apply map_ext_in. intros a Ha%list_elem_of_In.
    rewrite decide_True; [done|]. apply Hsub. unfold act_ids. by apply elem_of_map_2.
  - apply Forall_forall. intros a Ha. apply Hsub. unfold act_ids. by apply elem_of_map_2.
Qed.
End Step.

(** ** The whole loop *)

Lemma keeps_clips_trans (s0 s1 s2 : scene) :
  filter (fun a => act_id a ∈ act_ids s1) (actions s2) = actions s1 ->
  filter (fun a => act_id a ∈ act_ids s0) (actions s1) = actions s0 ->
  filter (fun a => act_id a ∈ act_ids s0) (actions s2) = actions s0.
Proof.
  intros H21 H10.
  assert (act_ids s0 ⊆ act_ids s1) as Hsub.
  { intros i Hin. unfold act_ids at 1 in Hin. rewrite <- H10 in Hin.
    apply elem_of_map in Hin as (a & -> & Ha%list_elem_of_filter). unfold act_ids. apply elem_of_map_2, Ha. }
  rewrite <- H10, <- H21, list_filter_filter.
  apply list_filter_iff. intros a. split; [|tauto]. intros Ha. split; [done|]. by apply Hsub.
Qed.

Section Loop2.
Context `{IO : AssetIO} `{!AssetIOLaws}.

Lemma loop_invariant aps ex s s' ex' :
  wf s -> ex = act_set s -> import_animations aps ex s = (s', Ok ex') ->
  wf s' /\ ex' = act_set s' /\ map obj_key (objects s') = map obj_key (objects s)
  /\ filter (fun a => act_id a ∈ act_ids s) (actions s') = actions s.
Proof.
  revert ex s. induction aps as [|ap aps IH]; intros ex s Hwf Hex.
  - intros [= <- <-]. split_and!; [done..|]. apply filter_all, Forall_forall.
    intros a Ha. unfold act_ids. by apply elem_of_map_2.
  - simpl. destruct (import_animation ap ex s) as [s1 [ex1|e]] eqn:Hst;
      [|by rewrite (sbind_raise _ _ _ _ _ Hst)].
    rewrite (sbind_ok _ _ _ _ _ Hst). intros Hrest.
    destruct (IH ex1 s1 (step_wf _ _ _ _ _ Hwf Hst)
                (step_existing _ _ _ _ _ Hex Hst) Hrest) as (Hwf' & Hex' & Hk & Hc).
    split_and!; [done | done | by rewrite Hk, (step_objects _ _ _ _ _ Hst)|].
    eapply keeps_clips_trans; [exact Hc | exact (step_keeps_clips _ _ _ _ _ Hst)].
Qed.

(** C5: Over the whole animation loop the scene stays well formed, [existing_actions] stays equal to the set of action identities, the objects stay those of the base import and the actions present before the loop are kept unchanged. *)
Theorem import_animations_invariant aps ex s s' ex' :
  wf s -> ex = act_set s -> import_animations aps ex s = (s', Ok ex') ->
  wf s' /\ ex' = act_set s' /\ map obj_key (objects s') = map obj_key (objects s)
  /\ filter (fun a => act_id a ∈ act_ids s) (actions s') = actions s.
Proof. apply loop_invariant. Qed.

(** C11: If the animation loop raises for path [p], then [p] is the first source whose import failed: the sources before it were merged normally, and the scene is the one they left. *)
Theorem import_animations_raise aps ex s s' p :
  import_animations aps ex s = (s', Raise p) ->
  exists pre post ex0, aps = pre ++ p :: post /\ import_animations pre ex s = (s', Ok ex0)
                       /\ import_fbx p s' = None.
Proof.
  revert ex s. induction aps as [|ap aps IH]; intros ex s; [done|]. simpl.
  destruct (import_fbx ap s) as [s1|] eqn:Hi.
  - destruct (import_animation ap ex s) as [s2 [ex2|e]] eqn:Hst.
    + rewrite (sbind_ok _ _ _ _ _ Hst). intros Hrest.
      destruct (IH _ _ Hrest) as (pre & post & ex0 & -> & Hpre & Hp).
      exists (ap :: pre), post, ex0. split_and!; [done | | done]. simpl. by rewrite (sbind_ok _ _ _ _ _ Hst).
    + unfold import_animation in Hst. by rewrite Hi in Hst.
  - rewrite (sbind_raise _ _ _ _ _ (import_animation_raise _ ex _ Hi)). intros [= <- <-].
    by exists [], aps, ex.
Qed.
(** The loop keeps every action present before it, unchanged. *)
Lemma loop_keeps_clips aps ex s s' ex' :
  import_animations aps ex s = (s', Ok ex') -> filter (fun a => act_id a ∈ act_ids s) (actions s') = actions s.
Proof.
  revert ex s. induction aps as [|ap aps IH]; intros ex s; simpl.
  - intros [= <- _]. apply filter_all, Forall_forall. intros a Ha. unfold act_ids. by apply elem_of_map_2.
  - intros (s1 & ex1 & Hst & Hrest)%sbind_ok_inv.
    eapply keeps_clips_trans; [exact (IH _ _ Hrest) | exact (step_keeps_clips _ _ _ _ _ Hst)].
Qed.

Lemma loop_keeps_in aps ex s s' ex' a :
  import_animations aps ex s = (s', Ok ex') -> a ∈ actions s -> a ∈ actions s'.
Proof.
  intros Hr Ha. rewrite <- (loop_keeps_clips _ _ _ _ _ Hr) in Ha.
  by apply list_elem_of_filter in Ha as [_ Ha].
Qed.

(** C7: Every clip the animation loop adds is named after one of the
    animation sources: its lower-cased name starts with the lower-cased
    stem of one of the paths (property (d) of the spec, over the whole
    loop). *)
Theorem import_animations_names aps ex s s' ex' a :
  import_animations aps ex s = (s', Ok ex') -> a ∈ actions s' -> act_id a ∉ act_ids s ->
  exists ap, ap ∈ aps /\ PyStr.startswith (PyStr.lower (act_name a)) (PyStr.lower (PosixPath.stem ap)) = true.
Proof.
  revert ex s. induction aps as [|ap aps IH]; intros ex s; simpl.
  - intros [= <- _] Ha Hn. destruct Hn. unfold act_ids. by apply elem_of_map_2.
  - intros (s1 & ex1 & Hst & Hrest)%sbind_ok_inv Ha Hn.
    destruct (decide (act_id a ∈ act_ids s1)) as [Hin|Hout].
    + exists ap. split; [constructor|]. apply (step_new_names _ _ _ _ _ _ Hst); [|done].
      rewrite <- (loop_keeps_clips _ _ _ _ _ Hrest). by apply list_elem_of_filter.
    + destruct (IH _ _ Hrest Ha Hout) as (ap' & Hap' & Hpre). exists ap'. split; [by constructor|done].
Qed.

(** C16: Order sensitivity (the spec's property for two sources): when
    the loop runs over [apA; apB] with sources of different stems, the
    import of [apA] creates a clip [a], the import of [apB] (in the scene
    the first iteration left) a clip [b] of the same name, and that name
    starts with neither stem, then the loop completes and the merged
    scene holds both clips, named [<stem A>_name] and [<stem B>_name],
    two different names. *)
Theorem import_animations_order apA apB ex s tA tB a b :
  import_fbx apA s = Some tA -> a ∈ actions tA -> act_id a ∉ act_ids s ->
  import_fbx apB (fst (import_animation apA ex s)) = Some tB -> b ∈ actions tB ->
  act_id b ∉ act_ids (fst (import_animation apA ex s)) ->
  act_name a = act_name b -> PosixPath.stem apA <> PosixPath.stem apB ->
  PyStr.startswith (PyStr.lower (act_name a)) (PyStr.lower (PosixPath.stem apA)) = false ->
  PyStr.startswith (PyStr.lower (act_name a)) (PyStr.lower (PosixPath.stem apB)) = false ->
  exists s' ex', import_animations [apA; apB] ex s = (s', Ok ex') /\
    set_action_name (PosixPath.stem apA +:+ "_" +:+ act_name a) a ∈ actions s' /\
    set_action_name (PosixPath.stem apB +:+ "_" +:+ act_name b) b ∈ actions s' /\
    PosixPath.stem apA +:+ "_" +:+ act_name a <> PosixPath.stem apB +:+ "_" +:+ act_name b.
Proof.
  intros HiA Ha HnA HiB Hb HnB Heq Hst HsA HsB.
  destruct (import_animation apA ex s) as [sA [exA|e]] eqn:HrA;
    [|by rewrite (import_animation_eq _ _ _ _ HiA) in HrA]. cbn [fst] in *.
  destruct (import_animation apB exA sA) as [sB [exB|e]] eqn:HrB;
    [|by rewrite (import_animation_eq _ _ _ _ HiB) in HrB].
  exists sB, exB. split_and!.
  - cbn [import_animations]. by rewrite (sbind_ok _ _ _ _ _ HrA), (sbind_ok _ _ _ _ _ HrB).
  - apply (step_keeps_in _ _ _ _ _ _ HrB). rewrite <- prefix_action_fresh by done.
    exact (step_created_in _ _ _ _ _ _ _ HiA HrA Ha HnA).
  - rewrite <- prefix_action_fresh by (by rewrite <- Heq).
    exact (step_created_in _ _ _ _ _ _ _ HiB HrB Hb HnB).
  - rewrite <- Heq, !PyStr.append_assoc. intros Hn%PyStr.append_inj_r. apply Hst.
    by apply (PyStr.append_inj_r _ _ "_").
Qed.
End Loop2.

(** ** Progress of the loop *)

Section Progress.
Context `{IO : AssetIO}.

Lemma loop_progress aps ex s :
  Forall (fun ap => forall s, is_Some (import_fbx ap s)) aps ->
  exists s' ex', import_animations aps ex s = (s', Ok ex').
Proof.
  intros Hall. revert ex s. induction Hall as [|ap aps Hap _ IH]; intros ex s; simpl; [by eexists _, _|].
  destruct (Hap s) as [s1 Hi]. rewrite (sbind_ok _ _ _ _ _ (import_animation_eq ap ex s s1 Hi)). apply IH.
Qed.

(** C13: The loop always runs to its end when the importer accepts every
    animation source: nothing else in lines 53-83 can raise. *)
Theorem import_animations_progress aps ex s :
  Forall (fun ap => forall s, is_Some (import_fbx ap s)) aps ->
  exists s' ex', import_animations aps ex s = (s', Ok ex').
Proof. apply loop_progress. Qed.
End Progress.

End Merge.
