(* ===== verification/MergeSpec.v ===== *)
(** * An abstract specification of the merge loop and its refinement

    What the animation loop of [fbx_to_glb.py] (lines 53-83) promises,
    stated without scenes, operators or snapshots: a clip library (the
    objects, up to selection, and the clips as a finite map from identity
    to name) to which every source adds the clips its import created,
    each renamed after the source's stem ([absorb]), sources in order,
    stopping at the first source the importer refuses ([merge_spec]).
    The importer is seen through [LibraryImport]: the clips an import
    creates are a function of the library, the law [import_clips_spec]
    ties it to [AssetIO.import_fbx].  The refinement theorem shows that
    every run of [Merge.import_animations] computes, under the
    abstraction [abs], exactly what [merge_spec] prescribes, on the
    normal and on the raising path.  [Scripted_library] discharges the
    class for the scripted importer. *)

From S2P Require Import Prelude PyStr PosixPath Scene AssetIO Merge.

Open Scope pipe_scope.

Module MergeSpec.
Import Scene AssetIO Merge.

(** ** The abstract clip library *)

Record library : Type := mk_library {
  lib_objects : list (nat * string * otype * option anim_data);
  lib_clips : gmap nat string
}.

(** The renaming of lines 70-71 on a clip name. *)
Definition prefix_name (base n : string) : string :=
  if negb (PyStr.startswith (PyStr.lower n) (PyStr.lower base)) then base +:+ "_" +:+ n else n.

(** ** The abstraction of a scene *)

Definition clip_map (acts : list action) : gmap nat string :=
  list_to_map (map (fun a => (act_id a, act_name a)) acts).

Definition abs (s : scene) : library := mk_library (map obj_key (objects s)) (clip_map (actions s)).

(** The clips the import of [ap] created. *)
Definition created (s s1 : scene) : gmap nat string :=
  clip_map (filter (fun a => act_id a ∉ act_ids s) (actions s1)).

(** ** The specification *)

(** One source [ap] whose import created the clips [C]: they join the
    library, renamed after the stem. *)
Definition absorb (L : library) (ap : string) (C : gmap nat string) : library :=
  mk_library (lib_objects L) (lib_clips L ∪ (prefix_name (PosixPath.stem ap) <$> C)).

(** The importer at the level of the library: the clips the import of
    [ap] creates ([None]: the import raises). *)
Class LibraryImport {IO : AssetIO} : Type := {
  import_clips : string -> library -> option (gmap nat string)
}.

(** The sources, in order; [None]: some source was refused. *)
Fixpoint merge_spec {IO : AssetIO} {LI : LibraryImport} (aps : list string) (L : library) : option library :=
  match aps with
  | [] => Some L
  | ap :: aps' =>
      match import_clips ap L with
      | None => None
      | Some C => merge_spec aps' (absorb L ap C)
      end
  end.

(** The law linking the two views of the importer: on a well-formed
    scene, [import_clips] answers what [import_fbx] creates. *)
Class LibraryImportLaws {IO : AssetIO} {LI : LibraryImport} : Prop := {
  import_clips_spec : forall ap s, wf s -> import_clips ap (abs s) = created s <$> import_fbx ap s
}.

(** The scripted importer at the level of the library: the file's
    actions, numbered from the next free identity. *)
Definition scripted_clips (sc : script) (ap : string) (L : library) : option (gmap nat string) :=
  (fun f => list_to_map (zip (seq (fresh_id (elements (dom (lib_clips L)))) (length (fbx_actions f)))
                             (fbx_actions f)))
  <$> fbx_lookup ap (sc_files sc).

#[export] Instance Scripted_library (sc : script) : @LibraryImport (Scripted sc) :=
  {| import_clips := scripted_clips sc |}.

(** ** Lemmas on the abstraction *)

Lemma act_name_prefix b a : act_name (prefix_action b a) = prefix_name b (act_name a).
Proof. unfold prefix_action, prefix_name. by destruct (negb _). Qed.

Lemma clip_map_fst (l : list action) : (map (fun a => (act_id a, act_name a)) l).*1 = map act_id l.
Proof. by rewrite fmap_as_map, map_map. Qed.

Lemma clip_map_app l1 l2 : clip_map (l1 ++ l2) = clip_map l1 ∪ clip_map l2.
Proof. unfold clip_map. by rewrite map_app, list_to_map_app. Qed.

Lemma clip_map_perm l1 l2 : NoDup (map act_id l1) -> l1 ≡ₚ l2 -> clip_map l1 = clip_map l2.
Proof. intros Hnd Hp. apply list_to_map_proper; [by rewrite clip_map_fst | by apply Permutation_map]. Qed.

Lemma clip_map_prefix b l : clip_map (map (prefix_action b) l) = prefix_name b <$> clip_map l.
Proof.
  unfold clip_map. rewrite <- list_to_map_fmap. f_equal. rewrite (fmap_as_map (prod_map id (prefix_name b))), !map_map.
  apply map_ext. intros a. simpl. by rewrite prefix_action_id, act_name_prefix.
Qed.

Lemma dom_clip_map l : dom (clip_map l) = list_to_set (map act_id l).
Proof. unfold clip_map. by rewrite dom_list_to_map_L, clip_map_fst. Qed.

Lemma list_max_perm (l1 l2 : list nat) : l1 ≡ₚ l2 -> list_max l1 = list_max l2.
Proof.
  intros Hp. apply Nat.le_antisymm; apply list_max_le, Forall_forall; intros x Hx; apply elem_le_list_max;
    [by rewrite <- Hp | by rewrite Hp].
Qed.

Lemma clip_map_zip_with ks xs : clip_map (zip_with mk_action ks xs) = list_to_map (zip ks xs).
Proof. unfold clip_map. f_equal. revert xs. induction ks as [|k ks IH]; intros [|x xs]; simpl; by f_equal. Qed.

(** The renaming map of [Merge.step_actions] keeps identities. *)
Lemma map_rename_ids (P : action -> Prop) `{!forall a, Decision (P a)} b l :
  map act_id (map (fun a => if decide (P a) then a else prefix_action b a) l) = map act_id l.
Proof. rewrite map_map. apply map_ext. intros a. case_decide; [done | apply prefix_action_id]. Qed.

(** The actions after one iteration, abstracted: the old clips and the
    new ones renamed. *)
Lemma clip_map_step (P : action -> Prop) `{!forall a, Decision (P a)} b l :
  NoDup (map act_id l) ->
  clip_map (map (fun a => if decide (P a) then a else prefix_action b a) l)
  = clip_map (filter P l) ∪ (prefix_name b <$> clip_map (filter (fun a => ¬ P a) l)).
Proof.
  intros Hnd. rewrite (clip_map_perm _ (map (fun a => if decide (P a) then a else prefix_action b a)
                                            (filter P l ++ filter (fun a => ¬ P a) l))).
  - rewrite map_app, clip_map_app, <- clip_map_prefix. f_equal; f_equal.
    + rewrite <- (map_id (filter P l)) at 2. apply map_ext_in. intros a Ha%list_elem_of_In.
      apply list_elem_of_filter in Ha as [Ha _]. by rewrite decide_True.
    + apply map_ext_in. intros a Ha%list_elem_of_In.
      apply list_elem_of_filter in Ha as [Ha _]. by rewrite decide_False.
  - by rewrite map_rename_ids.
  - apply Permutation_map. symmetry. apply filter_app_complement.
Qed.

#[export] Instance Scripted_library_laws (sc : script) : @LibraryImportLaws (Scripted sc) (Scripted_library sc).
Proof.
  split. intros ap s [_ Hnd]. cbn [import_clips import_fbx Scripted Scripted_library].
  unfold scripted_clips, scripted_import. destruct (fbx_lookup ap (sc_files sc)) as [f|]; [|done].
  cbn [fmap option_fmap option_map]. f_equal. unfold created. cbn [actions].
  set (n := length (fbx_actions f)).
  assert (Hk : map act_id (zip_with mk_action (seq (fresh_id (act_ids s)) n) (fbx_actions f))
               = seq (fresh_id (act_ids s)) n) by (apply map_zip_with_key; [done | apply length_seq]).
  rewrite filter_app, filter_none, filter_all, app_nil_l.
  - rewrite clip_map_zip_with. do 3 f_equal. unfold fresh_id. f_equal. apply list_max_perm.
    unfold abs. cbn [lib_clips]. rewrite dom_clip_map. by apply elements_list_to_set.
  - apply Forall_forall. intros a Ha Hold. apply (fresh_not_old (act_id a) n (act_ids s) Hold).
    rewrite <- Hk. by apply elem_of_map_2.
  - apply Forall_forall. intros a Ha Hn. apply Hn. unfold act_ids. by apply elem_of_map_2.
Qed.

Section Refine.
Context {IO : AssetIO} `{!AssetIOLaws} {LI : LibraryImport} `{!LibraryImportLaws}.

Lemma step_refines ap ex s s1 s' ex' :
  wf s -> import_fbx ap s = Some s1 -> import_animation ap ex s = (s', Ok ex') ->
  abs s' = absorb (abs s) ap (created s s1).
Proof.
  intros Hwf Hi Hr. pose proof (import_wf _ _ _ Hwf Hi) as [_ Hnd1].
  unfold abs, absorb, created. simpl. rewrite (step_objects _ _ _ _ _ Hr), (step_actions _ _ _ _ _ _ Hi Hr).
  rewrite clip_map_step by done. by rewrite (import_keeps_actions _ _ _ Hi).
Qed.

Lemma loop_refines aps ex s s' r :
  wf s -> ex = act_set s -> import_animations aps ex s = (s', r) ->
  merge_spec aps (abs s) = match r with Ok _ => Some (abs s') | Raise _ => None end.
Proof.
  revert ex s. induction aps as [|ap aps IH]; intros ex s Hwf Hex; simpl.
  - by intros [= <- <-].
  - rewrite (import_clips_spec _ _ Hwf). destruct (import_fbx ap s) as [s1|] eqn:Hi.
    + destruct (import_animation ap ex s) as [s2 [ex2|e]] eqn:Hst;
        [|by rewrite (import_animation_eq _ _ _ _ Hi) in Hst].
      rewrite (sbind_ok _ _ _ _ _ Hst). intros Hrest. cbn [fmap option_fmap option_map].
      rewrite <- (step_refines _ _ _ _ _ _ Hwf Hi Hst).
      apply (IH ex2); [by apply (step_wf _ _ _ _ _ Hwf Hst) | by apply (step_existing _ _ _ _ _ Hex Hst) | done].
    + by rewrite (sbind_raise _ _ _ _ _ (import_animation_raise _ ex _ Hi)); intros [= <- <-].
Qed.

(** C34: The merge loop implements its specification: from a
    well-formed scene, a run of [import_animations] that returns
    normally ends in the library [merge_spec] computes from the
    abstraction of the scene it started from, and a run that raises is
    one the specification refuses. *)
Theorem import_animations_refines aps ex s s' r :
  wf s -> ex = act_set s -> import_animations aps ex s = (s', r) ->
  merge_spec aps (abs s) = match r with Ok _ => Some (abs s') | Raise _ => None end.
Proof. apply loop_refines. Qed.

End Refine.

End MergeSpec.
