(* ===== verification/Binding.v ===== *)
(** * The binding finalizer of [fbx_to_glb.py] (lines 85-91)

    After the merge loop the script makes sure the main armature has an
    [animation_data] block and, when it has no active action, binds the
    first action of [bpy.data.actions].  [main_arm] is a Python reference
    to an object; the model keeps its identity and looks it up, and a
    reference to an object that was deleted raises, as Blender's
    [ReferenceError] would ([Merge] shows it never happens). *)

From S2P Require Import Prelude Scene.

Open Scope pipe_scope.

Module Binding.
Import Scene.

(** [main_arm.animation_data_create()] when [animation_data is None]
    (lines 86-87). *)
Definition ensure_anim_data (o : obj) (s : scene) : scene :=
  match obj_anim o with
  | None => update_obj (obj_id o) (set_anim (Some (mk_anim_data None))) s
  | Some _ => s
  end.

(** Lines 86-91; [None]: the reference [main_arm] is dangling, or
    [animation_data] is [None] at line 90 (it never is after line 87). *)
Definition finalize_binding (main_arm : nat) (s : scene) : option scene :=
  match find_obj main_arm s with
  | None => None
  | Some o =>
      let s1 := ensure_anim_data o s in
      (* any_action = next(iter(bpy.data.actions), None) *)
      match head (actions s1) with
      | None => Some s1
      | Some a =>
          match find_obj main_arm s1 with
          | None => None
          | Some o1 =>
              match obj_anim o1 with
              | None => None
              | Some ad =>
                  match ad_action ad with
                  | None => Some (update_obj main_arm (set_anim (Some (mk_anim_data (Some (act_id a))))) s1)
                  | Some _ => Some s1
                  end
              end
          end
      end
  end.

(** The binding the armature ends with: the one it had, or else the
    first action of the scene. *)
Definition expected_binding (o : obj) (s : scene) : option nat :=
  match obj_anim o with
  | Some (mk_anim_data (Some a)) => Some a
  | _ => act_id <$> head (actions s)
  end.

(** ** Lemmas *)

Lemma find_obj_Some i s o : find_obj i s = Some o -> obj_id o = i /\ o ∈ objects s.
Proof.
  unfold find_obj. intros Hh. pose proof (head_Some_elem_of _ _ Hh) as Hin.
  apply list_elem_of_filter in Hin. naive_solver.
Qed.

Lemma find_obj_update i f s o :
  (forall x, obj_id (f x) = obj_id x) -> find_obj i s = Some o -> find_obj i (update_obj i f s) = Some (f o).
Proof.
  intros Hf. unfold find_obj, update_obj. simpl. induction (objects s) as [|x xs IH]; [done|].
  simpl. rewrite !filter_cons. destruct (decide (obj_id x = i)) as [Hx|Hx].
  - rewrite decide_True by (by rewrite Hf). simpl. by intros [= ->].
  - rewrite decide_False by done. exact IH.
Qed.

Lemma update_obj_compose i f g s :
  (forall x, obj_id (g x) = obj_id x) -> update_obj i f (update_obj i g s) = update_obj i (fun o => f (g o)) s.
Proof.
  intros Hg. unfold update_obj. simpl. f_equal. rewrite map_map. apply map_ext. intros x.
  destruct (decide (obj_id x = i)); [by rewrite decide_True by (by rewrite Hg) | by rewrite decide_False].
Qed.

(** Identities are unique, so an object is determined by its identity. *)
Lemma NoDup_obj_id_inj (l : list obj) x y :
  NoDup (map obj_id l) -> x ∈ l -> y ∈ l -> obj_id x = obj_id y -> x = y.
Proof.
  induction l as [|z l IH]; [set_solver|]. simpl. intros Hnd%NoDup_cons Hx%elem_of_cons Hy%elem_of_cons Heq.
  destruct Hnd as [Hz Hnd].
  destruct Hx as [->|Hx], Hy as [->|Hy]; try done; try (by apply IH);
    exfalso; apply Hz; [rewrite Heq | rewrite <- Heq]; by apply elem_of_map_2.
Qed.

Lemma update_obj_noop i f s o :
  NoDup (obj_ids s) -> find_obj i s = Some o -> f o = o -> update_obj i f s = s.
Proof.
  intros Hnd Hf Hfo. apply find_obj_Some in Hf as [Hid Ho]. destruct s as [os acts].
  unfold update_obj. simpl in *. f_equal. rewrite <- (map_id os) at 2. apply map_ext_in.
  intros x Hx%list_elem_of_In. case_decide as Hxi; [|done].
  rewrite (NoDup_obj_id_inj os x o); [done..|congruence].
Qed.

Lemma finalize_binding_eq m s o :
  NoDup (obj_ids s) -> find_obj m s = Some o ->
  finalize_binding m s = Some (update_obj m (set_anim (Some (mk_anim_data (expected_binding o s)))) s).
Proof.
  intros Hnd Hf. pose proof (find_obj_Some _ _ _ Hf) as [Hid _]. subst m.
  unfold finalize_binding, expected_binding, ensure_anim_data. rewrite Hf.
  destruct (obj_anim o) as [[[b|]]|] eqn:Ha; simpl.
  - destruct (head (actions s)); rewrite ?Hf, ?Ha; simpl; f_equal; symmetry;
      apply (update_obj_noop _ _ _ o); try done; by destruct o; simpl in *; subst.
  - destruct (head (actions s)) as [a|]; simpl.
    + by rewrite Hf, Ha.
    + f_equal. symmetry. apply (update_obj_noop _ _ _ o); [done..|]. by destruct o; simpl in *; subst.
  - destruct (head (actions s)) as [a|]; simpl; [|done].
    rewrite (find_obj_update _ _ _ o); [|done..]. simpl.
    by rewrite update_obj_compose.
Qed.

(** C9: When the main armature is in the scene, the finalizer succeeds and only sets the armature's binding: to the action it already had, or else to the first action of the scene, or to none when there is no action. *)
Theorem finalize_binding_spec m s o :
  NoDup (obj_ids s) -> find_obj m s = Some o ->
  finalize_binding m s = Some (update_obj m (set_anim (Some (mk_anim_data (expected_binding o s)))) s).
Proof. apply finalize_binding_eq. Qed.

(** When the scene has an action, the armature ends up bound. *)
Lemma expected_binding_some o s : actions s <> [] -> is_Some (expected_binding o s).
Proof.
  unfold expected_binding. intros Hne. destruct (obj_anim o) as [[[b|]]|]; [by eexists| |];
    destruct (actions s); simpl; [done|by eexists|done|by eexists].
Qed.

End Binding.
