(* ===== verification/Cli.v ===== *)
(** * The command line of [fbx_to_glb.py] (lines 18-23, 115-120)

    [main] passes the words after Blender's [--] separator to
    [_parse_args], an [argparse] parser with [--model] (required),
    [--anim] ([action="append"], default [[]]) and [--out] (required),
    plus argparse's own [-h/--help].  [parse_args] follows the algorithm
    of CPython 3.11's [argparse] for this parser: every word is
    classified first ([_parse_optional]; an ambiguous abbreviation fails
    at once), then the words are consumed from left to right
    ([consume_optional]); the words no option consumes are "unrecognized
    arguments", reported after the required-option check.  Each error
    carries argparse's message, which [Pipeline] writes to stderr after
    the usage of [CliText].  An option
    takes the next word when it is a value; [-h] with more characters
    attached chains further [-h] flags.  [\d] of the
    negative-number pattern is taken as the ASCII digits. *)

From S2P Require Import Prelude PyStr.
From Stdlib Require Import Ascii.

Open Scope pipe_scope.

Module Cli.

Record args : Type := mk_args { model : string; anim : list string; out : string }.

Inductive optkind : Type := OHelp | OModel | OAnim | OOut.

#[export] Instance optkind_eq_dec : EqDecision optkind.
Proof. solve_decision. Defined.

(** The option strings of the parser, in registration order. *)
Definition option_strings : list (string * optkind) :=
  [("-h", OHelp); ("--help", OHelp); ("--model", OModel); ("--anim", OAnim); ("--out", OOut)].

Definition option_lookup (o : string) : option optkind :=
  snd <$> head (filter (fun e => e.1 = o) option_strings).

Definition is_digit (c : ascii) : bool :=
  let n := nat_of_ascii c in (48 <=? n) && (n <=? 57).

Fixpoint all_digits (s : string) : bool :=
  match s with
  | EmptyString => true
  | String c s' => is_digit c && all_digits s'
  end.

(** [s.split(c, 1)] when [c] occurs in [s]. *)
Fixpoint split_once (c : ascii) (s : string) : option (string * string) :=
  match s with
  | EmptyString => None
  | String d s' =>
      if Ascii.eqb c d then Some (EmptyString, s')
      else (fun p => (String d p.1, p.2)) <$> split_once c s'
  end.

(** [_negative_number_matcher = re.compile(r'^-\d+$|^-\d*\.\d+$')] *)
Definition negative_number_like (s : string) : bool :=
  match s with
  | String "-"%char r =>
      (negb (String.eqb r "") && all_digits r)
      || match split_once "."%char r with
         | Some (a, b) => all_digits a && negb (String.eqb b "") && all_digits b
         | None => false
         end
  | _ => false
  end.

(** The classification of one word ([_parse_optional]): a value ([A]),
    an option with an optional explicit argument, or an unknown option
    ([O] with no action). *)
Inductive wclass : Type :=
| WArg
| WDashDash
| WOpt (k : optkind) (explicit : option string)
| WShortHelp (explicit : string)   (* [-h] with the rest of the word attached *)
| WUnknown.

(** [_get_option_tuples]: the interpretations of an abbreviated word,
    as (action, option string, explicit argument). *)
Definition option_tuples (w : string) : list (optkind * string * option string) :=
  match w with
  | String "-"%char (String "-"%char _) =>
      let '(prefix, explicit) :=
        match split_once "="%char w with Some (p, e) => (p, Some e) | None => (w, None) end in
      (fun e => (e.2, e.1, explicit)) <$> filter (fun e => PyStr.startswith e.1 prefix = true) option_strings
  | String "-"%char (String c rest) =>
      flat_map (fun e => if String.eqb e.1 (String "-" (String c EmptyString)) then [(e.2, e.1, Some rest)]
                         else if PyStr.startswith e.1 w then [(e.2, e.1, None)] else [])
               option_strings
  | _ => []
  end.

(** The message of an ambiguous abbreviation (lines 2264-2269 of
    [_parse_optional]). *)
Definition ambiguous_message (w : string) : string :=
  "ambiguous option: " +:+ w +:+ " could match " +:+ String.concat ", " (map (fun t => t.1.2) (option_tuples w)).

(** A word [-c...] with one dash: its explicit argument chains more
    single-dash flags. *)
Definition short_dash (w : string) : bool :=
  match w with String "-"%char (String c _) => negb (Ascii.eqb c "-") | _ => false end.

(** [-h] followed by the explicit argument [e] (lines 2012-2027 of
    [consume_optional]): each further [h] is one more [-h]; the rest from
    the first other character is the "ignored explicit argument". *)
Fixpoint drop_h (e : string) : string :=
  match e with
  | EmptyString => EmptyString
  | String c e' => if Ascii.eqb c "h" then drop_h e' else e
  end.

Definition all_h (e : string) : bool := String.eqb (drop_h e) "".

(** [None]: the word is an ambiguous abbreviation (an immediate error). *)
Definition classify (w : string) : option wclass :=
  match w with
  | EmptyString => Some WArg
  | String c _ =>
      if negb (Ascii.eqb c "-") then Some WArg else
      match option_lookup w with
      | Some k => Some (WOpt k None)
      | None =>
          if String.length w =? 1 then Some WArg else
          match (match split_once "="%char w with
                 | Some (o, v) => (fun k => (o, k, v)) <$> option_lookup o
                 | None => None end) with
          | Some (o, k, v) => Some (if String.eqb o "-h" then WShortHelp v else WOpt k (Some v))
          | None =>
              match option_tuples w with
              | [(k, _, Some v)] => Some (if short_dash w then WShortHelp v else WOpt k (Some v))
              | [(k, _, None)] => Some (WOpt k None)
              | _ :: _ :: _ => None
              | [] => if negative_number_like w || PyStr.has_char " " w then Some WArg else Some WUnknown
              end
          end
      end
  end.

(** The pattern pass of [_parse_known_args]: the first [--] and every word
    after it are not options; an ambiguous word stops it with its
    message. *)
Fixpoint classify_all (ws : list string) : string + list wclass :=
  match ws with
  | [] => inr []
  | w :: ws' =>
      if String.eqb w "--" then inr (WDashDash :: map (fun _ => WArg) ws')
      else match classify w with
           | None => inl (ambiguous_message w)
           | Some c => match classify_all ws' with inl m => inl m | inr cs => inr (c :: cs) end
           end
  end.

Inductive parse_outcome : Type :=
| Parsed (a : args)
| Help                   (* [-h]: the help is printed and the script exits *)
| ArgError (msg : string).  (* [parser.error(msg)]: usage and message, exit status 2 *)

(** The option strings of an action joined by ["/"] ([_get_action_name]). *)
Definition action_name (k : optkind) : string :=
  match k with OHelp => "-h/--help" | OModel => "--model" | OAnim => "--anim" | OOut => "--out" end.

(** [str(ArgumentError(action, msg))] *)
Definition arg_error (k : optkind) (msg : string) : parse_outcome :=
  ArgError ("argument " +:+ action_name k +:+ ": " +:+ msg).

Definition ignored_explicit (v : string) : parse_outcome :=
  arg_error OHelp ("ignored explicit argument " +:+ PyStr.py_repr v).

Record pstate : Type := mk_pstate {
  p_model : option string;
  p_anim : list string;
  p_out : option string;
  p_extras : list string
}.

Definition init_pstate : pstate := mk_pstate None [] None [].

(** The [store] and [append] actions. *)
Definition store (k : optkind) (v : string) (st : pstate) : pstate :=
  match k with
  | OModel => mk_pstate (Some v) (p_anim st) (p_out st) (p_extras st)
  | OAnim => mk_pstate (p_model st) (p_anim st ++ [v]) (p_out st) (p_extras st)
  | OOut => mk_pstate (p_model st) (p_anim st) (Some v) (p_extras st)
  | OHelp => st
  end.

(** A word no option consumes joins the extras, in order. *)
Definition extra (w : string) (st : pstate) : pstate := mk_pstate (p_model st) (p_anim st) (p_out st) (p_extras st ++ [w]).

(** The required-option check (lines 2145-2147), then the
    unrecognized-arguments check of [parse_args] (lines 1875-1877). *)
Definition finish (st : pstate) : parse_outcome :=
  match p_model st, p_out st with
  | Some m, Some o =>
      match p_extras st with
      | [] => Parsed (mk_args m (p_anim st) o)
      | xs => ArgError ("unrecognized arguments: " +:+ String.concat " " xs)
      end
  | m, o =>
      ArgError ("the following arguments are required: " +:+
                String.concat ", " (match m with Some _ => [] | None => ["--model"] end ++
                                   match o with Some _ => [] | None => ["--out"] end))
  end.

(** The consumption loop.  An option without an explicit argument takes
    the next word when it is a value: the pattern [-*A-*] of a
    single-argument action loses its [-*] for an optional
    ([_get_nargs_pattern]), so a [--] is never an option's value. *)
Fixpoint consume (ws : list (string * wclass)) (st : pstate) : parse_outcome :=
  match ws with
  | [] => finish st
  | (w, c) :: rest =>
      match c with
      | WArg | WUnknown | WDashDash => consume rest (extra w st)
      | WOpt OHelp None => Help
      | WOpt OHelp (Some v) => ignored_explicit v
      | WShortHelp v =>
          if String.eqb v "" then ignored_explicit v
          else if String.eqb (drop_h v) "" then Help else ignored_explicit (drop_h v)
      | WOpt k (Some v) => consume rest (store k v st)
      | WOpt k None =>
          match rest with
          | (v, WArg) :: rest' => consume rest' (store k v st)
          | _ => arg_error k "expected one argument"
          end
      end
  end.

(** [_parse_args(argv)] *)
Definition parse_args (argv : list string) : parse_outcome :=
  match classify_all argv with
  | inl msg => ArgError msg
  | inr cs => consume (zip argv cs) init_pstate
  end.

(** The words a caller writes for [a]: [--model m --anim a1 ... --out o]. *)
Definition render (a : args) : list string :=
  ["--model"; model a] ++ flat_map (fun x => ["--anim"; x]) (anim a) ++ ["--out"; out a].

(** A value word that [_parse_optional] classifies as a positional
    value at once: it does not start with [-]. *)
Definition plain_value (v : string) : bool :=
  match v with String "-"%char _ => false | _ => true end.

(** [render a] with the class of each word. *)
Definition render_classified (a : args) : list (string * wclass) :=
  [("--model", WOpt OModel None); (model a, WArg)]
  ++ flat_map (fun x => [("--anim", WOpt OAnim None); (x, WArg)]) (anim a)
  ++ [("--out", WOpt OOut None); (out a, WArg)].

(** [main]: the position of Blender's separator. *)
Fixpoint index_of (x : string) (l : list string) : option nat :=
  match l with
  | [] => None
  | y :: l' => if String.eqb x y then Some 0 else S <$> index_of x l'
  end.

(** The words [main] hands to [_blender_main], or [None] for
    [SystemExit("Expected Blender args separator `--`.")] (lines 117-120). *)
Definition script_argv (argv : list string) : option (list string) :=
  match index_of "--" argv with
  | None => None
  | Some idx => Some (drop (S idx) argv)
  end.

(** ** Lemmas *)

Lemma classify_plain v : plain_value v = true -> classify v = Some WArg.
Proof. destruct v as [|c v]; [done|]. simpl. by destruct (Ascii.eqb_spec c "-"); [subst|]. Qed.

Lemma plain_not_dashdash v : plain_value v = true -> String.eqb v "--" = false.
Proof. intros H. apply String.eqb_neq. by intros ->. Qed.

Lemma classify_all_app (l : list (string * wclass)) rest :
  Forall (fun p => String.eqb p.1 "--" = false /\ classify p.1 = Some p.2) l ->
  classify_all (l.*1 ++ rest) =
    match classify_all rest with inl m => inl m | inr cs => inr (l.*2 ++ cs) end.
Proof.
  induction 1 as [|[w c] l Hwc _ IH].
  - simpl. by destruct (classify_all rest).
  - rewrite !fmap_cons, <- app_comm_cons. cbn [classify_all fst snd].
    destruct Hwc as [Hd Hc]. simpl in Hd, Hc. rewrite Hd, Hc, IH. by destruct (classify_all rest).
Qed.

Lemma render_classified_ok a :
  Forall (fun v => plain_value v = true) (model a :: out a :: anim a) ->
  Forall (fun p => String.eqb p.1 "--" = false /\ classify p.1 = Some p.2) (render_classified a).
Proof.
  rewrite !Forall_cons. intros (Hm & Ho & Ha). unfold render_classified.
  assert (forall v, plain_value v = true -> String.eqb v "--" = false /\ classify v = Some WArg)
    as Hv by auto using plain_not_dashdash, classify_plain.
  assert (forall o k x, String.eqb o "--" = false -> classify o = Some (WOpt k None) -> plain_value x = true ->
    Forall (fun p => String.eqb p.1 "--" = false /\ classify p.1 = Some p.2) [(o, WOpt k None); (x, WArg)])
    as Hpair.
  { intros o k x Ho' Hk Hx. constructor; [done|]. constructor; [by apply Hv|]. constructor. }
  repeat apply Forall_app_2; [by apply Hpair | | by apply Hpair].
  apply Forall_flat_map. apply (Forall_impl _ _ _ Ha). intros x Hx. by apply Hpair.
Qed.

Lemma consume_opt k o v rest st :
  k <> OHelp -> consume ((o, WOpt k None) :: (v, WArg) :: rest) st = consume rest (store k v st).
Proof. by destruct k. Qed.

Lemma foldl_store_anim xs m an o e :
  foldl (fun st x => store OAnim x st) (mk_pstate m an o e) xs = mk_pstate m (an ++ xs) o e.
Proof.
  revert an. induction xs as [|x xs IH]; intros an; simpl; [by rewrite app_nil_r|].
  by rewrite IH, <- app_assoc.
Qed.

Lemma consume_anims xs v tl st :
  consume (flat_map (fun x => [("--anim", WOpt OAnim None); (x, WArg)]) xs ++ ("--out", WOpt OOut None) :: (v, WArg) :: tl) st
  = consume (("--out", WOpt OOut None) :: (v, WArg) :: tl) (foldl (fun st x => store OAnim x st) st xs).
Proof.
  revert st. induction xs as [|x xs IH]; intros st; [done|]. cbn [flat_map app foldl].
  rewrite consume_opt by done. apply IH.
Qed.

Lemma render_fst a : (render_classified a).*1 = render a.
Proof.
  unfold render_classified, render. rewrite !fmap_app. f_equal. f_equal.
  induction (anim a) as [|x xs IH]; [done|]. cbn [flat_map]. rewrite fmap_app. by rewrite IH.
Qed.

Lemma classify_all_render a :
  Forall (fun v => plain_value v = true) (model a :: out a :: anim a) ->
  classify_all (render a) = inr (render_classified a).*2.
Proof.
  intros Hp. rewrite <- render_fst, <- (app_nil_r (render_classified a).*1).
  rewrite (classify_all_app _ []) by (by apply render_classified_ok). simpl. by rewrite app_nil_r.
Qed.

(** C24: The parser accepts what a caller writes: for values that do not
    start with [-], [_parse_args] of [--model m --anim a1 ... --out o]
    returns exactly [m], the list [a1 ...] in order and [o]. *)
Theorem parse_args_render a :
  Forall (fun v => plain_value v = true) (model a :: out a :: anim a) ->
  parse_args (render a) = Parsed a.
Proof.
  intros Hp. unfold parse_args. rewrite classify_all_render by done.
  rewrite <- render_fst at 1. rewrite zip_fst_snd. destruct a as [m xs o]. unfold render_classified.
  cbn [app]. rewrite consume_opt by done. rewrite consume_anims.
  rewrite consume_opt by done. simpl. by rewrite foldl_store_anim.
Qed.

Lemma index_of_app x pre post : x ∉ pre -> index_of x (pre ++ x :: post) = Some (length pre).
Proof.
  induction pre as [|y pre IH]; intros Hx; simpl; [by rewrite String.eqb_refl|].
  rewrite elem_of_cons in Hx. destruct (String.eqb_spec x y); [naive_solver|].
  rewrite IH by naive_solver. done.
Qed.

(** [main] hands on exactly the words after the first [--]. *)
Lemma script_argv_split pre post : "--" ∉ pre -> script_argv (pre ++ "--" :: post) = Some post.
Proof.
  intros H. unfold script_argv. rewrite index_of_app by done. f_equal.
  rewrite drop_app_ge by lia. by rewrite Nat.sub_succ_l, Nat.sub_diag by lia.
Qed.

Lemma index_of_none x l : x ∉ l -> index_of x l = None.
Proof.
  induction l as [|y l IH]; intros Hx; simpl; [done|]. rewrite elem_of_cons in Hx.
  destruct (String.eqb_spec x y); [naive_solver|]. rewrite IH by naive_solver. done.
Qed.

(** Without [--], [main] finds no separator. *)
Lemma script_argv_none argv : "--" ∉ argv -> script_argv argv = None.
Proof. intros H. unfold script_argv. by rewrite index_of_none. Qed.

End Cli.
