(* ===== verification/CliText.v ===== *)
(** * The texts [argparse] prints: usage, help and error lines

    Both scripts build an [ArgumentParser] and call [parse_args()]:
    [_parse_args] of [fbx_to_glb.py] (lines 18-23) and the main block of
    [start_colors.py] (lines 22-29).  On [-h] the parser writes its help
    to stdout; on an error it writes the usage and [<prog>: error: <msg>]
    to stderr.  Both texts come from CPython 3.11.2's [HelpFormatter]; the
    program name is [basename(sys.argv[0])] and the formatter's width is
    the terminal's columns less 2.  This file models that formatter for a
    parser described by a [parser_spec]: its description, its optional
    actions (the automatic [-h/--help] first) and its positionals.  The
    usage is wrapped by [get_lines] when it does not fit; the description
    and each action's help are wrapped by [textwrap].  Widths are integers
    ([Z]) as in Python, since a narrow terminal makes them negative.

    The texts the scripts give (metavars, destinations, helps and the
    description) are words without spaces, brackets or hyphens, separated
    by single spaces, and no word is longer than 11 characters: for such
    texts [textwrap] breaks only between words and the part regexp of
    [_format_usage] splits at spaces, which is what [wrap] and
    [optional_parts] do. *)

From S2P Require Import Prelude PyStr.
From Stdlib Require Import ZArith Ascii.

Open Scope pipe_scope.

Module CliText.

Definition spaces (n : nat) : string := String.concat "" (repeat " " n).

Definition zlen (s : string) : Z := Z.of_nat (String.length s).

Definition nl : string := String "010"%char EmptyString.

(** A text that ends with a newline, as one entry of an output stream
    (whose entries end with a newline). *)
Definition chomp (s : string) : string := PyStr.slice_to s (String.length s - 1).

(** ** Parsers *)

(** An optional action: its option strings, its metavar
    ([dest.upper()]), whether it takes a value ([nargs=0] for the help
    action), whether it is required, and its help (["" ] for none). *)
Record optional_action : Type := mk_optional {
  o_strings : list string;
  o_metavar : string;
  o_takes_value : bool;
  o_required : bool;
  o_help : string
}.

(** A positional action ([nargs=None]): its dest and help. *)
Record positional_action : Type := mk_positional { p_dest : string; p_help : string }.

(** A parser: its description ([""] for none), its optionals in the
    order they were added, then its positionals. *)
Record parser_spec : Type := mk_parser_spec {
  ps_description : string;
  ps_optionals : list optional_action;
  ps_positionals : list positional_action
}.

(** The action [ArgumentParser] adds first ([add_help=True]). *)
Definition help_action : optional_action :=
  mk_optional ["-h"; "--help"] "" false false "show this help message and exit".

(** The parser of [fbx_to_glb.py], lines 19-22. *)
Definition fbx_parser : parser_spec :=
  mk_parser_spec ""
    [help_action; mk_optional ["--model"] "MODEL" true true "";
     mk_optional ["--anim"] "ANIM" true false ""; mk_optional ["--out"] "OUT" true true ""] [].

(** ** The parts of the usage ([_format_actions_usage]) *)

(** The first option string, with the metavar when the action takes a
    value. *)
Definition usage_invocation (o : optional_action) : string :=
  default "" (head (o_strings o)) +:+ (if o_takes_value o then " " +:+ o_metavar o else "").

(** An optional in the usage: bracketed unless required. *)
Definition optional_usage (o : optional_action) : string :=
  if o_required o then usage_invocation o else "[" +:+ usage_invocation o +:+ "]".

(** [_re.findall(part_regexp, opt_usage)]: a bracketed group is one part,
    an unbracketed [--model MODEL] is two. *)
Definition optional_parts (o : optional_action) : list string :=
  if o_required o then PyStr.split (usage_invocation o) " "%char else [optional_usage o].

Definition actions_usage (p : parser_spec) : string :=
  String.concat " " (map optional_usage (ps_optionals p) ++ map p_dest (ps_positionals p)).

(** ** Wrapping *)

(** [get_lines] (lines 357-375): parts are added to a line while it
    fits in [text_width]; [len1] is Python's [line_len + 1]. *)
Fixpoint get_lines_loop (text_width : Z) (indent : string) (parts line : list string) (len1 : Z)
    : list string :=
  match parts with
  | [] => match line with [] => [] | _ => [indent +:+ String.concat " " line] end
  | p :: ps =>
      if (text_width <? len1 + zlen p)%Z && negb (bool_decide (line = [])) then
        (indent +:+ String.concat " " line) :: get_lines_loop text_width indent ps [p] (zlen indent + zlen p + 1)%Z
      else get_lines_loop text_width indent ps (line ++ [p]) (len1 + zlen p + 1)%Z
  end.

Definition get_lines (text_width : Z) (parts : list string) (indent : string) (prefix : option string)
    : list string :=
  let lines := get_lines_loop text_width indent parts []
                 (match prefix with Some p => zlen p | None => zlen indent end) in
  match prefix, lines with
  | Some _, l0 :: ls => PyStr.slice_from l0 (String.length indent) :: ls
  | _, _ => lines
  end.

(** [textwrap.wrap(text, width)] for words shorter than [width]: a word
    joins the line while the line fits. *)
Definition wrap (width : Z) (text : string) : list string :=
  get_lines_loop width "" (PyStr.split text " "%char) [] 0%Z.

(** ** The usage ([_format_usage], lines 309-403) *)

Definition usage_prefix : string := "usage: ".

(** The usage after its prefix, for the formatter width [width]. *)
Definition usage_body (p : parser_spec) (prog : string) (width : Z) : string :=
  let usage := String.concat " " (filter (fun x => x <> "") [prog; actions_usage p]) in
  let opt_parts := flat_map optional_parts (ps_optionals p) in
  let pos_parts := map p_dest (ps_positionals p) in
  if (zlen usage_prefix + zlen usage <=? width)%Z then usage
  else if (4 * (zlen usage_prefix + zlen prog) <=? 3 * width)%Z then
    (* a short prog is followed by the optionals, then the positionals *)
    let indent := spaces (String.length usage_prefix + String.length prog + 1) in
    String.concat nl
      (match opt_parts, pos_parts with
       | [], [] => [prog]
       | [], _ => get_lines width (prog :: pos_parts) indent (Some usage_prefix)
       | _, _ => get_lines width (prog :: opt_parts) indent (Some usage_prefix)
                 ++ get_lines width pos_parts indent None
       end)
  else
    (* a long prog gets a line of its own *)
    let indent := spaces (String.length usage_prefix) in
    let lines := get_lines width (opt_parts ++ pos_parts) indent None in
    let lines := if (1 <? length lines)%nat
                 then get_lines width opt_parts indent None ++ get_lines width pos_parts indent None
                 else lines in
    String.concat nl (prog :: lines).

(** [HelpFormatter.format_help]: three or more newlines become two, and
    the text is stripped of newlines and ends with one. *)
Definition finish_help (raw : string) : string :=
  PyStr.strip (PyStr.collapse_breaks raw) "010"%char +:+ nl.

(** The usage item ([_format_usage] ends it with two newlines). *)
Definition usage_item (p : parser_spec) (prog : string) (width : Z) : string :=
  usage_prefix +:+ usage_body p prog width +:+ nl +:+ nl.

(** [parser.format_usage()]: the root section, [\n] + items + [\n]. *)
Definition format_usage (p : parser_spec) (prog : string) (width : Z) : string :=
  finish_help (nl +:+ usage_item p prog width +:+ nl).

(** ** The help ([format_help], with [_format_action], lines 518-564) *)

(** [_format_action_invocation]: the option strings joined by [, ]
    (each with the metavar when the action takes a value); a positional's
    dest. *)
Definition optional_invocation (o : optional_action) : string :=
  String.concat ", " (map (fun s => if o_takes_value o then s +:+ " " +:+ o_metavar o else s) (o_strings o)).

Definition invocations (p : parser_spec) : list string :=
  map optional_invocation (ps_optionals p) ++ map p_dest (ps_positionals p).

(** [_action_max_length]: the longest invocation plus the section
    indent 2. *)
Definition action_max_length (p : parser_spec) : Z :=
  fold_right (fun inv m => Z.max (zlen inv + 2) m) 0%Z (invocations p).

Definition help_position (p : parser_spec) (width : Z) : Z :=
  (Z.min (action_max_length p + 2) (Z.min 24 (Z.max (width - 20) 4)))%Z.

(** [_format_action]: an action without help is one line; otherwise the
    help follows on the same line when the invocation fits in the action
    width, else on the next line at the help position, wrapped to the
    room after it. *)
Definition format_action (p : parser_spec) (width : Z) (inv help : string) : string :=
  let hp := help_position p width in
  let help_width := Z.max (width - hp)%Z 11 in
  let action_width := (hp - 2 - 2)%Z in
  if String.eqb help "" then "  " +:+ inv +:+ nl
  else
    let '(header, indent_first) :=
      if (zlen inv <=? action_width)%Z
      then ("  " +:+ inv +:+ spaces (Z.to_nat action_width - String.length inv) +:+ "  ", 0%nat)
      else ("  " +:+ inv +:+ nl, Z.to_nat hp) in
    match wrap help_width help with
    | [] => header
    | l0 :: ls => header +:+ spaces indent_first +:+ l0 +:+ nl
                  +:+ String.concat "" (map (fun l => spaces (Z.to_nat hp) +:+ l +:+ nl) ls)
    end.

(** A section: [\n], its heading, its items and [\n]; nothing when it
    has no items. *)
Definition section (title items : string) : string :=
  if String.eqb items "" then "" else nl +:+ title +:+ ":" +:+ nl +:+ items +:+ nl.

(** The description ([_format_text] at indent 0: [textwrap.fill] to
    [max(width, 11)], then two newlines). *)
Definition description_item (p : parser_spec) (width : Z) : string :=
  if String.eqb (ps_description p) "" then ""
  else String.concat nl (wrap (Z.max width 11) (ps_description p)) +:+ nl +:+ nl.

(** [parser.format_help()]: usage, description, the positionals' section
    and the options' section. *)
Definition format_help (p : parser_spec) (prog : string) (width : Z) : string :=
  let pos := String.concat "" (map (fun a => format_action p width (p_dest a) (p_help a)) (ps_positionals p)) in
  let opt := String.concat "" (map (fun o => format_action p width (optional_invocation o) (o_help o)) (ps_optionals p)) in
  finish_help (nl +:+ usage_item p prog width +:+ description_item p width
               +:+ section "positional arguments" pos +:+ section "options" opt +:+ nl).

(** The formatter width for a terminal of [columns] columns
    ([shutil.get_terminal_size().columns - 2]). *)
Definition formatter_width (columns : nat) : Z := (Z.of_nat columns - 2)%Z.

(** The room [parts] take on a line: each part and the space before it. *)
Definition parts_room (parts : list string) : Z := fold_right (fun p acc => zlen p + 1 + acc)%Z 0%Z parts.

(** ** Lemmas *)

Lemma parts_room_nonneg parts : (0 <= parts_room parts)%Z.
Proof. induction parts as [|p ps IH]; simpl; [lia|]. unfold zlen at 1. lia. Qed.

(** [get_lines] keeps one line while the parts fit. *)
Lemma get_lines_loop_fit tw ind parts line len1 :
  line <> [] -> (len1 + parts_room parts <= tw + 1)%Z ->
  get_lines_loop tw ind parts line len1 = [ind +:+ String.concat " " (line ++ parts)].
Proof.
  revert line len1. induction parts as [|p ps IH]; intros line len1 Hl Hfit; simpl.
  - rewrite app_nil_r. by destruct line.
  - simpl in Hfit. pose proof (parts_room_nonneg ps).
    destruct (Z.ltb_spec tw (len1 + zlen p)); [unfold zlen in *; lia|]. simpl.
    rewrite IH; [by rewrite <- app_assoc | by destruct line | lia].
Qed.

Lemma wrap_fit w text p ps :
  PyStr.split text " "%char = p :: ps -> (parts_room (p :: ps) <= w + 1)%Z ->
  wrap w text = [String.concat " " (p :: ps)].
Proof.
  intros Hs Hfit. unfold wrap. rewrite Hs. simpl. rewrite andb_false_r.
  rewrite get_lines_loop_fit; [done | done |]. simpl in Hfit. lia.
Qed.

Lemma chomp_nl s : chomp (s +:+ nl) = s.
Proof.
  unfold chomp, PyStr.slice_to. rewrite PyStr.length_append. change (String.length nl) with 1%nat.
  rewrite Nat.add_sub. induction s as [|c s IH]; [done|]. rewrite PyStr.append_cons. simpl. by rewrite IH.
Qed.

(** The collapse and the strip of [finish_help] keep a first line [a]
    without newlines (holding the program name) and act on the rest. *)
Lemma finish_help_plain a t :
  a <> "" -> PyStr.has_char "010"%char a = false ->
  PyStr.rstrip (PyStr.collapse_from 0 t) "010"%char <> "" ->
  finish_help (nl +:+ (a +:+ t)) = a +:+ PyStr.rstrip (PyStr.collapse_from 0 t) "010"%char +:+ nl.
Proof.
  destruct a as [|c a]; intros Hne Ha Ht; [done|]. cbn [PyStr.has_char] in Ha.
  apply orb_false_iff in Ha as [Hc Ha]. rewrite Ascii.eqb_sym in Hc.
  unfold finish_help, PyStr.collapse_breaks, PyStr.strip.
  change (nl +:+ (String c a +:+ t)) with (String "010"%char (String c (a +:+ t))).
  cbn [PyStr.collapse_from]. rewrite Ascii.eqb_refl, Hc, PyStr.collapse_from_plain by done.
  set (r := PyStr.collapse_from 0 t) in *.
  change (PyStr.newlines (Nat.min 1 2) +:+ String c (a +:+ r)) with (String "010"%char (String c a) +:+ r).
  rewrite PyStr.rstrip_app by done.
  change (PyStr.lstrip (String "010"%char (String c a) +:+ PyStr.rstrip r "010") "010")
    with (PyStr.lstrip (String c (a +:+ PyStr.rstrip r "010")) "010").
  cbn [PyStr.lstrip]. rewrite Ascii.eqb_sym, Hc. by rewrite !PyStr.append_cons, PyStr.append_assoc.
Qed.

Lemma has_char_app c s t : PyStr.has_char c (s +:+ t) = PyStr.has_char c s || PyStr.has_char c t.
Proof. induction s as [|d s IH]; [done|]. rewrite PyStr.append_cons. cbn [PyStr.has_char]. by rewrite IH, orb_assoc. Qed.

Lemma split_not_nil s c : PyStr.split s c <> [].
Proof. destruct s as [|d s]; simpl; [done|]. destruct (PyStr.split s c); [done|]. by destruct (Ascii.eqb c d). Qed.

(** A text whose words fit on a line is one line. *)
Lemma wrap_one w text :
  (parts_room (PyStr.split text " "%char) <= w + 1)%Z -> String.concat " " (PyStr.split text " "%char) = text ->
  wrap w text = [text].
Proof.
  intros Hw Hc. destruct (PyStr.split text " "%char) as [|p ps] eqn:E; [by destruct (split_not_nil text " "%char)|].
  rewrite (wrap_fit _ _ p ps E Hw). by rewrite Hc.
Qed.

(** The room a closed text takes, computed. *)
Ltac closed_room :=
  match goal with |- context [parts_room ?x] => let v := eval vm_compute in (parts_room x) in change (parts_room x) with v end;
  lia.

(** The usage of a non-empty [prog] stays on one line when it fits. *)
Lemma usage_body_fit p prog width :
  prog <> "" -> actions_usage p <> "" ->
  (zlen usage_prefix + zlen prog + 1 + zlen (actions_usage p) <= width)%Z ->
  usage_body p prog width = prog +:+ " " +:+ actions_usage p.
Proof.
  intros Hp He Hw. unfold usage_body.
  rewrite filter_cons_True, filter_cons_True, filter_nil by done. cbn [String.concat].
  unfold zlen in *. rewrite !PyStr.length_append. change (String.length " ") with 1%nat.
  destruct (Z.leb_spec (Z.of_nat (String.length usage_prefix) + Z.of_nat (String.length prog + (1 + String.length (actions_usage p)))) width);
    [done | lia].
Qed.

Lemma usage_item_fit p prog width :
  prog <> "" -> actions_usage p <> "" ->
  (zlen usage_prefix + zlen prog + 1 + zlen (actions_usage p) <= width)%Z ->
  usage_item p prog width = (usage_prefix +:+ prog) +:+ " " +:+ actions_usage p +:+ nl +:+ nl.
Proof. intros. unfold usage_item. rewrite usage_body_fit by done. by rewrite <- !PyStr.append_assoc. Qed.

(** Once the width leaves room for the longest invocation, the help
    column sits two columns after it. *)
Lemma help_position_wide p width :
  (action_max_length p + 2 <= 24)%Z -> (action_max_length p + 22 <= width)%Z ->
  help_position p width = (action_max_length p + 2)%Z.
Proof. intros. unfold help_position. lia. Qed.

(** An action's lines do not change with the width once the help
    column is fixed and its help fits on one line. *)
Lemma format_action_wide p w0 width inv help :
  (w0 <= width)%Z -> help_position p width = help_position p w0 ->
  help = "" \/ ((parts_room (PyStr.split help " "%char) <= w0 - help_position p w0 + 1)%Z /\
                String.concat " " (PyStr.split help " "%char) = help) ->
  format_action p width inv help = format_action p w0 inv help.
Proof.
  intros Hw Hhp [-> | [Hr Hc]]; [done|]. unfold format_action. rewrite Hhp.
  rewrite !(wrap_one _ help) by (done || lia). done.
Qed.

(** The description of a parser fits on one line of a wide terminal. *)
Lemma description_item_wide p width :
  ps_description p <> "" ->
  (parts_room (PyStr.split (ps_description p) " "%char) <= width + 1)%Z ->
  String.concat " " (PyStr.split (ps_description p) " "%char) = ps_description p ->
  description_item p width = ps_description p +:+ nl +:+ nl.
Proof.
  intros Hd Hr Hc. unfold description_item. rewrite (proj2 (String.eqb_neq _ _) Hd).
  rewrite wrap_one by (done || lia). done.
Qed.

(** On a terminal at least [len(prog) + 52] columns wide the texts are
    fixed. *)
Lemma format_help_fits prog columns :
  prog <> "" -> PyStr.has_char "010"%char prog = false -> (String.length prog + 52 <= columns)%nat ->
  format_usage fbx_parser prog (formatter_width columns) =
    "usage: " +:+ prog +:+ " [-h] --model MODEL [--anim ANIM] --out OUT" +:+ nl /\
  format_help fbx_parser prog (formatter_width columns) =
    "usage: " +:+ prog +:+ " [-h] --model MODEL [--anim ANIM] --out OUT" +:+ nl +:+ nl +:+ "options:" +:+ nl
    +:+ "  -h, --help     show this help message and exit" +:+ nl +:+ "  --model MODEL" +:+ nl
    +:+ "  --anim ANIM" +:+ nl +:+ "  --out OUT" +:+ nl.
Proof.
  intros Hp Hn Hc. unfold formatter_width in *.
  assert (Hhp : forall w, (37 <= w)%Z -> help_position fbx_parser w = 17%Z)
    by (intros w Hw; rewrite help_position_wide; change (action_max_length fbx_parser) with 15%Z in *; lia).
  assert (Hne : usage_prefix +:+ prog <> "") by (unfold usage_prefix; rewrite PyStr.append_cons; discriminate).
  assert (Hnl : PyStr.has_char "010"%char (usage_prefix +:+ prog) = false) by (rewrite has_char_app, Hn; done).
  unfold format_usage, format_help.
  rewrite usage_item_fit by (done || (vm_compute; discriminate) || (unfold zlen; simpl; lia)).
  cbn [ps_optionals ps_positionals fbx_parser map].
  rewrite !(format_action_wide fbx_parser 48 (Z.of_nat columns - 2))
    by (lia || rewrite !Hhp by lia; done || (right; split; [closed_room | reflexivity]) || (left; reflexivity)).
  set (u := usage_prefix +:+ prog) in *. rewrite <- !PyStr.append_assoc.
  rewrite !finish_help_plain by (done || (vm_compute; discriminate)). subst u.
  by rewrite <- !PyStr.append_assoc.
Qed.

(** The first part always starts the first line. *)
Lemma get_lines_loop_first tw ind p ps len1 :
  get_lines_loop tw ind (p :: ps) [] len1 = get_lines_loop tw ind ps [p] (len1 + zlen p + 1)%Z.
Proof. simpl. by rewrite andb_false_r. Qed.

Lemma get_lines_loop_nonempty tw ind parts line len1 : line <> [] -> get_lines_loop tw ind parts line len1 <> [].
Proof.
  revert line len1. induction parts as [|p ps IH]; intros line len1 Hl; simpl; [by destruct line|].
  destruct (_ && _); [done|]. apply IH. by destruct line.
Qed.

(** Parts that overflow the line break it at least once. *)
Lemma get_lines_loop_two tw ind parts line len1 :
  line <> [] -> parts <> [] -> (tw + 1 < len1 + parts_room parts)%Z ->
  2 <= length (get_lines_loop tw ind parts line len1).
Proof.
  revert line len1. induction parts as [|p ps IH]; intros line len1 Hl Hps Hr; [by destruct Hps|]. simpl in Hr |- *.
  rewrite (bool_decide_false _ Hl), andb_true_r.
  destruct (Z.ltb_spec tw (len1 + zlen p)).
  - simpl. pose proof (get_lines_loop_nonempty tw ind ps [p] (zlen ind + zlen p + 1) ltac:(done)).
    destruct (get_lines_loop _ _ _ _ _); [done | simpl; lia].
  - destruct ps as [|q qs]; [simpl in Hr; lia|]. apply IH; [by destruct line | done |].
    simpl in Hr |- *. lia.
Qed.

Lemma concat_two_lines a b l : PyStr.has_char "010"%char (String.concat nl (a :: b :: l)) = true.
Proof.
  cbn [String.concat]. rewrite has_char_app, has_char_app. change (PyStr.has_char "010"%char nl) with true.
  by rewrite orb_true_r.
Qed.

(** The usage of [fbx_to_glb.py]'s parser that does not fit the width
    is wrapped: its body has a line break, whatever the program name. *)
Lemma usage_body_wraps_fbx prog width :
  prog <> "" -> (width < zlen prog + 50)%Z -> PyStr.has_char "010"%char (usage_body fbx_parser prog width) = true.
Proof.
  intros Hp Hw. unfold usage_body.
  rewrite filter_cons_True, filter_cons_True, filter_nil by (done || (vm_compute; discriminate)). cbn [String.concat].
  assert (zlen (prog +:+ " " +:+ actions_usage fbx_parser) = zlen prog + 43)%Z as ->
    by (unfold zlen; rewrite !PyStr.length_append; change (String.length (actions_usage fbx_parser)) with 42%nat; simpl; lia).
  rewrite (proj2 (Z.leb_gt _ _)) by (change (zlen usage_prefix) with 7%Z; lia).
  change (flat_map optional_parts (ps_optionals fbx_parser))
    with ["[-h]"; "--model"; "MODEL"; "[--anim ANIM]"; "--out"; "OUT"].
  change (map p_dest (ps_positionals fbx_parser)) with (@nil string).
  destruct (_ <=? _)%Z.
  - unfold get_lines at 1. rewrite get_lines_loop_first.
    assert (Hr : (width + 1 < zlen usage_prefix + zlen prog + 1
                  + parts_room ["[-h]"; "--model"; "MODEL"; "[--anim ANIM]"; "--out"; "OUT"])%Z)
      by (change (zlen usage_prefix) with 7%Z;
          change (parts_room ["[-h]"; "--model"; "MODEL"; "[--anim ANIM]"; "--out"; "OUT"]) with 43%Z; lia).
    pose proof (get_lines_loop_two width (spaces (String.length usage_prefix + String.length prog + 1))
                  ["[-h]"; "--model"; "MODEL"; "[--anim ANIM]"; "--out"; "OUT"] [prog]
                  (zlen usage_prefix + zlen prog + 1) ltac:(done) ltac:(done) Hr) as H2.
    destruct (get_lines_loop _ _ _ _ _) as [|l1 [|l2 ls]]; [simpl in H2; lia..|].
    cbn iota beta. cbn [app]. apply concat_two_lines.
  - set (ind := spaces (String.length usage_prefix)).
    assert (Hne : forall ps, ps <> [] -> get_lines width ps ind None <> []).
    { intros ps Hps. unfold get_lines. destruct ps as [|q qs]; [done|]. rewrite get_lines_loop_first.
      by apply get_lines_loop_nonempty. }
    match goal with |- context [match ?L with [] => _ | _ :: _ => _ end] => destruct L as [|l ls] eqn:E end.
    2: { rewrite !has_char_app. change (PyStr.has_char "010"%char nl) with true.
         by destruct (PyStr.has_char "010"%char prog). }
    exfalso. match type of E with (if ?b then _ else _) = _ => destruct b end;
      [apply app_eq_nil in E as [E _]|]; (eapply Hne; [|exact E]); by rewrite ?app_nil_r.
Qed.

(** C32: On a terminal at least [len(prog) + 52] columns wide, with a
    non-empty program name without newlines, [fbx_to_glb.py]'s parser
    prints the usage on one line and the help as seven fixed lines: the
    help of [-h] at column 17 and the other options without help.  On any
    narrower terminal the usage is wrapped over several lines. *)
Theorem format_help_wide prog :
  prog <> "" -> PyStr.has_char "010"%char prog = false ->
  (forall columns, (String.length prog + 52 <= columns)%nat ->
   format_usage fbx_parser prog (formatter_width columns) =
     "usage: " +:+ prog +:+ " [-h] --model MODEL [--anim ANIM] --out OUT" +:+ nl /\
   format_help fbx_parser prog (formatter_width columns) =
     "usage: " +:+ prog +:+ " [-h] --model MODEL [--anim ANIM] --out OUT" +:+ nl +:+ nl +:+ "options:" +:+ nl
     +:+ "  -h, --help     show this help message and exit" +:+ nl +:+ "  --model MODEL" +:+ nl
     +:+ "  --anim ANIM" +:+ nl +:+ "  --out OUT" +:+ nl) /\
  (forall columns, (columns < String.length prog + 52)%nat ->
   PyStr.has_char "010"%char (usage_body fbx_parser prog (formatter_width columns)) = true).
Proof.
  intros Hp Hn. split; intros columns Hc; [by apply format_help_fits|].
  apply usage_body_wraps_fbx; [done|]. unfold formatter_width, zlen. lia.
Qed.

End CliText.
