(* ===== verification/Pipeline.v ===== *)
(** * The driver of [fbx_to_glb.py]: [_blender_main] and [main]

    [_blender_main] (lines 26-112) resets the Blender session, parses the
    arguments, makes the paths absolute, checks that every input exists,
    imports the base FBX, picks the first armature, runs the merge loop
    of [Merge], finalizes the binding ([Binding]), creates the output
    directory and exports the GLB.  The state is a [world]: the Blender
    scene, the working directory, the file system, the GLB files the
    exporter wrote, what was written to stdout and stderr, and the
    process's [sys.argv] and terminal width, which [main] and [argparse]
    read.  Every exception the script can
    raise is an [exit_reason]; nothing in the script catches, so an
    exception ends the run with the world as it was at that point. *)

From S2P Require Import Prelude PyStr PosixPath Scene AssetIO Merge Binding Cli CliText.

Open Scope pipe_scope.

Module Pipeline.
Import Scene AssetIO Merge Binding Cli.

(** ** The file system *)

Record fs : Type := mk_fs { fs_files : list string; fs_dirs : list string }.

(** [os.path.exists] and [os.path.isdir] *)
Definition path_exists (f : fs) (p : string) : bool := bool_decide (p ∈ fs_files f \/ p ∈ fs_dirs f).
Definition isdir (f : fs) (p : string) : bool := bool_decide (p ∈ fs_dirs f).

(** [os.mkdir(name)]: [None] is the [OSError] raised when [name] exists
    or its parent is not a directory. *)
Definition mkdir (name : string) (f : fs) : option fs :=
  if path_exists f name then None
  else let parent := PosixPath.dirname name in
       if String.eqb parent "" || isdir f parent
       then Some (mk_fs (fs_files f) (fs_dirs f ++ [name]))
       else None.

(** The first lines of [os.makedirs]:
    [head, tail = path.split(name); if not tail: head, tail = path.split(head)] *)
Definition makedirs_split (name : string) : string * string :=
  let '(head, tail) := PosixPath.psplit name in
  if String.eqb tail "" then PosixPath.psplit head else (head, tail).

(** [os.makedirs(name, exist_ok=True)]: [Some (Some f')] is a normal
    return, [Some None] the [OSError] it raises, and [None] that the fuel
    ran out.  Each recursive call is on a strictly shorter path, so the
    fuel [S (length name)] never runs out ([makedirs_terminates]). *)
Fixpoint makedirs (fuel : nat) (name : string) (f : fs) : option (option fs) :=
  match fuel with
  | O => None
  | S fuel' =>
      let '(head, tail) := makedirs_split name in
      let rec := negb (String.eqb head "") && negb (String.eqb tail "") && negb (path_exists f head) in
      match (if rec then makedirs fuel' head f else Some (Some f)) with
      | None => None
      | Some None => Some None
      | Some (Some f1) =>
          if rec && String.eqb tail "." then Some (Some f1)
          else match mkdir name f1 with
               | Some f2 => Some (Some f2)
               | None => if isdir f1 name then Some (Some f1) else Some None
               end
      end
  end.

(** The file tree is well formed: no path is both a file and a
    directory, and the parent of every directory is a directory. *)
Definition fs_wf (f : fs) : Prop :=
  (forall p, p ∈ fs_files f -> p ∉ fs_dirs f) /\
  (forall d, d ∈ fs_dirs f -> PosixPath.dirname d = "" \/ PosixPath.dirname d ∈ fs_dirs f).

#[export] Instance fs_wf_dec f : Decision (fs_wf f).
Proof.
  destruct (decide (Forall (fun p => p ∉ fs_dirs f) (fs_files f) /\
                    Forall (fun d => PosixPath.dirname d = "" \/ PosixPath.dirname d ∈ fs_dirs f) (fs_dirs f)))
    as [H|H]; [left | right]; unfold fs_wf; rewrite <- !Forall_forall; done.
Defined.

(** ** The world and the exits *)

(** [w_stdout] and [w_stderr] hold one entry per [print] call or
    [argparse] write, without the newline that ends each of them. *)
Record world : Type := mk_world {
  w_scene : scene;
  w_cwd : string;
  w_fs : fs;
  w_written : list (string * export_settings * scene);
  w_stdout : list string;
  w_stderr : list string;
  w_argv : list string;      (* sys.argv *)
  w_columns : nat            (* shutil.get_terminal_size().columns *)
}.

Inductive exit_reason : Type :=
| SystemExit (msg : string)          (* raise SystemExit(msg) *)
| ParserExit (o : parse_outcome)     (* argparse printed help or an error *)
| ImportError (path : string)        (* bpy.ops.import_scene.fbx raised *)
| ReferenceError                     (* main_arm no longer exists *)
| OSError (path : string)            (* os.makedirs raised *)
| ExportError (path : string).       (* bpy.ops.export_scene.gltf raised *)

Definition set_scene (s : scene) (w : world) : world :=
  mk_world s (w_cwd w) (w_fs w) (w_written w) (w_stdout w) (w_stderr w) (w_argv w) (w_columns w).

Definition set_fs (f : fs) (w : world) : world :=
  mk_world (w_scene w) (w_cwd w) f (w_written w) (w_stdout w) (w_stderr w) (w_argv w) (w_columns w).

Definition add_written (e : string * export_settings * scene) (f : fs) (w : world) : world :=
  mk_world (w_scene w) (w_cwd w) f (w_written w ++ [e]) (w_stdout w) (w_stderr w) (w_argv w) (w_columns w).

Definition add_stdout (msg : string) (w : world) : world :=
  mk_world (w_scene w) (w_cwd w) (w_fs w) (w_written w) (w_stdout w ++ [msg]) (w_stderr w) (w_argv w) (w_columns w).

Definition add_stderr (msgs : list string) (w : world) : world :=
  mk_world (w_scene w) (w_cwd w) (w_fs w) (w_written w) (w_stdout w) (w_stderr w ++ msgs) (w_argv w) (w_columns w).

(** [ArgumentParser()]'s [prog]: [os.path.basename(sys.argv[0])]. *)
Definition prog_name (w : world) : string := PosixPath.basename (default "" (head (w_argv w))).

Definition help_entry (w : world) : string :=
  CliText.chomp (CliText.format_help CliText.fbx_parser (prog_name w) (CliText.formatter_width (w_columns w))).

(** [parser.error(msg)] (lines 2622-2633 of [argparse]): the usage, then
    [<prog>: error: <msg>], on stderr. *)
Definition error_entries (w : world) (msg : string) : list string :=
  [CliText.chomp (CliText.format_usage CliText.fbx_parser (prog_name w) (CliText.formatter_width (w_columns w)));
   prog_name w +:+ ": error: " +:+ msg].

Abbreviation M := (stE world exit_reason).

Section Driver.
Context `{IO : AssetIO}.

(** [bpy.ops.wm.read_factory_settings(use_empty=True)] (line 30) *)
Definition reset_session : M unit := smodify (set_scene empty_scene).

(** [_parse_args(argv)] (line 32): on [-h] the help is written to
    stdout, on an error the usage and the message to stderr, and the
    parser raises [SystemExit]. *)
Definition parse (argv : list string) : M args :=
  fun w => match parse_args argv with
           | Parsed a => (w, Ok a)
           | Help => (add_stdout (help_entry w) w, Raise (ParserExit Help))
           | ArgError msg => (add_stderr (error_entries w msg) w, Raise (ParserExit (ArgError msg)))
           end.

(** [if not os.path.exists(p): raise SystemExit(msg)] (lines 38-42) *)
Definition check_exists (p : string) (msg : string) : M unit :=
  fun w => if path_exists (w_fs w) p then (w, Ok tt) else (w, Raise (SystemExit msg)).

(** A Blender operator on the scene that may raise. *)
Definition scene_call (c : scene -> option scene) (e : exit_reason) : M unit :=
  fun w => match c (w_scene w) with
           | Some s => (set_scene s w, Ok tt)
           | None => (w, Raise e)
           end.

(** The merge loop, run on the scene of the world. *)
Definition scene_loop {A} (c : stE scene string A) : M A :=
  fun w => match c (w_scene w) with
           | (s, Ok a) => (set_scene s w, Ok a)
           | (s, Raise p) => (set_scene s w, Raise (ImportError p))
           end.

(** [os.makedirs(d, exist_ok=True)] (line 93) *)
Definition os_makedirs (d : string) : M unit :=
  fun w => match makedirs (S (String.length d)) d (w_fs w) with
           | Some (Some f) => (set_fs f w, Ok tt)
           | _ => (w, Raise (OSError d))
           end.

(** [bpy.ops.export_scene.gltf(filepath=p, ...)] (lines 96-110): the
    exporter writes the file [p] from the current scene. *)
Definition export (p : string) (st : export_settings) : M unit :=
  fun w => if export_gltf p st (w_scene w)
           then (add_written (p, st, w_scene w)
                   (mk_fs (if bool_decide (p ∈ fs_files (w_fs w)) then fs_files (w_fs w)
                           else fs_files (w_fs w) ++ [p]) (fs_dirs (w_fs w))) w, Ok tt)
           else (w, Raise (ExportError p)).

(** [print(msg)] *)
Definition print (msg : string) : M unit :=
  smodify (add_stdout msg).

(** [armatures = [o for o in bpy.data.objects if o.type == "ARMATURE"]] *)
Definition armatures (s : scene) : list obj := filter (fun o => obj_type o = ARMATURE) (objects s).

(** [_blender_main(argv)] (lines 26-112) *)
Definition blender_main (argv : list string) : M unit :=
  do _ <- reset_session;
  do a <- parse argv;
  do w <- sget;
  let model_path := PosixPath.abspath (w_cwd w) (model a) in
  let anim_paths := map (PosixPath.abspath (w_cwd w)) (anim a) in
  let out_path := PosixPath.abspath (w_cwd w) (out a) in
  do _ <- check_exists model_path ("Missing model: " +:+ model_path);
  do _ <- sfor anim_paths (fun ap => check_exists ap ("Missing anim: " +:+ ap));
  do _ <- scene_call (import_fbx model_path) (ImportError model_path);
  do w1 <- sget;
  match armatures (w_scene w1) with
  | [] => sraise (SystemExit "No ARMATURE found after importing model FBX.")
  | main_arm :: _ =>
      let existing_actions := act_set (w_scene w1) in
      do _ <- scene_loop (import_animations anim_paths existing_actions);
      do _ <- scene_call (finalize_binding (obj_id main_arm)) ReferenceError;
      let d := PosixPath.dirname out_path in
      do _ <- os_makedirs (if String.eqb d "" then "." else d);
      do _ <- export out_path glb_settings;
      print ("Wrote " +:+ out_path)
  end.

(** [main()] (lines 115-120): the words of [sys.argv] after its first
    [--]. *)
Definition main : M unit :=
  do w <- sget;
  match script_argv (w_argv w) with
  | None => sraise (SystemExit "Expected Blender args separator `--`.")
  | Some rest => blender_main rest
  end.
End Driver.

(** ** The file system: [os.makedirs] *)

Lemma makedirs_split_length name h t :
  makedirs_split name = (h, t) -> t <> "" -> String.length h < String.length name.
Proof.
  unfold makedirs_split. pose proof (PosixPath.psplit_length name) as Hn.
  destruct (PosixPath.psplit name) as [h0 t0]. simpl in Hn.
  assert (forall u : string, u <> "" -> 0 < String.length u) as Hu by (intros [|]; simpl; [done|lia]).
  destruct (String.eqb_spec t0 ""); intros He Ht.
  - pose proof (PosixPath.psplit_length h0) as H0. rewrite He in H0. simpl in H0.
    pose proof (Hu t Ht). lia.
  - simplify_eq. pose proof (Hu t Ht). lia.
Qed.

Lemma makedirs_fuel_aux n m name f :
  String.length name < n -> String.length name < m -> makedirs n name f = makedirs m name f.
Proof.
  revert m name f. induction n as [|n IH]; intros [|m] name f Hn Hm; simpl; try lia.
  destruct (makedirs_split name) as [h t] eqn:E.
  destruct (negb (String.eqb h "") && negb (String.eqb t "") && negb (path_exists f h)) eqn:Er; [|done].
  apply andb_prop in Er as [Er _]. apply andb_prop in Er as [_ Et].
  pose proof (makedirs_split_length name h t E) as Hl.
  destruct (String.eqb_spec t "") as [|Hne]; [done|]. specialize (Hl Hne). rewrite (IH m); [done|lia..].
Qed.

Lemma makedirs_some n name f : String.length name < n -> makedirs n name f <> None.
Proof.
  revert name f. induction n as [|n IH]; intros name f Hn; simpl; [lia|].
  destruct (makedirs_split name) as [h t] eqn:E.
  destruct (negb (String.eqb h "") && negb (String.eqb t "") && negb (path_exists f h)) eqn:Er.
  - apply andb_prop in Er as [Er _]. apply andb_prop in Er as [_ Et].
    pose proof (makedirs_split_length name h t E) as Hl.
    destruct (String.eqb_spec t "") as [|Hne]; [done|]. specialize (Hl Hne).
    destruct (makedirs n h f) as [[f1|]|] eqn:Hr; [|done|by apply IH in Hr; [|lia]].
    simpl. repeat case_match; done.
  - simpl. repeat case_match; done.
Qed.

Lemma mkdir_grows name f f' :
  mkdir name f = Some f' -> fs_files f' = fs_files f /\ fs_dirs f' = fs_dirs f ++ [name].
Proof.
  unfold mkdir. destruct (path_exists f name); [done|].
  destruct (_ || _); [|done]. by intros [= <-].
Qed.

Lemma makedirs_grows_aux n name f f' :
  makedirs n name f = Some (Some f') -> fs_files f' = fs_files f /\ fs_dirs f `prefix_of` fs_dirs f'.
Proof.
  revert name f f'. induction n as [|n IH]; intros name f f'; simpl; [done|].
  destruct (makedirs_split name) as [h t].
  destruct (_ && _ && _); [destruct (makedirs n h f) as [[f1|]|] eqn:E1; [|done..] | set (f1 := f)].
  all: assert (fs_files f1 = fs_files f /\ fs_dirs f `prefix_of` fs_dirs f1) as [Hf Hd]
    by (first [apply (IH h); exact E1 | split; reflexivity]).
  all: repeat case_match; intros; simplify_eq; try done;
    match goal with H : mkdir _ _ = Some _ |- _ => apply mkdir_grows in H as [-> ->] end;
    split; [done|]; by apply prefix_app_r.
Qed.

(** [mkdir] keeps the tree well formed: it adds a path that does not
    exist, under a directory. *)
Lemma mkdir_wf name f f' : fs_wf f -> mkdir name f = Some f' -> fs_wf f'.
Proof.
  intros [Hd Hp]. unfold mkdir, path_exists, isdir.
  case_bool_decide as He; [done|]. assert (Hnf : name ∉ fs_files f) by tauto. assert (Hnd : name ∉ fs_dirs f) by tauto.
  destruct (String.eqb_spec (PosixPath.dirname name) "") as [Hr|Hr]; simpl;
    [|case_bool_decide as Hpd; [|done]]; intros [= <-]; split; simpl.
  all: try (intros p Hpf; rewrite elem_of_app, list_elem_of_singleton; intros [Hin | ->]; [by apply (Hd p) | done]).
  all: intros d; rewrite elem_of_app, list_elem_of_singleton; intros [Hin | ->].
  all: try (destruct (Hp d Hin) as [? | ?]; [left | right; apply elem_of_app; left]; done).
  all: first [by left | right; apply elem_of_app; by left].
Qed.

Lemma makedirs_wf n name f f' : fs_wf f -> makedirs n name f = Some (Some f') -> fs_wf f'.
Proof.
  revert name f f'. induction n as [|n IH]; intros name f f' Hwf; simpl; [done|].
  destruct (makedirs_split name) as [h t].
  destruct (_ && _ && _); [destruct (makedirs n h f) as [[f1|]|] eqn:E1; [|done..] | set (f1 := f)].
  all: assert (fs_wf f1) as Hwf1 by (first [apply (IH h f); done | done]).
  all: repeat case_match; intros; simplify_eq; try done; by eapply mkdir_wf.
Qed.

(** A directory [makedirs] adds is no longer than the path it was given. *)
Lemma makedirs_new_dirs n name f f' :
  makedirs n name f = Some (Some f') -> forall d, d ∈ fs_dirs f' -> d ∈ fs_dirs f \/ String.length d <= String.length name.
Proof.
  revert name f f'. induction n as [|n IH]; intros name f f'; simpl; [done|].
  destruct (makedirs_split name) as [h t] eqn:E.
  destruct (negb (String.eqb h "") && negb (String.eqb t "") && negb (path_exists f h)) eqn:Er;
    [destruct (makedirs n h f) as [[f1|]|] eqn:E1; [|done..] | set (f1 := f)].
  all: assert (forall d, d ∈ fs_dirs f1 -> d ∈ fs_dirs f \/ String.length d <= String.length name) as Hf1.
  all: try (intros d Hd; by left).
  { apply andb_prop in Er as [Er _]. apply andb_prop in Er as [_ Et].
    destruct (String.eqb_spec t "") as [|Hne]; [done|].
    pose proof (makedirs_split_length name h t E Hne) as Hl.
    intros d Hd. destruct (IH h f f1 E1 d Hd) as [? | ?]; [by left | right; lia]. }
  all: intros Hr d Hd; repeat case_match; simplify_eq; try (by apply Hf1).
  all: match goal with H : mkdir _ _ = Some _ |- _ => apply mkdir_grows in H as [_ Hdirs] end.
  all: rewrite Hdirs in Hd; apply elem_of_app in Hd as [Hd | ->%list_elem_of_singleton]; [by apply Hf1 | by right].
Qed.

Lemma psplit_dirname p : fst (PosixPath.psplit p) = PosixPath.dirname p.
Proof. done. Qed.

(** A path that does not end with a separator is split once. *)
Lemma makedirs_split_psplit name :
  (PosixPath.psplit name).2 <> "" -> makedirs_split name = (PosixPath.dirname name, (PosixPath.psplit name).2).
Proof.
  intros Ht. unfold makedirs_split. rewrite <- psplit_dirname.
  destruct (PosixPath.psplit name) as [h t]. simpl in *. by rewrite (proj2 (String.eqb_neq _ _) Ht).
Qed.

(** The tail of the path decides the [tail == curdir] return. *)
Lemma makedirs_unfold n name f :
  (PosixPath.psplit name).2 <> "" ->
  let h := PosixPath.dirname name in
  let rec := negb (String.eqb h "") && negb (path_exists f h) in
  makedirs (S n) name f =
    match (if rec then makedirs n h f else Some (Some f)) with
    | None => None
    | Some None => Some None
    | Some (Some f1) =>
        if rec && String.eqb (PosixPath.psplit name).2 "." then Some (Some f1)
        else match mkdir name f1 with
             | Some f2 => Some (Some f2)
             | None => if isdir f1 name then Some (Some f1) else Some None
             end
    end.
Proof.
  intros Ht h rec. cbn [makedirs]. rewrite (makedirs_split_psplit name Ht).
  rewrite (proj2 (String.eqb_neq _ _) Ht). by rewrite andb_true_r.
Qed.

(** C27: [os.makedirs(name, exist_ok=True)] on a well-formed tree, with
    enough fuel: a normal return touches no file, keeps the tree well
    formed and leaves [name] a directory; a directory that exists is left
    as it is ([exist_ok]); a file at [name] is an [OSError]. *)
Theorem makedirs_spec n name f :
  String.length name < n -> fs_wf f ->
  let t := (PosixPath.psplit name).2 in
  t <> "" -> t <> "." ->
  (forall f', makedirs n name f = Some (Some f') -> fs_files f' = fs_files f /\ fs_wf f' /\ name ∈ fs_dirs f') /\
  (name ∈ fs_dirs f -> makedirs n name f = Some (Some f)) /\
  (name ∈ fs_files f -> makedirs n name f = Some None).
Proof.
  intros Hn Hwf t Ht Hdot. destruct n as [|n]; [lia|].
  assert (Hmk : forall f1, mkdir name f1 = None -> path_exists f1 name = true \/
            ~ (PosixPath.dirname name = "" \/ PosixPath.dirname name ∈ fs_dirs f1)).
  { intros f1. unfold mkdir, isdir. destruct (path_exists f1 name); [by left|]. right.
    destruct (String.eqb_spec (PosixPath.dirname name) ""); simpl; [done|]. case_bool_decide; [done|]. tauto. }
  assert (Hu := makedirs_unfold n name f Ht). cbv zeta in Hu. fold t in Hu.
  rewrite (proj2 (String.eqb_neq _ _) Hdot), andb_false_r in Hu.
  split_and!.
  - intros f' Hr. split_and!; [by eapply makedirs_grows_aux | by eapply makedirs_wf |].
    rewrite Hu in Hr. repeat case_match; simplify_eq; try done.
    all: first [ match goal with H : mkdir _ _ = Some _ |- _ => apply mkdir_grows in H as [_ ->]; set_solver end
               | match goal with H : isdir _ _ = true |- _ => unfold isdir in H; by apply bool_decide_eq_true in H end ].
  - intros Hd. destruct Hwf as [_ Hpar]. rewrite Hu.
    assert (negb (String.eqb (PosixPath.dirname name) "") && negb (path_exists f (PosixPath.dirname name)) = false) as ->.
    { destruct (Hpar name Hd) as [-> | Hp]; [done|]. unfold path_exists. rewrite bool_decide_true by tauto. apply andb_false_r. }
    unfold mkdir, isdir, path_exists. rewrite !bool_decide_true by tauto. done.
  - intros Hf. destruct Hwf as [Hdis _]. rewrite Hu.
    destruct (negb (String.eqb (PosixPath.dirname name) "") && negb (path_exists f (PosixPath.dirname name))) eqn:Er.
    + destruct (makedirs n (PosixPath.dirname name) f) as [[f1|]|] eqn:E1; [|done|].
      * destruct (makedirs_grows_aux _ _ _ _ E1) as [Hfiles _].
        assert (Hnd : name ∉ fs_dirs f1).
        { intros Hin. destruct (makedirs_new_dirs _ _ _ _ E1 name Hin) as [Hin0 | Hle]; [by apply (Hdis name Hf)|].
          pose proof (makedirs_split_length name _ _ (makedirs_split_psplit name Ht) Ht). lia. }
        unfold mkdir, isdir, path_exists. rewrite bool_decide_true by (rewrite Hfiles; tauto).
        by rewrite bool_decide_false.
      * exfalso. apply (makedirs_some n (PosixPath.dirname name) f); [|done].
        pose proof (makedirs_split_length name _ _ (makedirs_split_psplit name Ht) Ht). lia.
    + unfold mkdir, isdir, path_exists. rewrite bool_decide_true by tauto. rewrite bool_decide_false; [done|].
      by apply Hdis.
Qed.

(** C26: [os.makedirs] returns: with fuel above the length of the path
    it never runs out, since each recursive call is on a strictly
    shorter head, and every such fuel gives the same result (a normal
    return or an [OSError]); so the fuel [S (len d)] of [os_makedirs] is
    enough. *)
Theorem makedirs_terminates n m name f :
  String.length name < n -> String.length name < m ->
  makedirs n name f <> None /\ makedirs n name f = makedirs m name f.
Proof. intros Hn Hm. split; [by apply makedirs_some | by apply makedirs_fuel_aux]. Qed.

(** ** What each step of the driver does *)

Section Steps.
Context `{IO : AssetIO}.

Lemma reset_session_inv w w1 r : reset_session w = (w1, Ok r) -> w1 = set_scene empty_scene w.
Proof. by intros [= <-]. Qed.

Lemma parse_inv argv w w1 a : parse argv w = (w1, Ok a) -> w1 = w /\ parse_args argv = Parsed a.
Proof. unfold parse. by destruct (parse_args argv); intros [= <- <-]. Qed.

Lemma sget_inv (w w1 r : world) : @sget world exit_reason w = (w1, Ok r) -> w1 = w /\ r = w.
Proof. by intros [= <- <-]. Qed.

Lemma check_exists_inv p msg w w1 r : check_exists p msg w = (w1, Ok r) -> w1 = w /\ path_exists (w_fs w) p = true.
Proof. unfold check_exists. by destruct (path_exists _ _) eqn:E; intros [= <-]. Qed.

Lemma sfor_check_inv (aps : list string) (m : string -> string) w w1 r :
  sfor aps (fun ap => check_exists ap (m ap)) w = (w1, Ok r) ->
  w1 = w /\ Forall (fun ap => path_exists (w_fs w) ap = true) aps.
Proof.
  revert w. induction aps as [|ap aps IH]; intros w H; simpl in H; [by injection H as <-|].
  inv_bind H. apply check_exists_inv in Hstep as [-> Hp]. apply IH in H as [-> Hf]. auto.
Qed.

(** The first missing animation source stops the checks. *)
Lemma sfor_check_missing (aps : list string) (m : string -> string) w :
  Exists (fun ap => path_exists (w_fs w) ap = false) aps ->
  exists ap, path_exists (w_fs w) ap = false /\
             sfor aps (fun ap => check_exists ap (m ap)) w = (w, Raise (SystemExit (m ap))).
Proof.
  induction aps as [|ap aps IH]; intros Hex; [by apply Exists_nil in Hex|]. simpl.
  destruct (path_exists (w_fs w) ap) eqn:E.
  - apply Exists_cons in Hex as [Hex|Hex]; [congruence|].
    destruct (IH Hex) as (ap' & Hm & Hr). exists ap'. split; [done|].
    rewrite (sbind_ok _ _ _ w tt); [done|]. unfold check_exists. by rewrite E.
  - exists ap. split; [done|]. apply sbind_raise. unfold check_exists. by rewrite E.
Qed.

Lemma scene_call_inv c e w w1 r :
  scene_call c e w = (w1, Ok r) -> exists s, c (w_scene w) = Some s /\ w1 = set_scene s w.
Proof. unfold scene_call. destruct (c _); [intros [= <-]; eauto | done]. Qed.

Lemma scene_loop_inv {A} (c : stE scene string A) w w1 a :
  scene_loop c w = (w1, Ok a) -> exists s, c (w_scene w) = (s, Ok a) /\ w1 = set_scene s w.
Proof. unfold scene_loop. destruct (c _) as [s [b|p]]; [intros [= <- <-]; eauto | done]. Qed.

Lemma os_makedirs_inv d w w1 r :
  os_makedirs d w = (w1, Ok r) -> w1 = set_fs (w_fs w1) w.
Proof. unfold os_makedirs. destruct (makedirs _ _ _) as [[]|]; [by intros [= <-] | done..]. Qed.

Lemma export_inv p st w w1 r :
  export p st w = (w1, Ok r) ->
  w_scene w1 = w_scene w /\ w_cwd w1 = w_cwd w /\
  w_written w1 = w_written w ++ [(p, st, w_scene w)] /\ w_stdout w1 = w_stdout w.
Proof. unfold export. destruct (export_gltf _ _ _); [by intros [= <-] | done]. Qed.
End Steps.

(** ** The driver's theorems *)

Section Driver_props.
Context `{IO : AssetIO}.

(** The first three steps of [_blender_main]: reset, parse, read the
    world. *)
Lemma blender_main_prefix argv w a :
  parse_args argv = Parsed a ->
  blender_main argv w =
    (let w0 := set_scene empty_scene w in
     let model_path := PosixPath.abspath (w_cwd w) (model a) in
     let anim_paths := map (PosixPath.abspath (w_cwd w)) (anim a) in
     sbind (check_exists model_path ("Missing model: " +:+ model_path)) (fun _ =>
     sbind (sfor anim_paths (fun ap => check_exists ap ("Missing anim: " +:+ ap))) (fun _ =>
     sbind (scene_call (import_fbx model_path) (ImportError model_path)) (fun _ =>
     sbind sget (fun w1 =>
     match armatures (w_scene w1) with
     | [] => sraise (SystemExit "No ARMATURE found after importing model FBX.")
     | main_arm :: _ =>
         sbind (scene_loop (import_animations anim_paths (act_set (w_scene w1)))) (fun _ =>
         sbind (scene_call (finalize_binding (obj_id main_arm)) ReferenceError) (fun _ =>
         let out_path := PosixPath.abspath (w_cwd w) (out a) in
         let d := PosixPath.dirname out_path in
         sbind (os_makedirs (if String.eqb d "" then "." else d)) (fun _ =>
         sbind (export out_path glb_settings) (fun _ =>
         print ("Wrote " +:+ out_path)))))
     end)))) w0).
Proof.
  intros Hp. unfold blender_main.
  rewrite (sbind_ok _ _ _ (set_scene empty_scene w) tt) by done.
  rewrite (sbind_ok _ _ _ (set_scene empty_scene w) a) by (unfold parse; by rewrite Hp).
  by rewrite (sbind_ok _ _ _ (set_scene empty_scene w) (set_scene empty_scene w)).
Qed.

(** C8: If the base model or any animation source does not exist, [_blender_main] raises [SystemExit] before any import: the only change to the world is the factory reset of the scene, and no file is written. *)
Theorem blender_main_missing_input argv w a :
  parse_args argv = Parsed a ->
  path_exists (w_fs w) (PosixPath.abspath (w_cwd w) (model a)) = false \/
  Exists (fun ap => path_exists (w_fs w) ap = false) (map (PosixPath.abspath (w_cwd w)) (anim a)) ->
  exists msg, blender_main argv w = (set_scene empty_scene w, Raise (SystemExit msg)).
Proof.
  intros Hp Hmiss. rewrite (blender_main_prefix _ _ _ Hp). cbv zeta.
  destruct (path_exists (w_fs w) (PosixPath.abspath (w_cwd w) (model a))) eqn:Hm.
  - destruct Hmiss as [Hmiss|Hmiss]; [congruence|].
    destruct (sfor_check_missing _ (fun ap => "Missing anim: " +:+ ap) (set_scene empty_scene w) Hmiss)
      as (ap & _ & Hr).
    eexists. rewrite (sbind_ok _ _ _ (set_scene empty_scene w) tt)
      by (unfold check_exists; simpl; by rewrite Hm).
    by apply sbind_raise.
  - eexists. apply sbind_raise. unfold check_exists. simpl. by rewrite Hm.
Qed.

Lemma blender_main_ok_inv argv w w' :
  blender_main argv w = (w', Ok tt) ->
  exists a s0 m rest sL ex sF,
    parse_args argv = Parsed a /\
    import_fbx (PosixPath.abspath (w_cwd w) (model a)) empty_scene = Some s0 /\
    armatures s0 = m :: rest /\
    import_animations (map (PosixPath.abspath (w_cwd w)) (anim a)) (act_set s0) s0 = (sL, Ok ex) /\
    finalize_binding (obj_id m) sL = Some sF /\
    w_scene w' = sF /\
    w_written w' = w_written w ++ [(PosixPath.abspath (w_cwd w) (out a), glb_settings, sF)] /\
    w_stdout w' = w_stdout w ++ ["Wrote " +:+ PosixPath.abspath (w_cwd w) (out a)].
Proof.
  intros H. unfold blender_main in H.
  inv_bind H. apply reset_session_inv in Hstep; subst.
  inv_bind H. apply parse_inv in Hstep as [? Hp]; subst.
  inv_bind H. apply sget_inv in Hstep as [? ?]; subst. cbv zeta in H.
  inv_bind H. apply check_exists_inv in Hstep as [? _]; subst.
  inv_bind H. apply sfor_check_inv in Hstep as [? _]; subst.
  inv_bind H. apply scene_call_inv in Hstep as (s0 & Hs0 & ?); subst.
  inv_bind H. apply sget_inv in Hstep as [? ?]; subst. simpl in H.
  destruct (armatures s0) as [|m rest] eqn:Harm; [done|].
  inv_bind H. apply scene_loop_inv in Hstep as (sL & HL & ?); subst.
  inv_bind H. apply scene_call_inv in Hstep as (sF & HF & ?); subst.
  inv_bind H. apply os_makedirs_inv in Hstep. rename Hstep into Hmk.
  inv_bind H. apply export_inv in Hstep as (Hsc & Hcwd & Hwr & Hout).
  rewrite Hmk in Hsc, Hwr, Hout. unfold print, smodify in H. injection H as <-. simpl in *.
  exists r0, s0, m, rest, sL, r4, sF. rewrite Hsc, Hwr, Hout. by split_and!.
Qed.

(** C19: A run of [_blender_main] that returns normally parsed the arguments, imported the base, found an armature, ran the whole animation loop and the finalizer, wrote one GLB of the final scene and printed [Wrote <out>]. *)
Theorem blender_main_ok argv w w' :
  blender_main argv w = (w', Ok tt) ->
  exists a s0 m rest sL ex sF,
    parse_args argv = Parsed a /\
    import_fbx (PosixPath.abspath (w_cwd w) (model a)) empty_scene = Some s0 /\
    armatures s0 = m :: rest /\
    import_animations (map (PosixPath.abspath (w_cwd w)) (anim a)) (act_set s0) s0 = (sL, Ok ex) /\
    finalize_binding (obj_id m) sL = Some sF /\
    w_scene w' = sF /\
    w_written w' = w_written w ++ [(PosixPath.abspath (w_cwd w) (out a), glb_settings, sF)] /\
    w_stdout w' = w_stdout w ++ ["Wrote " +:+ PosixPath.abspath (w_cwd w) (out a)].
Proof. apply blender_main_ok_inv. Qed.
End Driver_props.

Section Output.
Context `{IO : AssetIO} `{!AssetIOLaws}.

Lemma wf_empty : wf empty_scene.
Proof. split; constructor. Qed.

(** The main armature survives the loop: the loop keeps the base
    objects (up to selection), so the armature is found again. *)
Lemma arm_after_loop aps s0 sL ex m rest :
  wf s0 -> armatures s0 = m :: rest -> import_animations aps (act_set s0) s0 = (sL, Ok ex) ->
  exists oL, find_obj (obj_id m) sL = Some oL.
Proof.
  intros Hwf0 Harm HL. destruct (loop_invariant _ _ _ _ _ Hwf0 eq_refl HL) as (_ & _ & Hk & _).
  assert (m ∈ objects s0) as Hm.
  { assert (m ∈ armatures s0) as Hm by (rewrite Harm; set_solver). by apply list_elem_of_filter in Hm as [_ ?]. }
  apply (elem_of_map_2 obj_key) in Hm. rewrite <- Hk in Hm.
  apply elem_of_map in Hm as (x & Heq & Hx). apply (f_equal (fun k => k.1.1.1)) in Heq. simpl in Heq.
  rewrite Heq. by apply find_obj_elem.
Qed.

(** Everything a successful run establishes, from the step theorems. *)
Lemma blender_main_facts argv w w' :
  blender_main argv w = (w', Ok tt) ->
  exists a s0 m rest sL ex oL,
    parse_args argv = Parsed a /\
    import_fbx (PosixPath.abspath (w_cwd w) (model a)) empty_scene = Some s0 /\
    armatures s0 = m :: rest /\
    import_animations (map (PosixPath.abspath (w_cwd w)) (anim a)) (act_set s0) s0 = (sL, Ok ex) /\
    wf s0 /\ wf sL /\ map obj_key (objects sL) = map obj_key (objects s0) /\
    filter (fun c => act_id c ∈ act_ids s0) (actions sL) = actions s0 /\
    find_obj (obj_id m) sL = Some oL /\
    w_scene w' = update_obj (obj_id m) (set_anim (Some (mk_anim_data (expected_binding oL sL)))) sL /\
    last (w_written w') = Some (PosixPath.abspath (w_cwd w) (out a), glb_settings, w_scene w').
Proof.
  intros Hrun. destruct (blender_main_ok_inv _ _ _ Hrun) as (a & s0 & m & rest & sL & ex & sF & Hp & Hs0 & Harm & HL & HF & Hsc & Hwr & _).
  pose proof (import_wf _ _ _ wf_empty Hs0) as Hwf0.
  destruct (loop_invariant _ _ _ _ _ Hwf0 eq_refl HL) as (HwfL & _ & Hk & Hc).
  destruct (arm_after_loop _ _ _ _ _ _ Hwf0 Harm HL) as [oL HoL].
  rewrite (finalize_binding_eq _ _ oL) in HF; [|apply HwfL | done]. injection HF as <-.
  exists a, s0, m, rest, sL, ex, oL. rewrite Hwr, last_snoc, Hsc. by split_and!.
Qed.

(** C1: A run of [_blender_main] that returns normally has written, as its last GLB, a well-formed scene with exactly the objects (identity, name and type) that importing the base FBX created, and with every action of the base import unchanged. *)
Theorem blender_main_output argv w w' :
  blender_main argv w = (w', Ok tt) ->
  exists a s0 sF, parse_args argv = Parsed a /\
    import_fbx (PosixPath.abspath (w_cwd w) (model a)) empty_scene = Some s0 /\
    last (w_written w') = Some (PosixPath.abspath (w_cwd w) (out a), glb_settings, sF) /\
    wf sF /\
    map obj_ident (objects sF) = map obj_ident (objects s0) /\
    filter (fun c => act_id c ∈ act_ids s0) (actions sF) = actions s0.
Proof.
  intros Hrun. destruct (blender_main_facts _ _ _ Hrun)
    as (a & s0 & m & rest & sL & ex & oL & Hp & Hs0 & _ & _ & _ & [HoL HaL] & Hk & Hc & _ & Hsc & Hwr).
  exists a, s0, (w_scene w'). split_and!; [done..| | |].
  - rewrite Hsc. split; [|done]. by rewrite update_obj_ids.
  - rewrite Hsc, update_obj_ident by done. by apply obj_ident_of_keys.
  - by rewrite Hsc.
Qed.

(** C10: After a successful run the main armature (the first armature of the base import) is in the exported scene with an [animation_data] block, and it has an active action whenever the scene has an action. *)
Theorem blender_main_binding argv w w' :
  blender_main argv w = (w', Ok tt) ->
  exists a s0 m rest o ad,
    parse_args argv = Parsed a /\
    import_fbx (PosixPath.abspath (w_cwd w) (model a)) empty_scene = Some s0 /\
    armatures s0 = m :: rest /\
    find_obj (obj_id m) (w_scene w') = Some o /\ obj_anim o = Some ad /\
    (actions (w_scene w') <> [] -> is_Some (ad_action ad)).
Proof.
  intros Hrun. destruct (blender_main_facts _ _ _ Hrun)
    as (a & s0 & m & rest & sL & ex & oL & Hp & Hs0 & Harm & _ & _ & _ & _ & _ & HoL & Hsc & _).
  exists a, s0, m, rest, (set_anim (Some (mk_anim_data (expected_binding oL sL))) oL),
    (mk_anim_data (expected_binding oL sL)).
  rewrite Hsc. split_and!; [done..| by apply find_obj_update | done |].
  intros Hne. by apply expected_binding_some.
Qed.
End Output.

End Pipeline.
