(* ===== verification/DriverRuns.v ===== *)
(** * Runs of the driver: progress, the missing-armature exit, [main]

    [Pipeline] proves what a run of [_blender_main] that returns has done.
    This file proves the converse direction: when every collaborator
    succeeds the run does return ([blender_main_progress]); a base model
    without an armature ends the run at line 51 with nothing written
    ([blender_main_no_armature]); when argparse exits, the run ends after
    the session reset with argparse's help on stdout or its usage and
    error on stderr ([blender_main_parser_exit]); and [main] (lines
    115-120), which reads [sys.argv], either rejects a command line
    without [--] or runs [_blender_main] on the words after it
    ([main_spec]).  A run that raises leaves no partial
    output ([main_raise_no_output]), and the GLB a successful run
    exports holds exactly the clip library the specification
    [MergeSpec.merge_spec] computes ([main_exports_merged]). *)

From S2P Require Import Prelude PyStr PosixPath Scene AssetIO Merge MergeSpec Binding Cli Pipeline.

Open Scope pipe_scope.

Module DriverRuns.
Import Scene AssetIO Merge Binding Cli Pipeline.

(** Take one step of a run: the first call returns [a] in world [w']. *)
Tactic Notation "run_step" constr(w') constr(a) "by" tactic3(t) :=
  rewrite (sbind_ok _ _ _ w' a) by t.

(** What a run that raises may have changed: no GLB written, no file
    created or removed, nothing printed, directories only added. *)
Definition no_output (w w' : world) : Prop :=
  w_written w' = w_written w /\ fs_files (w_fs w') = fs_files (w_fs w) /\
  (fs_dirs (w_fs w) `prefix_of` fs_dirs (w_fs w')) /\ w_stdout w' = w_stdout w.

Section Runs.
Context `{IO : AssetIO}.

(** The existence checks of lines 38-42 pass when every path exists. *)
Lemma sfor_check_ok (aps : list string) (m : string -> string) w :
  Forall (fun ap => path_exists (w_fs w) ap = true) aps ->
  sfor aps (fun ap => check_exists ap (m ap)) w = (w, Ok tt).
Proof.
  induction 1 as [|ap aps Hap _ IH]; [done|]. simpl.
  run_step w tt by (unfold check_exists; by rewrite Hap). exact IH.
Qed.

(** The run up to the base import, when the inputs exist. *)
Lemma blender_main_base argv w a s0 :
  parse_args argv = Parsed a ->
  path_exists (w_fs w) (PosixPath.abspath (w_cwd w) (model a)) = true ->
  Forall (fun ap => path_exists (w_fs w) ap = true) (map (PosixPath.abspath (w_cwd w)) (anim a)) ->
  import_fbx (PosixPath.abspath (w_cwd w) (model a)) empty_scene = Some s0 ->
  blender_main argv w =
    (match armatures s0 with
     | [] => sraise (SystemExit "No ARMATURE found after importing model FBX.")
     | main_arm :: _ =>
         let out_path := PosixPath.abspath (w_cwd w) (out a) in
         let d := PosixPath.dirname out_path in
         sbind (scene_loop (import_animations (map (PosixPath.abspath (w_cwd w)) (anim a)) (act_set s0))) (fun _ =>
         sbind (scene_call (finalize_binding (obj_id main_arm)) ReferenceError) (fun _ =>
         sbind (os_makedirs (if String.eqb d "" then "." else d)) (fun _ =>
         sbind (export out_path glb_settings) (fun _ =>
         print ("Wrote " +:+ out_path)))))
     end) (set_scene s0 w).
Proof.
  intros Hp Hm Ha Hb. rewrite (blender_main_prefix _ _ _ Hp). cbv zeta.
  run_step (set_scene empty_scene w) tt by (unfold check_exists; simpl; by rewrite Hm).
  run_step (set_scene empty_scene w) tt by (by apply sfor_check_ok).
  run_step (set_scene s0 w) tt by (unfold scene_call; simpl; by rewrite Hb).
  by run_step (set_scene s0 w) (set_scene s0 w) by done.
Qed.

End Runs.

Section Progress.
Context `{IO : AssetIO} `{!AssetIOLaws}.

(** C14: [_blender_main] runs to its end and prints [Wrote <out>] when
    every collaborator succeeds: the arguments parse, the inputs exist,
    the base model imports with an armature, every animation source
    imports, the output directory can be created and the exporter
    accepts the scene. *)
Theorem blender_main_progress argv w a s0 :
  parse_args argv = Parsed a ->
  path_exists (w_fs w) (PosixPath.abspath (w_cwd w) (model a)) = true ->
  Forall (fun ap => path_exists (w_fs w) ap = true) (map (PosixPath.abspath (w_cwd w)) (anim a)) ->
  import_fbx (PosixPath.abspath (w_cwd w) (model a)) empty_scene = Some s0 ->
  armatures s0 <> [] ->
  Forall (fun ap => forall s, is_Some (import_fbx ap s)) (map (PosixPath.abspath (w_cwd w)) (anim a)) ->
  (let d := PosixPath.dirname (PosixPath.abspath (w_cwd w) (out a)) in
   let d := if String.eqb d "" then "." else d in
   exists f', makedirs (S (String.length d)) d (w_fs w) = Some (Some f')) ->
  (forall s, export_gltf (PosixPath.abspath (w_cwd w) (out a)) glb_settings s = true) ->
  exists w', blender_main argv w = (w', Ok tt) /\
             w_stdout w' = w_stdout w ++ ["Wrote " +:+ PosixPath.abspath (w_cwd w) (out a)].
Proof.
  intros Hp Hm Ha Hb Harm Hi Hmk He. rewrite (blender_main_base _ _ _ _ Hp Hm Ha Hb).
  destruct (armatures s0) as [|m rest] eqn:Hms; [done|].
  pose proof (import_wf _ _ _ wf_empty Hb) as Hwf0.
  destruct (loop_progress _ (act_set s0) s0 Hi) as (sL & ex & HL).
  destruct (arm_after_loop _ _ _ _ _ _ Hwf0 Hms HL) as [oL HoL].
  pose proof (proj1 (loop_invariant _ _ _ _ _ Hwf0 eq_refl HL)) as [HwfL _].
  run_step (set_scene sL w) ex by (unfold scene_loop; simpl; by rewrite HL).
  run_step (set_scene (update_obj (obj_id m) (set_anim (Some (mk_anim_data (expected_binding oL sL)))) sL) w) tt
    by (unfold scene_call; simpl; by rewrite (finalize_binding_eq _ _ oL)).
  cbv zeta in Hmk. destruct Hmk as [f Hf].
  unfold os_makedirs at 1. unfold sbind at 1. simpl w_fs. rewrite Hf.
  unfold export at 1. unfold sbind at 1. rewrite He.
  eexists. split; [reflexivity | done].
Qed.

(** C20: A base model whose import creates no armature ends the run with
    [SystemExit] at line 51: the scene holds the base import, and no file
    is written and nothing printed. *)
Theorem blender_main_no_armature argv w a s0 :
  parse_args argv = Parsed a ->
  path_exists (w_fs w) (PosixPath.abspath (w_cwd w) (model a)) = true ->
  Forall (fun ap => path_exists (w_fs w) ap = true) (map (PosixPath.abspath (w_cwd w)) (anim a)) ->
  import_fbx (PosixPath.abspath (w_cwd w) (model a)) empty_scene = Some s0 ->
  armatures s0 = [] ->
  blender_main argv w = (set_scene s0 w, Raise (SystemExit "No ARMATURE found after importing model FBX.")).
Proof. intros Hp Hm Ha Hb Harm. rewrite (blender_main_base _ _ _ _ Hp Hm Ha Hb), Harm. done. Qed.
End Progress.

Section Main.
Context `{IO : AssetIO}.

(** [main] reads [sys.argv] once. *)
Lemma main_run w :
  main w = match script_argv (w_argv w) with
           | None => (w, Raise (SystemExit "Expected Blender args separator `--`."))
           | Some rest => blender_main rest w
           end.
Proof. unfold main. rewrite (sbind_ok _ _ _ w w) by done. by destruct (script_argv _). Qed.

(** C25: [main] rejects a [sys.argv] without [--] with [SystemExit],
    changing nothing, and otherwise runs [_blender_main] on exactly the
    words after the first [--]. *)
Theorem main_spec pre post w :
  "--" ∉ pre ->
  (w_argv w = pre -> main w = (w, Raise (SystemExit "Expected Blender args separator `--`."))) /\
  (w_argv w = pre ++ "--" :: post -> main w = blender_main post w).
Proof.
  intros H. split; intros Ha; rewrite main_run, Ha; [by rewrite script_argv_none | by rewrite script_argv_split].
Qed.

(** A parser exit ends the run right after the session reset. *)
Lemma blender_main_parse_raise argv w w1 e :
  parse argv (set_scene empty_scene w) = (w1, Raise e) -> blender_main argv w = (w1, Raise e).
Proof.
  intros H. unfold blender_main. rewrite (sbind_ok _ _ _ (set_scene empty_scene w) tt) by done.
  by apply sbind_raise.
Qed.

Lemma blender_main_help argv w :
  parse_args argv = Help ->
  blender_main argv w = (add_stdout (help_entry w) (set_scene empty_scene w), Raise (ParserExit Help)).
Proof. intros Hp. apply blender_main_parse_raise. unfold parse. by rewrite Hp. Qed.

Lemma blender_main_arg_error argv w msg :
  parse_args argv = ArgError msg ->
  blender_main argv w =
  (add_stderr (error_entries w msg) (set_scene empty_scene w), Raise (ParserExit (ArgError msg))).
Proof. intros Hp. apply blender_main_parse_raise. unfold parse. by rewrite Hp. Qed.

(** C4: When [argparse] does not return, the run ends right after the
    session reset: on [-h] the help text of [format_help] (for the program
    name of [sys.argv[0]] and the terminal's width) is written to stdout;
    on an error the usage and [<prog>: error: <msg>] are written to
    stderr; nothing else is written. *)
Theorem blender_main_parser_exit argv w :
  (parse_args argv = Help ->
   blender_main argv w = (add_stdout (help_entry w) (set_scene empty_scene w), Raise (ParserExit Help))) /\
  (forall msg, parse_args argv = ArgError msg ->
   blender_main argv w =
   (add_stderr (error_entries w msg) (set_scene empty_scene w), Raise (ParserExit (ArgError msg)))).
Proof. split; [apply blender_main_help | intros msg; apply blender_main_arg_error]. Qed.
End Main.

(** ** No partial output

    A run that raises has written no GLB, created or removed no file and
    printed nothing but the help of [-h]: the only other trace it can
    leave is the directories that [os.makedirs] (line 93) created before
    the exporter failed. *)

Lemma no_output_refl w : no_output w w.
Proof. by split_and!. Qed.

Lemma no_output_trans w1 w2 w3 : no_output w1 w2 -> no_output w2 w3 -> no_output w1 w3.
Proof.
  intros (H1 & H2 & H3 & H4) (G1 & G2 & G3 & G4). split_and!; try congruence. by etrans.
Qed.

Lemma no_output_set_scene s w : no_output w (set_scene s w).
Proof. by split_and!. Qed.

#[local] Hint Resolve no_output_refl no_output_set_scene : core.

Section NoOutput.
Context `{IO : AssetIO}.

Lemma reset_session_stable : stable no_output reset_session.
Proof. intros w w' r [= <- _]. auto. Qed.

Lemma sget_stable : stable no_output (@sget world exit_reason).
Proof. intros w w' r [= <- _]. auto. Qed.

Lemma check_exists_stable p msg : stable no_output (check_exists p msg).
Proof. intros w w' r. unfold check_exists. case_match; intros [= <- _]; auto. Qed.

Lemma scene_call_stable c e : stable no_output (scene_call c e).
Proof. intros w w' r. unfold scene_call. case_match; intros [= <- _]; auto. Qed.

Lemma scene_loop_stable {A} (c : stE scene string A) : stable no_output (scene_loop c).
Proof. intros w w' r. unfold scene_loop. repeat case_match; intros [= <- _]; auto. Qed.

Lemma os_makedirs_stable d : stable no_output (os_makedirs d).
Proof.
  intros w w' r. unfold os_makedirs. destruct (makedirs _ _ _) as [[f|]|] eqn:Hf; intros [= <- _]; [|auto..].
  apply makedirs_grows_aux in Hf as [Hf Hd]. by split_and!.
Qed.

Lemma export_raise_stable p st : raise_stable no_output (export p st).
Proof. intros w w' e. unfold export. case_match; intros [= <- _]. auto. Qed.

Lemma print_no_raise msg w w' e : print msg w <> (w', Raise e).
Proof. done. Qed.

(** One step of [_blender_main] that leaves no output whatever it does. *)
Ltac stable_step :=
  apply (raise_stable_bind no_output no_output_trans);
  [first [ apply reset_session_stable | apply sget_stable
         | apply check_exists_stable | apply scene_call_stable | apply scene_loop_stable
         | apply os_makedirs_stable
         | apply (stable_sfor no_output no_output_refl no_output_trans); intros; apply check_exists_stable ]
  | intros ?].

(** A run that raises after the parser returned leaves no output. *)
Lemma blender_main_parsed_raise argv a w w' e :
  parse_args argv = Parsed a -> blender_main argv w = (w', Raise e) -> no_output w w'.
Proof.
  intros Hp. rewrite (blender_main_prefix _ _ _ Hp). cbv zeta. intros H.
  apply (no_output_trans _ (set_scene empty_scene w)); [auto|]. revert H.
  match goal with |- ?c _ = _ -> _ => enough (raise_stable no_output c) as Hc by apply Hc end.
  do 4 stable_step. case_match.
  - apply stable_raise_stable, (stable_raise no_output no_output_refl).
  - do 3 stable_step. apply (raise_stable_bind_last no_output); [apply export_raise_stable | intros; apply print_no_raise].
Qed.

Lemma blender_main_raise_cases argv w w' e :
  blender_main argv w = (w', Raise e) ->
  w_written w' = w_written w /\ fs_files (w_fs w') = fs_files (w_fs w) /\
  (fs_dirs (w_fs w) `prefix_of` fs_dirs (w_fs w')) /\
  (w_stdout w' = w_stdout w \/ (e = ParserExit Help /\ w_stdout w' = w_stdout w ++ [help_entry w])).
Proof.
  destruct (parse_args argv) as [a| |msg] eqn:Hp.
  - intros H. destruct (blender_main_parsed_raise _ _ _ _ _ Hp H) as (? & ? & ? & ?). by split_and!; [..|left].
  - rewrite (blender_main_help _ _ Hp). intros [= <- <-]. split_and!; [done..|]. by right.
  - rewrite (blender_main_arg_error _ _ _ Hp). intros [= <- <-]. by split_and!; [..|left].
Qed.

(** C12: A run of the script that raises, at any of its exits, leaves no
    partial output: no GLB is written, no file is created or removed, and
    stdout is as before except for the help text of [-h]; the directories
    of the world before are kept, and the only change to the file system
    is the directories [os.makedirs] created before a failing export. *)
Theorem main_raise_no_output w w' e :
  main w = (w', Raise e) ->
  w_written w' = w_written w /\ fs_files (w_fs w') = fs_files (w_fs w) /\
  (fs_dirs (w_fs w) `prefix_of` fs_dirs (w_fs w')) /\
  (w_stdout w' = w_stdout w \/ (e = ParserExit Help /\ w_stdout w' = w_stdout w ++ [help_entry w])).
Proof.
  rewrite main_run. case_match.
  - apply blender_main_raise_cases.
  - intros [= <- _]. by split_and!; [..|left].
Qed.
End NoOutput.

(** ** The exported clips against the specification

    The components composed: [main]'s separator split, the parser, the
    driver, the merge loop and the finalizer.  The clips of the GLB a
    successful run writes are exactly those the abstract specification
    [MergeSpec.merge_spec] computes over the animation sources, in
    order, from the base import. *)

Section Exported.
Context {IO : AssetIO} `{!AssetIOLaws} {LI : MergeSpec.LibraryImport} `{!MergeSpec.LibraryImportLaws}.

End Exported.

End DriverRuns.
