(* ===== verification/StartColors.v ===== *)
(** * The face-colour stub [start_colors.py]

    [process_obj_file(input, output)] (lines 4-19) opens the input OBJ
    file for reading and the output file for writing, in this order,
    counts the lines of the input that start with ["f "] and writes one
    line ["255 255 255 255"] per face; every exception is caught and
    printed.  The model keeps a text file system (contents by path and a
    set of directories) shared by the two handles, so that the output
    truncation is seen by the input handle when both name the same file.
    Text mode reads with universal newlines.  The command line (lines
    22-31) is an [argparse] parser with two positional arguments, read
    from [sys.argv] in the process state; the values it stores are
    strings, or a list when [--] was a positional's only word, and [open]
    raises [TypeError] on a list.  On [-h] the help of [sc_parser] goes
    to stdout, on an error the usage and the message go to stderr. *)

From S2P Require Import Prelude PyStr PosixPath Cli CliText.
From stdpp Require Import pretty.
From Stdlib Require Import Ascii ZArith.

Open Scope pipe_scope.

Module StartColors.
Import PyStr.

(** ** Text *)

(** The universal-newline translation of text mode: ["\r\n"] and ["\r"]
    read as ["\n"]. *)
Fixpoint universal (s : string) : string :=
  match s with
  | EmptyString => EmptyString
  | String c s' =>
      if Ascii.eqb c "013"%char then
        match s' with
        | String d s'' =>
            if Ascii.eqb d "010"%char then String "010"%char (universal s'') else String "010"%char (universal s')
        | EmptyString => String "010"%char EmptyString
        end
      else String c (universal s')
  end.

(** [for line in infile]: the lines of (translated) text, each with its
    ["\n"] except a last unterminated one. *)
Fixpoint py_lines (s : string) : list string :=
  match s with
  | EmptyString => []
  | String c s' =>
      if Ascii.eqb c "010"%char then String c EmptyString :: py_lines s'
      else match py_lines s' with
           | [] => [String c EmptyString]
           | l :: ls => String c l :: ls
           end
  end.

(** [sum(1 for line in infile if line.startswith("f "))] (line 8) *)
Definition face_count (text : string) : nat :=
  length (filter (fun l => PyStr.startswith l "f " = true) (py_lines (universal text))).

Definition color_line : string := "255 255 255 255" +:+ String "010"%char EmptyString.

(** ** The file system and the exceptions *)

Record tfs : Type := mk_tfs { t_files : gmap string string; t_dirs : gset string }.

(** The process: the file system, what was written to stdout and to
    stderr (one entry per [print] or message), [sys.argv] and the
    terminal's columns. *)
Record tworld : Type := mk_tworld {
  t_fs : tfs;
  t_stdout : list string;
  t_stderr : list string;
  t_argv : list string;
  t_columns : nat
}.

Definition set_tfs (f : tfs) (w : tworld) : tworld :=
  mk_tworld f (t_stdout w) (t_stderr w) (t_argv w) (t_columns w).

Definition write_stdout (msg : string) (w : tworld) : tworld :=
  mk_tworld (t_fs w) (t_stdout w ++ [msg]) (t_stderr w) (t_argv w) (t_columns w).

Definition write_stderr (msgs : list string) (w : tworld) : tworld :=
  mk_tworld (t_fs w) (t_stdout w) (t_stderr w ++ msgs) (t_argv w) (t_columns w).

(** A value [argparse] stores for a positional argument: a string, or
    the list [_get_values] leaves when the only word of the argument was a
    [--] it removed. *)
Inductive argval : Type :=
| VStr (s : string)
| VList (l : list string).

Coercion VStr : string >-> argval.

(** [str(v)] in the f-strings of lines 14 and 17 (the items of a list are
    quoted plainly, as [repr] quotes a string without quotes or escapes). *)
Definition py_str (v : argval) : string :=
  match v with
  | VStr s => s
  | VList l => "[" +:+ String.concat ", " (map (fun x => "'" +:+ x +:+ "'") l) +:+ "]"
  end.

(** The exceptions [open] raises here. *)
Inductive py_exc : Type :=
| FileNotFound (p : string)       (* [Errno 2] *)
| IsADirectory (p : string)       (* [Errno 21] *)
| NotADirectory (p : string)      (* [Errno 20] *)
| PathTypeError.                  (* [TypeError]: the path is a list *)

(** [str(e)] *)
Definition str_exc (e : py_exc) : string :=
  match e with
  | FileNotFound p => "[Errno 2] No such file or directory: '" +:+ p +:+ "'"
  | IsADirectory p => "[Errno 21] Is a directory: '" +:+ p +:+ "'"
  | NotADirectory p => "[Errno 20] Not a directory: '" +:+ p +:+ "'"
  | PathTypeError => "expected str, bytes or os.PathLike object, not list"
  end.

(** Whether the lookup of [p]'s parent directories meets a regular file
    ([ENOTDIR]); [fuel] bounds the walk up ([dirname] shortens). *)
Fixpoint parent_is_file (fuel : nat) (f : tfs) (p : string) : bool :=
  match fuel with
  | O => false
  | S fuel' =>
      let d := PosixPath.dirname p in
      if String.eqb d "" || String.eqb d p then false
      else bool_decide (d ∈ dom (t_files f)) || parent_is_file fuel' f d
  end.

(** The error [open(p, mode)] raises for a path that is not a regular file. *)
Definition missing_error (f : tfs) (p : string) : py_exc :=
  if parent_is_file (S (String.length p)) f p then NotADirectory p else FileNotFound p.

Definition parent_ok (f : tfs) (p : string) : bool :=
  let d := PosixPath.dirname p in String.eqb d "" || bool_decide (d ∈ t_dirs f).

(** A well-formed file system: no path is both a regular file and a
    directory. *)
Definition tfs_wf (f : tfs) : Prop := forall p, p ∈ dom (t_files f) -> p ∉ t_dirs f.

Abbreviation TM := (stE tworld py_exc).

Definition set_file (p c : string) (w : tworld) : tworld :=
  set_tfs (mk_tfs (<[p := c]> (t_files (t_fs w))) (t_dirs (t_fs w))) w.

(** The path argument of [open] ([os.fspath]): a string is the path, a
    list raises [TypeError] before any file is touched. *)
Definition fspath (v : argval) : TM string :=
  fun w => match v with
           | VStr p => (w, Ok p)
           | VList _ => (w, Raise PathTypeError)
           end.

(** [open(p, "r")] *)
Definition open_r (p : string) : TM unit :=
  fun w => let f := t_fs w in
    if bool_decide (p ∈ t_dirs f) then (w, Raise (IsADirectory p))
    else match t_files f !! p with
         | Some _ => (w, Ok tt)
         | None => (w, Raise (missing_error f p))
         end.

(** [open(p, "w")]: creates or truncates [p]. *)
Definition open_w (p : string) : TM unit :=
  fun w => let f := t_fs w in
    if bool_decide (p ∈ t_dirs f) then (w, Raise (IsADirectory p))
    else if bool_decide (p ∈ dom (t_files f)) || parent_ok f p then (set_file p "" w, Ok tt)
    else (w, Raise (missing_error f p)).

(** Iterating the input handle reads the file as it is now. *)
Definition read_all (p : string) : TM string :=
  fun w => (w, Ok (default "" (t_files (t_fs w) !! p))).

(** [outfile.write(s)] *)
Definition write (p s : string) : TM unit :=
  fun w => (set_file p (default "" (t_files (t_fs w) !! p) +:+ s) w, Ok tt).

Definition print (msg : string) : TM unit :=
  smodify (write_stdout msg).

(** The [try] body of [process_obj_file] (lines 6-14). *)
Definition process_body (input_filename output_filename : argval) : TM unit :=
  do infile <- fspath input_filename;
  do _ <- open_r infile;
  do outfile <- fspath output_filename;
  do _ <- open_w outfile;
  do text <- read_all infile;
  let face_count := face_count text in
  do _ <- sfor (seq 0 face_count) (fun _ => write outfile color_line);
  print ("Processed " +:+ pretty face_count +:+ " faces. Output written to " +:+ py_str output_filename +:+ ".").

(** [process_obj_file] (lines 4-19): every exception is caught. *)
Definition process_obj_file (input_filename output_filename : argval) (w : tworld) : tworld :=
  match process_body input_filename output_filename w with
  | (w', Ok _) => w'
  | (w', Raise (FileNotFound _)) => fst (print ("The file " +:+ py_str input_filename +:+ " does not exist.") w')
  | (w', Raise e) => fst (print ("An error occurred: " +:+ str_exc e) w')
  end.

(** ** The command line (lines 22-31) *)

(** The classes [_parse_optional] gives a word of this parser, whose only
    option is [-h/--help]; [short] tells whether the option string is
    [-h] (an explicit argument of [-h] is read as more short flags). *)
Inductive sclass : Type :=
| SArg                                        (* a positional value *)
| SHelp (short : bool) (explicit : option string)
| SUnknown.                                   (* an option no action knows *)

Definition is_help (o : string) : bool := String.eqb o "-h" || String.eqb o "--help".

(** [_parse_optional] with [_get_option_tuples] (CPython 3.11). *)
Definition sc_classify (w : string) : sclass :=
  match w with
  | EmptyString => SArg
  | String c rest =>
      if negb (Ascii.eqb c "-") then SArg
      else if is_help w then SHelp false None
      else if String.length w =? 1 then SArg
      else match Cli.split_once "="%char w with
           | Some (o, v) => if is_help o then SHelp (String.eqb o "-h") (Some v) else
               match rest with
               | String "-"%char _ => if PyStr.startswith "--help" o then SHelp false (Some v) else
                   if Cli.negative_number_like w || PyStr.has_char " " w then SArg else SUnknown
               | String "h"%char more => SHelp true (Some more)
               | _ => if Cli.negative_number_like w || PyStr.has_char " " w then SArg else SUnknown
               end
           | None =>
               match rest with
               | String "-"%char _ => if PyStr.startswith "--help" w then SHelp false None else
                   if Cli.negative_number_like w || PyStr.has_char " " w then SArg else SUnknown
               | String "h"%char more => SHelp true (Some more)
               | _ => if Cli.negative_number_like w || PyStr.has_char " " w then SArg else SUnknown
               end
           end
  end.

(** The outcome of [parser.parse_args()]. *)
Inductive sc_parsed : Type :=
| SCParsed (input_file output_file : argval)
| SCHelp                  (* help printed, exit status 0 *)
| SCError (msg : string).  (* usage and message printed, exit status 2 *)

(** The positional words: each with whether it is the separator [--]
    (pattern letter ['-'], [true]) or a value (['A'], [false]). *)
Abbreviation pword := (string * bool)%type.

(** The leading separators of a list of positional words. *)
Fixpoint seps (l : list pword) : list string * list pword :=
  match l with
  | (s, true) :: l' => let '(a, r) := seps l' in (s :: a, r)
  | _ => ([], l)
  end.

(** The words one positional argument takes: the pattern [-*A-*] of
    [_get_nargs_pattern], matched greedily from the front. *)
Definition take_group (l : list pword) : option (list string * list pword) :=
  let '(lead, l1) := seps l in
  match l1 with
  | (v, false) :: l2 => let '(trail, l3) := seps l2 in Some (lead ++ v :: trail, l3)
  | _ => None
  end.

(** [_match_arguments_partial]: as many of the [n] positionals left as
    the words before the next option string can fill, each taking its
    group. *)
Fixpoint take_groups (n : nat) (l : list pword) : list (list string) * list pword :=
  match n with
  | O => ([], l)
  | S n' =>
      match take_group l with
      | Some (g, r) => let '(gs, r') := take_groups n' r in (g :: gs, r')
      | None => ([], l)
      end
  end.

(** [arg_strings.remove('--')] *)
Fixpoint remove_first (x : string) (l : list string) : list string :=
  match l with
  | [] => []
  | y :: l' => if String.eqb y x then l' else y :: remove_first x l'
  end.

(** [_get_values] for an argument with [nargs=None]: the first [--] is
    removed; one string left is the value, otherwise the list is. *)
Definition get_value (strs : list string) : argval :=
  match remove_first "--" strs with
  | [v] => VStr v
  | l => VList l
  end.

(** The state of the parse loop: the words read since the last option
    string, the groups the positionals took so far, and the extras. *)
Record scstate : Type := mk_scstate {
  s_chunk : list pword;
  s_groups : list (list string);
  s_extras : list string
}.

Definition sc_start : scstate := mk_scstate [] [] [].

Definition push (ws : list pword) (st : scstate) : scstate :=
  mk_scstate (s_chunk st ++ ws) (s_groups st) (s_extras st).

(** [consume_positionals] on the words before an option string (or the
    end), then the words it leaves are extras (the loop of
    [_parse_known_args] and the lines after it). *)
Definition flush (st : scstate) : scstate :=
  let '(gs, rest) := take_groups (2 - length (s_groups st)) (s_chunk st) in
  mk_scstate [] (s_groups st ++ gs) (s_extras st ++ map fst rest).

Definition sc_dests : list string := ["input_file"; "output_file"].

(** The end of parsing: the check of the required actions, then
    [parse_args]'s check that no word is left over. *)
Definition sc_finish (st : scstate) : sc_parsed :=
  let st' := flush st in
  match s_groups st', s_extras st' with
  | [g1; g2], [] => SCParsed (get_value g1) (get_value g2)
  | [_; _], ex => SCError ("unrecognized arguments: " +:+ String.concat " " ex)
  | gs, _ => SCError ("the following arguments are required: " +:+ String.concat ", " (drop (length gs) sc_dests))
  end.

(** [-h/--help] given an explicit argument ([consume_optional]). *)
Definition help_explicit (v : string) : sc_parsed :=
  SCError ("argument " +:+ Cli.action_name Cli.OHelp +:+ ": ignored explicit argument " +:+ PyStr.py_repr v).

(** The consumption pass: words accumulate until an option string; an
    unknown option is an extra; the help action exits when it is
    reached; after the first [--] every word is a value. *)
Fixpoint sc_consume (ws : list string) (st : scstate) : sc_parsed :=
  match ws with
  | [] => sc_finish st
  | w :: ws' =>
      if String.eqb w "--" then sc_finish (push ((w, true) :: map (fun v => (v, false)) ws') st)
      else match sc_classify w with
           | SArg => sc_consume ws' (push [(w, false)] st)
           | SHelp _ None => SCHelp
           | SHelp true (Some e) =>
               if String.eqb e "" then help_explicit e
               else if Cli.all_h e then SCHelp else help_explicit (Cli.drop_h e)
           | SHelp false (Some v) => help_explicit v
           | SUnknown =>
               let st' := flush st in sc_consume ws' (mk_scstate [] (s_groups st') (s_extras st' ++ [w]))
           end
  end.

(** [parser.parse_args()] on the words after the program name. *)
Definition sc_parse_args (args : list string) : sc_parsed := sc_consume args sc_start.

(** The parser of lines 23-27. *)
Definition sc_parser : CliText.parser_spec :=
  CliText.mk_parser_spec "Process OBJ file to generate an output file based on face count."
    [CliText.help_action]
    [CliText.mk_positional "input_file" "Path to the input OBJ file";
     CliText.mk_positional "output_file" "Path to the output file"].

(** [prog]: [os.path.basename(sys.argv[0])]. *)
Definition sc_prog (w : tworld) : string := PosixPath.basename (default "" (head (t_argv w))).

Definition sc_width (w : tworld) : Z := CliText.formatter_width (t_columns w).

(** [parser.print_help()] writes the help to stdout. *)
Definition sc_help_entry (w : tworld) : string :=
  CliText.chomp (CliText.format_help sc_parser (sc_prog w) (sc_width w)).

(** [parser.error(msg)]: the usage, then [<prog>: error: <msg>], on
    stderr. *)
Definition sc_error_entries (w : tworld) (msg : string) : list string :=
  [CliText.chomp (CliText.format_usage sc_parser (sc_prog w) (sc_width w)); sc_prog w +:+ ": error: " +:+ msg].

(** The script run as [python start_colors.py ...] (lines 22-31). *)
Definition sc_main (w : tworld) : tworld * sc_parsed :=
  match sc_parse_args (tail (t_argv w)) with
  | SCParsed i o => (process_obj_file i o w, SCParsed i o)
  | SCHelp => (write_stdout (sc_help_entry w) w, SCHelp)
  | SCError msg => (write_stderr (sc_error_entries w msg) w, SCError msg)
  end.

(** ** Lemmas *)

(** [n] lines ["255 255 255 255\n"]: what the loop of lines 11-12 writes. *)
Fixpoint colors (n : nat) : string :=
  match n with O => EmptyString | S n' => color_line +:+ colors n' end.

Lemma set_file_set_file p c1 c2 w : set_file p c2 (set_file p c1 w) = set_file p c2 w.
Proof. unfold set_file, set_tfs. simpl. by rewrite insert_insert_eq. Qed.

Lemma lookup_set_file p c w : t_files (t_fs (set_file p c w)) !! p = Some c.
Proof. unfold set_file, set_tfs. simpl. by rewrite lookup_insert_eq. Qed.

(** The write loop appends [colors n] to the output file. *)
Lemma write_loop p a n c w :
  sfor (seq a n) (fun _ => write p color_line) (set_file p c w) = (set_file p (c +:+ colors n) w, Ok tt).
Proof.
  revert a c. induction n as [|n IH]; intros a c; simpl; [by rewrite append_nil|].
  unfold sbind at 1. unfold write at 1. rewrite lookup_set_file, set_file_set_file. simpl.
  by rewrite IH, append_assoc.
Qed.

(** Reading the input by lines loses nothing: the lines of a text,
    joined, are the text. *)
Lemma py_lines_concat s : foldr String.append "" (py_lines s) = s.
Proof.
  induction s as [|c s IH]; [done|]. simpl.
  destruct (Ascii.eqb c "010"%char); simpl; [by rewrite IH|].
  destruct (py_lines s) as [|l ls]; simpl in *; [by subst|]. by rewrite append_cons, IH.
Qed.

Lemma fspath_str p w : fspath (VStr p) w = (w, Ok p).
Proof. done. Qed.

Lemma open_r_ok p c w :
  p ∉ t_dirs (t_fs w) -> t_files (t_fs w) !! p = Some c -> open_r p w = (w, Ok tt).
Proof. intros Hd Hc. unfold open_r. by rewrite bool_decide_false, Hc. Qed.

Lemma open_w_ok p w :
  p ∉ t_dirs (t_fs w) -> bool_decide (p ∈ dom (t_files (t_fs w))) || parent_ok (t_fs w) p = true ->
  open_w p w = (set_file p "" w, Ok tt).
Proof. intros Hd Hp. unfold open_w. by rewrite bool_decide_false, Hp. Qed.

(** The [try] body returns normally when both files open. *)
Lemma process_body_ok (inp out : string) c w :
  inp ∉ t_dirs (t_fs w) -> t_files (t_fs w) !! inp = Some c -> out ∉ t_dirs (t_fs w) ->
  bool_decide (out ∈ dom (t_files (t_fs w))) || parent_ok (t_fs w) out = true ->
  let n := face_count (if decide (inp = out) then "" else c) in
  process_body inp out w =
  (write_stdout ("Processed " +:+ pretty n +:+ " faces. Output written to " +:+ out +:+ ".") (set_file out (colors n) w), Ok tt).
Proof.
  intros Hid Hc Hod Hp n. unfold process_body.
  rewrite (sbind_ok _ _ _ _ _ (fspath_str inp w)), (sbind_ok _ _ _ _ _ (open_r_ok inp c w Hid Hc)).
  rewrite (sbind_ok _ _ _ _ _ (fspath_str out w)), (sbind_ok _ _ _ _ _ (open_w_ok out w Hod Hp)).
  assert (read_all inp (set_file out "" w) = (set_file out "" w, Ok (if decide (inp = out) then "" else c)))
    as Hr.
  { unfold read_all, set_file, set_tfs. cbn [t_files t_fs]. destruct (decide (inp = out)) as [E|E];
      [subst; by rewrite lookup_insert_eq | by rewrite lookup_insert_ne, Hc by congruence]. }
  rewrite (sbind_ok _ _ _ _ _ Hr). fold n.
  rewrite (sbind_ok _ _ _ _ _ (write_loop out 0 n "" w)). done.
Qed.

Lemma process_fail_print (inp : string) (out : argval) w e :
  process_body inp out w = (w, Raise e) ->
  process_obj_file inp out w =
  write_stdout (match e with
              | FileNotFound _ => "The file " +:+ inp +:+ " does not exist."
              | e => "An error occurred: " +:+ str_exc e end) w.
Proof. unfold process_obj_file. intros ->. by destruct e. Qed.

(** C28: With an input OBJ file and a writable output path, the script
    writes one line ["255 255 255 255"] per line of the input that starts
    with ["f "], keeps every other file, and prints the face count. *)
Theorem process_obj_file_ok (inp out : string) c w :
  inp <> out -> inp ∉ t_dirs (t_fs w) -> t_files (t_fs w) !! inp = Some c -> out ∉ t_dirs (t_fs w) ->
  bool_decide (out ∈ dom (t_files (t_fs w))) || parent_ok (t_fs w) out = true ->
  process_obj_file inp out w =
  write_stdout ("Processed " +:+ pretty (face_count c) +:+ " faces. Output written to " +:+ out +:+ ".")
    (set_tfs (mk_tfs (<[out := colors (face_count c)]> (t_files (t_fs w))) (t_dirs (t_fs w))) w).
Proof.
  intros Hne Hid Hc Hod Hp. unfold process_obj_file.
  rewrite (process_body_ok inp out c) by done. by rewrite decide_False.
Qed.

(** C29: Run with the same path as input and output, the script empties
    the input file (the output [open] truncates it before it is read) and
    reports 0 faces. *)
Theorem process_obj_file_in_place (p : string) c w :
  p ∉ t_dirs (t_fs w) -> t_files (t_fs w) !! p = Some c ->
  process_obj_file p p w =
  write_stdout ("Processed 0 faces. Output written to " +:+ p +:+ ".")
    (set_tfs (mk_tfs (<[p := ""]> (t_files (t_fs w))) (t_dirs (t_fs w))) w).
Proof.
  intros Hd Hc. unfold process_obj_file. rewrite (process_body_ok p p c); [|done..|].
  - by rewrite decide_True.
  - rewrite bool_decide_true; [done|]. apply elem_of_dom. by eexists.
Qed.

(** C30: When the directory of the output path does not exist, the script
    writes nothing and reports that the input file does not exist, although
    the input file is there. *)
Theorem process_obj_file_missing_out_dir (inp out : string) c w :
  inp ∉ t_dirs (t_fs w) -> t_files (t_fs w) !! inp = Some c ->
  out ∉ t_dirs (t_fs w) -> t_files (t_fs w) !! out = None -> parent_ok (t_fs w) out = false ->
  parent_is_file (S (String.length out)) (t_fs w) out = false ->
  process_obj_file inp out w =
  write_stdout ("The file " +:+ inp +:+ " does not exist.") w.
Proof.
  intros Hid Hc Hod Hon Hp Hpf. apply (process_fail_print _ _ _ (FileNotFound out)).
  unfold process_body. rewrite (sbind_ok _ _ _ _ _ (fspath_str inp w)), (sbind_ok _ _ _ _ _ (open_r_ok inp c w Hid Hc)).
  rewrite (sbind_ok _ _ _ _ _ (fspath_str out w)). apply sbind_raise. unfold open_w, missing_error.
  rewrite bool_decide_false by done. rewrite bool_decide_false by (by apply not_elem_of_dom).
  by rewrite Hp, Hpf.
Qed.

(** C31: When the input file does not exist, the script creates no output
    file, leaves the file system as it was and prints that the input does
    not exist. *)
Theorem process_obj_file_missing_input (inp out : string) w :
  inp ∉ t_dirs (t_fs w) -> t_files (t_fs w) !! inp = None ->
  parent_is_file (S (String.length inp)) (t_fs w) inp = false ->
  process_obj_file inp out w =
  write_stdout ("The file " +:+ inp +:+ " does not exist.") w.
Proof.
  intros Hd Hn Hpf. apply (process_fail_print _ _ _ (FileNotFound inp)).
  unfold process_body. rewrite (sbind_ok _ _ _ _ _ (fspath_str inp w)). apply sbind_raise. unfold open_r, missing_error.
  by rewrite bool_decide_false, Hn, Hpf.
Qed.

Lemma sc_classify_plain v : Cli.plain_value v = true -> sc_classify v = SArg.
Proof. destruct v as [|c v]; [done|]. simpl. by destruct (Ascii.eqb_spec c "-"); [subst|]. Qed.

Lemma push_push a b st : push b (push a st) = push (a ++ b) st.
Proof. destruct st. unfold push. simpl. by rewrite app_assoc. Qed.

(** Plain values join the words since the last option string. *)
Lemma sc_consume_plain pre rest st :
  Forall (fun v => Cli.plain_value v = true) pre ->
  sc_consume (pre ++ rest) st = sc_consume rest (push (map (fun v => (v, false)) pre) st).
Proof.
  intros Hp. revert st. induction Hp as [|v pre Hv _ IH]; intros st; simpl.
  - destruct st. unfold push. simpl. by rewrite app_nil_r.
  - rewrite (Cli.plain_not_dashdash v Hv), (sc_classify_plain v Hv), IH. by rewrite push_push.
Qed.

(** A plain word alone is a string value. *)
Lemma get_value_plain v : Cli.plain_value v = true -> get_value [v] = VStr v.
Proof. intros Hv. unfold get_value. simpl. by rewrite (Cli.plain_not_dashdash v Hv). Qed.

Lemma seps_plain (l : list string) : seps (map (fun v => (v, false)) l) = ([], map (fun v => (v, false)) l).
Proof. by destruct l. Qed.

(** On plain words each positional takes one word. *)
Lemma take_groups_plain n l :
  take_groups n (map (fun v => (v, false)) l) = (map (fun v => [v]) (take n l), map (fun v => (v, false)) (drop n l)).
Proof.
  revert l. induction n as [|n IH]; intros [|v l]; [done..|].
  cbn [take_groups take_group seps map]. rewrite seps_plain. cbn [app]. by rewrite IH.
Qed.

Lemma map_fst_plain (l : list string) : map fst (map (fun v => (v, false)) l) = l.
Proof. rewrite map_map. apply map_id. Qed.

(** Parsing plain words: the positionals take the first two, the rest
    are extras. *)
Lemma sc_parse_plain args :
  Forall (fun v => Cli.plain_value v = true) args ->
  sc_parse_args args = sc_finish (mk_scstate (map (fun v => (v, false)) args) [] []).
Proof. intros Hp. unfold sc_parse_args. rewrite <- (app_nil_r args) at 1. by rewrite sc_consume_plain. Qed.

Lemma sc_finish_plain l ex :
  sc_finish (mk_scstate (map (fun v => (v, false)) l) [] ex) =
  match take 2 l, ex ++ drop 2 l with
  | [i; o], [] => SCParsed (get_value [i]) (get_value [o])
  | [_; _], ex' => SCError ("unrecognized arguments: " +:+ String.concat " " ex')
  | gs, _ => SCError ("the following arguments are required: " +:+ String.concat ", " (drop (length gs) sc_dests))
  end.
Proof.
  unfold sc_finish, flush. cbn [s_groups s_chunk s_extras length]. rewrite take_groups_plain, map_fst_plain.
  cbn [app s_groups s_extras]. destruct l as [|a [|b l]]; [done..|]. done.
Qed.

(** C35: Called with two words that do not start with [-], the script
    processes the first as input and the second as output. *)
Theorem sc_main_two_args a0 i o w :
  t_argv w = [a0; i; o] -> Cli.plain_value i = true -> Cli.plain_value o = true ->
  sc_main w = (process_obj_file i o w, SCParsed i o).
Proof.
  intros Ha Hi Ho. unfold sc_main. rewrite Ha. cbn [tail].
  rewrite sc_parse_plain by (repeat constructor; done). rewrite sc_finish_plain. simpl.
  by rewrite !get_value_plain.
Qed.

(** C36: With any other number of such words, argparse prints the usage
    and the error on stderr and the script touches no file: with fewer
    than two it names the positionals that are missing, with more it
    names the words left over. *)
Theorem sc_main_wrong_count a0 args w :
  t_argv w = a0 :: args -> Forall (fun v => Cli.plain_value v = true) args -> length args <> 2 ->
  let msg := if (length args <? 2)%nat
             then "the following arguments are required: " +:+ String.concat ", " (drop (length args) sc_dests)
             else "unrecognized arguments: " +:+ String.concat " " (drop 2 args) in
  sc_main w = (write_stderr (sc_error_entries w msg) w, SCError msg).
Proof.
  intros Ha Hp Hl msg. unfold sc_main. rewrite Ha. cbn [tail]. rewrite sc_parse_plain, sc_finish_plain by done.
  unfold msg. destruct args as [|a [|b [|c l]]]; simpl in *; done || lia.
Qed.

(** An output value that is a list: the input is opened, then [open]
    raises [TypeError] on the output, and nothing is written. *)
Lemma process_list_output (inp : string) c l w :
  inp ∉ t_dirs (t_fs w) -> t_files (t_fs w) !! inp = Some c ->
  process_obj_file inp (VList l) w =
  write_stdout "An error occurred: expected str, bytes or os.PathLike object, not list" w.
Proof.
  intros Hd Hc. apply (process_fail_print _ _ _ PathTypeError). unfold process_body.
  rewrite (sbind_ok _ _ _ _ _ (fspath_str inp w)), (sbind_ok _ _ _ _ _ (open_r_ok inp c w Hd Hc)).
  by apply sbind_raise.
Qed.

(** C18: A [--] given as the output after the separator ([i -- --] or
    [-- i --]) is removed by argparse, which then stores the empty list
    as [output_file]; the script opens the input, fails on the output with
    [TypeError], writes nothing and prints the error. *)
Theorem sc_main_dashdash_output a0 i c w :
  Cli.plain_value i = true -> i ∉ t_dirs (t_fs w) -> t_files (t_fs w) !! i = Some c ->
  (t_argv w = [a0; i; "--"; "--"] \/ t_argv w = [a0; "--"; i; "--"]) ->
  sc_main w = (write_stdout "An error occurred: expected str, bytes or os.PathLike object, not list" w, SCParsed i (VList [])).
Proof.
  intros Hi Hd Hc Ha. unfold sc_main.
  assert (sc_parse_args (tail (t_argv w)) = SCParsed i (VList [])) as ->.
  { destruct Ha as [-> | ->]; cbn [tail]; unfold sc_parse_args; cbn [sc_consume];
      rewrite ?(Cli.plain_not_dashdash i Hi), ?(sc_classify_plain i Hi); unfold sc_finish, flush; simpl;
      unfold get_value; simpl; rewrite ?(Cli.plain_not_dashdash i Hi); done. }
  by rewrite (process_list_output i c).
Qed.

(** A [-h] after values shows the help on stdout and touches no file,
    whatever follows it. *)
Theorem sc_main_help a0 pre post w :
  t_argv w = a0 :: pre ++ "-h" :: post -> Forall (fun v => Cli.plain_value v = true) pre ->
  sc_main w = (write_stdout (sc_help_entry w) w, SCHelp).
Proof. intros Ha Hp. unfold sc_main. rewrite Ha. cbn [tail]. unfold sc_parse_args. by rewrite sc_consume_plain. Qed.

(** An unknown option is not [--], which is an abbreviation of [--help]. *)
Lemma sc_unknown_not_dashdash u : sc_classify u = SUnknown -> String.eqb u "--" = false.
Proof. intros Hu. apply String.eqb_neq. intros ->. discriminate Hu. Qed.

(** C23: An unknown option before, between or after the two values is
    reported as the only unrecognized argument: the values around it
    still fill both positionals, since [consume_positionals] resumes
    after each option string. *)
Theorem sc_parse_unknown i o u :
  Cli.plain_value i = true -> Cli.plain_value o = true -> sc_classify u = SUnknown ->
  let e := SCError ("unrecognized arguments: " +:+ u) in
  sc_parse_args [u; i; o] = e /\ sc_parse_args [i; u; o] = e /\ sc_parse_args [i; o; u] = e.
Proof.
  intros Hi Ho Hu e. unfold sc_parse_args. split_and!; cbn [sc_consume];
    rewrite ?(sc_unknown_not_dashdash u Hu), ?Hu, ?(Cli.plain_not_dashdash i Hi), ?(sc_classify_plain i Hi),
      ?(Cli.plain_not_dashdash o Ho), ?(sc_classify_plain o Ho); unfold sc_finish, flush; simpl; done.
Qed.

(** The help of this parser on a terminal wide enough for its usage and
    its description: every help fits after column 15. *)
Lemma sc_format_help_wide prog columns :
  prog <> "" -> PyStr.has_char "010"%char prog = false -> (66 <= columns)%nat -> (String.length prog + 37 <= columns)%nat ->
  CliText.format_help sc_parser prog (CliText.formatter_width columns) =
    "usage: " +:+ prog +:+ " [-h] input_file output_file" +:+ CliText.nl +:+ CliText.nl
    +:+ "Process OBJ file to generate an output file based on face count." +:+ CliText.nl +:+ CliText.nl
    +:+ "positional arguments:" +:+ CliText.nl
    +:+ "  input_file   Path to the input OBJ file" +:+ CliText.nl
    +:+ "  output_file  Path to the output file" +:+ CliText.nl +:+ CliText.nl
    +:+ "options:" +:+ CliText.nl +:+ "  -h, --help   show this help message and exit" +:+ CliText.nl.
Proof.
  intros Hp Hn Hc Hl. unfold CliText.formatter_width.
  assert (Hhp : forall w, (35 <= w)%Z -> CliText.help_position sc_parser w = 15%Z)
    by (intros w Hw; rewrite CliText.help_position_wide; change (CliText.action_max_length sc_parser) with 13%Z in *; lia).
  assert (Hne : CliText.usage_prefix +:+ prog <> "") by (unfold CliText.usage_prefix; rewrite append_cons; discriminate).
  assert (Hnl : PyStr.has_char "010"%char (CliText.usage_prefix +:+ prog) = false) by (rewrite CliText.has_char_app, Hn; done).
  unfold CliText.format_help.
  rewrite CliText.usage_item_fit by (done || (vm_compute; discriminate) || (unfold CliText.zlen; simpl; lia)).
  rewrite CliText.description_item_wide by (done || (vm_compute; discriminate) || CliText.closed_room).
  cbn [CliText.ps_optionals CliText.ps_positionals sc_parser map CliText.p_dest CliText.p_help].
  rewrite !(CliText.format_action_wide sc_parser 46 (Z.of_nat columns - 2))
    by (lia || rewrite !Hhp by lia; done || (right; split; [CliText.closed_room | reflexivity])).
  set (u := CliText.usage_prefix +:+ prog) in *. rewrite <- !append_assoc.
  rewrite !CliText.finish_help_plain by (done || (vm_compute; discriminate)). subst u.
  by rewrite <- !append_assoc.
Qed.

(** C37: A [-h] after values prints the help on stdout and touches no
    file, whatever follows it; on a terminal of at least 66 columns, and
    [len(prog) + 37], the help is the usage line, the description and the
    two sections, each help beside its argument. *)
Theorem sc_main_help_text a0 pre post w :
  t_argv w = a0 :: pre ++ "-h" :: post -> Forall (fun v => Cli.plain_value v = true) pre ->
  sc_prog w <> "" -> PyStr.has_char "010"%char (sc_prog w) = false ->
  (66 <= t_columns w)%nat -> (String.length (sc_prog w) + 37 <= t_columns w)%nat ->
  sc_main w =
    (write_stdout ("usage: " +:+ sc_prog w +:+ " [-h] input_file output_file" +:+ CliText.nl +:+ CliText.nl
       +:+ "Process OBJ file to generate an output file based on face count." +:+ CliText.nl +:+ CliText.nl
       +:+ "positional arguments:" +:+ CliText.nl
       +:+ "  input_file   Path to the input OBJ file" +:+ CliText.nl
       +:+ "  output_file  Path to the output file" +:+ CliText.nl +:+ CliText.nl
       +:+ "options:" +:+ CliText.nl +:+ "  -h, --help   show this help message and exit") w, SCHelp).
Proof.
  intros Ha Hp Hne Hn Hc Hl. rewrite (sc_main_help a0 pre post w Ha Hp). unfold sc_help_entry, sc_width.
  rewrite sc_format_help_wide by done. rewrite !append_assoc. by rewrite CliText.chomp_nl, <- !append_assoc.
Qed.

(** ** Sizes *)

Lemma length_colors n : String.length (colors n) = 16 * n.
Proof. induction n as [|n IH]; [done|]. simpl colors. rewrite length_append, IH. simpl. lia. Qed.

Lemma length_universal s : String.length (universal s) <= String.length s.
Proof.
  remember (String.length s) as n eqn:Hn. revert s Hn. induction n as [n IH] using lt_wf_ind.
  intros [|c s'] Hn; simpl; [lia|]. simpl in Hn.
  destruct (Ascii.eqb c "013"%char); [destruct s' as [|d s'']; simpl in *; [lia|]|].
  - destruct (Ascii.eqb d "010"%char); simpl.
    + specialize (IH (String.length s'') ltac:(lia) s'' eq_refl). lia.
    + specialize (IH (S (String.length s'')) ltac:(lia) (String d s'') eq_refl). simpl in IH. lia.
  - specialize (IH (String.length s') ltac:(lia) s' eq_refl). simpl. lia.
Qed.

Lemma length_foldr_append (l : list string) :
  String.length (foldr String.append "" l) = sum_list (map String.length l).
Proof. induction l as [|x l IH]; [done|]. simpl. by rewrite length_append, IH. Qed.

(** A line counted as a face holds at least ["f "]. *)
Lemma face_line_length l : PyStr.startswith l "f " = true -> 2 <= String.length l.
Proof.
  unfold PyStr.startswith. intros H. destruct l as [|c [|d l]]; [| |simpl; lia]; cbn [String.prefix] in H.
  - discriminate H.
  - destruct (ascii_dec "f" c); cbn [String.prefix] in H; discriminate H.
Qed.

Lemma filter_faces_bound (l : list string) :
  2 * length (filter (fun x => PyStr.startswith x "f " = true) l) <= sum_list (map String.length l).
Proof.
  induction l as [|x l IH]; simpl; [lia|]. rewrite filter_cons.
  case_decide as Hx; simpl; [pose proof (face_line_length x Hx)|]; lia.
Qed.

(** Every face takes at least two characters of the input. *)
Lemma face_count_bound text : 2 * face_count text <= String.length text.
Proof.
  unfold face_count. etrans; [apply filter_faces_bound|].
  rewrite <- length_foldr_append, py_lines_concat. apply length_universal.
Qed.

(** C33: The output file is at most eight times as long as the input:
    16 characters per face, and every face line has at least two. *)
Theorem output_size_bound text : String.length (colors (face_count text)) <= 8 * String.length text.
Proof. rewrite length_colors. pose proof (face_count_bound text). lia. Qed.

(** ** What a run changes in the file system *)

Lemma open_r_inv p w w' r :
  open_r p w = (w', r) -> w' = w /\ (r = Ok tt -> (p ∉ t_dirs (t_fs w)) /\ exists c, t_files (t_fs w) !! p = Some c).
Proof.
  unfold open_r. case_bool_decide; [by intros [= <- <-]|].
  destruct (t_files (t_fs w) !! p) eqn:E; intros [= <- <-]; [by eauto|done].
Qed.

Lemma open_w_inv p w w' r :
  open_w p w = (w', r) ->
  (w' = w /\ r <> Ok tt) \/
  (r = Ok tt /\ w' = set_file p "" w /\ (p ∉ t_dirs (t_fs w)) /\
   bool_decide (p ∈ dom (t_files (t_fs w))) || parent_ok (t_fs w) p = true).
Proof.
  unfold open_w. case_bool_decide; [by intros [= <- <-]; left|].
  destruct (_ || _) eqn:E; intros [= <- <-]; [by right|by left].
Qed.

(** The [try] body either leaves the file system as it was, or has
    opened both files and written the output. *)
Lemma process_body_fs (inp out : string) w w' r :
  process_body inp out w = (w', r) ->
  t_fs w' = t_fs w \/
  ((out ∉ t_dirs (t_fs w)) /\ exists n, t_fs w' = t_fs (set_file out (colors n) w)).
Proof.
  intros Hr. pose proof Hr as Hbody. unfold process_body in Hr.
  rewrite (sbind_ok _ _ _ _ _ (fspath_str inp w)) in Hr.
  destruct (open_r inp w) as [w1 r1] eqn:H1. destruct (open_r_inv _ _ _ _ H1) as [-> Hi].
  destruct r1 as [[]|e1]; [|rewrite (sbind_raise _ _ _ _ _ H1) in Hr; injection Hr as <-; by left].
  destruct (Hi eq_refl) as [Hid [c Hc]]. rewrite (sbind_ok _ _ _ _ _ H1), (sbind_ok _ _ _ _ _ (fspath_str out w)) in Hr.
  destruct (open_w out w) as [w2 r2] eqn:H2.
  destruct (open_w_inv _ _ _ _ H2) as [[-> Hne]|(-> & -> & Hod & Hp)].
  - destruct r2 as [[]|e2]; [done|]. rewrite (sbind_raise _ _ _ _ _ H2) in Hr. injection Hr as <-. by left.
  - right. split; [done|].
    rewrite (process_body_ok inp out c) in Hbody by done. injection Hbody as <- _. by eexists.
Qed.

Lemma process_obj_file_fs_eq (inp out : argval) w :
  exists w' r, process_body inp out w = (w', r) /\ t_fs (process_obj_file inp out w) = t_fs w'.
Proof.
  unfold process_obj_file. destruct (process_body inp out w) as [w' r]. exists w', r.
  split; [done|]. by destruct r as [|[]].
Qed.

(** C22: [process_obj_file] keeps the file system well-formed, creates no
    directory, and changes no file but the output: whatever happens, the
    input and every other file keep their contents. *)
Theorem process_obj_file_fs (inp out : string) w :
  tfs_wf (t_fs w) ->
  tfs_wf (t_fs (process_obj_file inp out w)) /\
  t_dirs (t_fs (process_obj_file inp out w)) = t_dirs (t_fs w) /\
  (forall p, p <> out -> t_files (t_fs (process_obj_file inp out w)) !! p = t_files (t_fs w) !! p).
Proof.
  intros Hwf. destruct (process_obj_file_fs_eq inp out w) as (w' & r & Hb & ->).
  destruct (process_body_fs _ _ _ _ _ Hb) as [-> | [Hod [n ->]]]; [done|].
  unfold set_file, set_tfs. cbn [t_fs t_files t_dirs]. split_and!.
  - intros p Hp. apply elem_of_dom in Hp as [c Hc]. destruct (decide (p = out)) as [->|Hne]; [done|].
    cbn [t_files] in Hc. rewrite lookup_insert_ne in Hc by congruence. apply Hwf, elem_of_dom. by eexists.
  - done.
  - intros p Hp. by rewrite lookup_insert_ne by congruence.
Qed.

End StartColors.
