(* ===== verification/Scenarios.v ===== *)
(** * The spec's scenarios, run on the scripted provider

    Concrete sessions of [fbx_to_glb.py] under [AssetIO.Scripted]: the
    [hero]/[walk]/[run] merge of the spec, a run with no animation source,
    two sources with the same clip name, two sources whose renamed clips
    collide, and a run with a missing input.
    They are evaluated by [vm_compute]; the lemmas named [*_witness] apply
    the general theorems at these inputs. *)

From S2P Require Import Prelude PyStr PosixPath Scene AssetIO Merge MergeSpec Binding Cli CliText Pipeline DriverRuns StartColors.
From Stdlib Require Import Ascii.

Open Scope pipe_scope.

Module Scenarios.
Import Scene AssetIO Merge Binding Cli Pipeline.

#[local] Coercion StartColors.VStr : string >-> StartColors.argval.
#[local] Existing Instances MergeSpec.Scripted_library MergeSpec.Scripted_library_laws.

(** The session of the spec: [hero.fbx] holds the rig, [walk.fbx] and
    [run.fbx] each hold a duplicate rig and one clip. *)
Definition hero_script : script := mk_script
  [("/w/hero.fbx", mk_fbx_file [mk_fbx_object "Armature" ARMATURE; mk_fbx_object "HeroMesh" MESH] []);
   ("/w/walk.fbx", mk_fbx_file [mk_fbx_object "Armature.001" ARMATURE; mk_fbx_object "Mesh" MESH] ["Walk"]);
   ("/w/run.fbx", mk_fbx_file [mk_fbx_object "Armature.002" ARMATURE] ["Run"]);
   ("/w/a/idle.fbx", mk_fbx_file [mk_fbx_object "Armature.003" ARMATURE] ["Idle"]);
   ("/w/b/breathe.fbx", mk_fbx_file [mk_fbx_object "Armature.004" ARMATURE] ["Idle"]);
   ("/w/a.fbx", mk_fbx_file [mk_fbx_object "Armature.005" ARMATURE] ["b_c"]);
   ("/w/a_b.fbx", mk_fbx_file [mk_fbx_object "Armature.006" ARMATURE] ["c"]);
   ("/w/prop.fbx", mk_fbx_file [mk_fbx_object "Crate" MESH] []);
   ("/w/left.fbx", mk_fbx_file [mk_fbx_object "Armature.007" ARMATURE] ["Wave"]);
   ("/w/right.fbx", mk_fbx_file [mk_fbx_object "Armature.008" ARMATURE] ["Wave"])] [].

Definition hero_fs : fs := mk_fs ["/w/hero.fbx"; "/w/walk.fbx"; "/w/run.fbx"; "/w/a/idle.fbx"; "/w/b/breathe.fbx";
                                  "/w/a.fbx"; "/w/a_b.fbx"; "/w/bad.fbx"; "/w/prop.fbx"]
                                 ["/"; "/w"; "/w/a"; "/w/b"].

(** A session in [/w] on an 80-column terminal, with [sys.argv] [argv]. *)
Definition session (argv : list string) : world := mk_world empty_scene "/w" hero_fs [] [] [] argv 80.

Definition w0 : world := session [].

Definition blender (words : list string) : list string := ["blender"; "-b"; "-P"; "fbx_to_glb.py"; "--"] ++ words.

Definition hero_argv : list string :=
  blender ["--model"; "hero.fbx"; "--anim"; "walk.fbx"; "--anim"; "run.fbx"; "--out"; "out/hero_out.glb"].

Definition hero_run : world * outcome exit_reason unit := @main (Scripted hero_script) (session hero_argv).

(** The same session with an exporter that fails on the output path. *)
Definition locked_script : script := mk_script (sc_files hero_script) ["/w/out/hero_out.glb"].

Definition locked_run : world * outcome exit_reason unit := @main (Scripted locked_script) (session hero_argv).

(** The names of the clips in the last GLB written. *)
Definition exported_clip_names (w : world) : list string :=
  match last (w_written w) with
  | Some (_, _, s) => map act_name (actions s)
  | None => []
  end.

(** The names of the objects in the last GLB written. *)
Definition exported_object_names (w : world) : list string :=
  match last (w_written w) with
  | Some (_, _, s) => map obj_name (objects s)
  | None => []
  end.

(** The base scene after importing [hero.fbx], and after one merge step. *)
Definition hero_base : scene :=
  match scripted_import hero_script "/w/hero.fbx" empty_scene with Some s => s | None => empty_scene end.

Definition hero_walk_step : scene * outcome string (gset nat) :=
  @import_animation (Scripted hero_script) "/w/walk.fbx" (act_set hero_base) hero_base.

Definition hero_loop : scene * outcome string (gset nat) :=
  @import_animations (Scripted hero_script) ["/w/walk.fbx"; "/w/run.fbx"] (act_set hero_base) hero_base.

(** The words after Blender's separator in the spec's session. *)
Definition hero_words : list string :=
  ["--model"; "hero.fbx"; "--anim"; "walk.fbx"; "--anim"; "run.fbx"; "--out"; "out/hero_out.glb"].

Definition hero_final : world := Eval vm_compute in fst (@blender_main (Scripted hero_script) hero_words w0).

Definition hero_walk_scene : scene := Eval vm_compute in fst hero_walk_step.
Definition hero_walk_existing : gset nat :=
  Eval vm_compute in match snd hero_walk_step with Ok e => e | Raise _ => ∅ end.
Definition hero_walk_import : scene :=
  Eval vm_compute in match scripted_import hero_script "/w/walk.fbx" hero_base with Some s => s | None => empty_scene end.

Definition hero_loop_scene : scene := Eval vm_compute in fst hero_loop.
Definition hero_loop_existing : gset nat :=
  Eval vm_compute in match snd hero_loop with Ok e => e | Raise _ => ∅ end.

(** ** The spec's scenarios *)

(** In the spec's session (base [hero], animations [walk] with clip
    [Walk] and [run] with clip [Run]) the run succeeds and the GLB holds
    the two base objects, but the clips keep the names [Walk] and [Run]:
    each already starts with its file's stem up to case, so line 70 does
    not prefix it (the spec expects [walk_Walk] and [run_Run]). *)
Example hero_scenario :
  snd hero_run = Ok tt /\
  exported_object_names (fst hero_run) = ["Armature"; "HeroMesh"] /\
  exported_clip_names (fst hero_run) = ["Walk"; "Run"].
Proof. vm_compute. repeat split. Qed.

(** Two animation sources whose clips are both named [Idle]: the
    clip of [a/idle.fbx] keeps its name, the clip of [b/breathe.fbx]
    becomes [breathe_Idle]; both are kept, in merge order. *)
Example same_clip_name_scenario :
  let r := @main (Scripted hero_script)
             (session (blender ["--model"; "hero.fbx"; "--anim"; "a/idle.fbx"; "--anim"; "b/breathe.fbx"; "--out"; "o.glb"])) in
  snd r = Ok tt /\ exported_clip_names (fst r) = ["Idle"; "breathe_Idle"].
Proof. vm_compute. repeat split. Qed.

(** The prefixing does not make names distinct: clip [b_c] of
    [a.fbx] becomes [a_b_c], and clip [c] of [a_b.fbx] also becomes
    [a_b_c] (Blender would then store the second as [a_b_c.001]). *)
Example prefix_collision :
  let r := @main (Scripted hero_script)
             (session (blender ["--model"; "hero.fbx"; "--anim"; "a.fbx"; "--anim"; "a_b.fbx"; "--out"; "o.glb"])) in
  snd r = Ok tt /\ exported_clip_names (fst r) = ["a_b_c"; "a_b_c"].
Proof. vm_compute. repeat split. Qed.

(** With no animation source the export still succeeds; the
    armature gets an empty [animation_data] and no action is bound. *)
Example no_animation_scenario :
  let r := @main (Scripted hero_script) (session (blender ["--model"; "hero.fbx"; "--out"; "o.glb"])) in
  snd r = Ok tt /\ exported_clip_names (fst r) = [] /\
  option_map obj_anim (head (armatures (w_scene (fst r)))) = Some (Some (mk_anim_data None)).
Proof. vm_compute. repeat split. Qed.

(** The parser on [-h] with attached characters, as CPython 3.11's
    [argparse] treats them: [-hh], [-hhh] and [-h=hh] show the help, even
    after other options; [-hx], [-h=] and [--help=x] are errors, with
    argparse's messages. *)
Example parse_args_short_help :
  map parse_args [["-hh"]; ["-hhh"; "--model"]; ["-h=hh"]; ["--model"; "m"; "-hh"]]
  = [Help; Help; Help; Help] /\
  map parse_args [["-hx"]; ["-h="]; ["--help=x"]; ["-hhx"]; ["--model"; "-hx"]]
  = [ArgError "argument -h/--help: ignored explicit argument 'x'";
     ArgError "argument -h/--help: ignored explicit argument ''";
     ArgError "argument -h/--help: ignored explicit argument 'x'";
     ArgError "argument -h/--help: ignored explicit argument 'x'";
     ArgError "argument --model: expected one argument"].
Proof. split; vm_compute; reflexivity. Qed.

(** ** Witnesses *)

Lemma blender_main_output_witness :
  exists a s0 sF, parse_args hero_words = Parsed a /\
    import_fbx (AssetIO := Scripted hero_script) (PosixPath.abspath (w_cwd w0) (model a)) empty_scene = Some s0 /\
    last (w_written hero_final) = Some (PosixPath.abspath (w_cwd w0) (out a), glb_settings, sF) /\
    wf sF /\ map obj_ident (objects sF) = map obj_ident (objects s0) /\
    filter (fun c => act_id c ∈ act_ids s0) (actions sF) = actions s0.
Proof.
  apply (blender_main_output (IO := Scripted hero_script) hero_words w0 hero_final).
  vm_compute. reflexivity.
Defined.

Lemma blender_main_ok_witness :
  exists a s0 m rest sL ex sF,
    parse_args hero_words = Parsed a /\
    import_fbx (AssetIO := Scripted hero_script) (PosixPath.abspath (w_cwd w0) (model a)) empty_scene = Some s0 /\
    armatures s0 = m :: rest /\
    import_animations (IO := Scripted hero_script) (map (PosixPath.abspath (w_cwd w0)) (anim a)) (act_set s0) s0 = (sL, Ok ex) /\
    finalize_binding (obj_id m) sL = Some sF /\
    w_scene hero_final = sF /\
    w_written hero_final = w_written w0 ++ [(PosixPath.abspath (w_cwd w0) (out a), glb_settings, sF)] /\
    w_stdout hero_final = w_stdout w0 ++ ["Wrote " +:+ PosixPath.abspath (w_cwd w0) (out a)].
Proof.
  apply (blender_main_ok (IO := Scripted hero_script) hero_words w0 hero_final). vm_compute. reflexivity.
Defined.

Lemma blender_main_binding_witness :
  exists a s0 m rest o ad,
    parse_args hero_words = Parsed a /\
    import_fbx (AssetIO := Scripted hero_script) (PosixPath.abspath (w_cwd w0) (model a)) empty_scene = Some s0 /\
    armatures s0 = m :: rest /\
    find_obj (obj_id m) (w_scene hero_final) = Some o /\ obj_anim o = Some ad /\
    (actions (w_scene hero_final) <> [] -> is_Some (ad_action ad)).
Proof.
  apply (blender_main_binding (IO := Scripted hero_script) hero_words w0 hero_final).
  vm_compute. reflexivity.
Defined.

Lemma blender_main_missing_input_witness :
  exists msg, blender_main (IO := Scripted hero_script)
                ["--model"; "hero.fbx"; "--anim"; "jump.fbx"; "--out"; "o.glb"] w0 =
              (set_scene empty_scene w0, Raise (SystemExit msg)).
Proof.
  apply (blender_main_missing_input (IO := Scripted hero_script) _ w0
           (mk_args "hero.fbx" ["jump.fbx"] "o.glb")); [vm_compute; reflexivity|].
  right. vm_compute. constructor. reflexivity.
Defined.

Lemma import_animation_objects_witness :
  map obj_key (objects hero_walk_scene) = map obj_key (objects hero_base).
Proof.
  apply (import_animation_objects (IO := Scripted hero_script)
           "/w/walk.fbx" (act_set hero_base) hero_base hero_walk_scene hero_walk_existing).
  vm_compute. reflexivity.
Defined.

Lemma import_animation_actions_witness :
  actions hero_walk_scene =
  map (fun a => if decide (act_id a ∈ act_ids hero_base) then a else prefix_action (PosixPath.stem "/w/walk.fbx") a)
      (actions hero_walk_import).
Proof.
  apply (import_animation_actions (IO := Scripted hero_script)
           "/w/walk.fbx" (act_set hero_base) hero_base hero_walk_import hero_walk_scene hero_walk_existing);
    vm_compute; reflexivity.
Defined.

Lemma import_animation_clip_count_witness :
  length (actions hero_walk_scene) =
  length (actions hero_base) + length (filter (fun a => act_id a ∉ act_ids hero_base) (actions hero_walk_import)).
Proof.
  apply (import_animation_clip_count (IO := Scripted hero_script)
           "/w/walk.fbx" (act_set hero_base) hero_base hero_walk_import hero_walk_scene hero_walk_existing);
    vm_compute; reflexivity.
Defined.

(** The failing export leaves the directory [/w/out] that line 93
    created, and nothing else. *)
Lemma main_raise_no_output_witness :
  snd locked_run = Raise (ExportError "/w/out/hero_out.glb") /\
  fs_dirs (w_fs (fst locked_run)) = fs_dirs hero_fs ++ ["/w/out"] /\
  (w_written (fst locked_run) = w_written (session hero_argv) /\
   fs_files (w_fs (fst locked_run)) = fs_files (w_fs (session hero_argv)) /\
   (fs_dirs (w_fs (session hero_argv)) `prefix_of` fs_dirs (w_fs (fst locked_run))) /\
   (w_stdout (fst locked_run) = w_stdout (session hero_argv) \/
    (ExportError "/w/out/hero_out.glb" = ParserExit Help /\
     w_stdout (fst locked_run) = w_stdout (session hero_argv) ++ [help_entry (session hero_argv)]))).
Proof.
  split; [vm_compute; reflexivity|]. split; [vm_compute; reflexivity|].
  apply (DriverRuns.main_raise_no_output (IO := Scripted locked_script) (session hero_argv) (fst locked_run)
           (ExportError "/w/out/hero_out.glb")).
  vm_compute. reflexivity.
Defined.

Lemma import_animations_invariant_witness :
  wf hero_loop_scene /\ hero_loop_existing = act_set hero_loop_scene /\
  map obj_key (objects hero_loop_scene) = map obj_key (objects hero_base) /\
  filter (fun a => act_id a ∈ act_ids hero_base) (actions hero_loop_scene) = actions hero_base.
Proof.
  apply (import_animations_invariant (IO := Scripted hero_script)
           ["/w/walk.fbx"; "/w/run.fbx"] (act_set hero_base) hero_base hero_loop_scene hero_loop_existing).
  - split; vm_compute; repeat constructor; set_solver.
  - done.
  - vm_compute. reflexivity.
Defined.

Lemma import_animations_raise_witness :
  exists pre post ex0, ["/w/walk.fbx"; "/w/bad.fbx"; "/w/run.fbx"] = pre ++ "/w/bad.fbx" :: post /\
    import_animations (IO := Scripted hero_script) pre (act_set hero_base) hero_base = (hero_walk_scene, Ok ex0) /\
    import_fbx (AssetIO := Scripted hero_script) "/w/bad.fbx" hero_walk_scene = None.
Proof.
  apply (import_animations_raise (IO := Scripted hero_script) ["/w/walk.fbx"; "/w/bad.fbx"; "/w/run.fbx"]
           (act_set hero_base) hero_base hero_walk_scene "/w/bad.fbx").
  vm_compute. reflexivity.
Defined.

Lemma import_animation_no_new_clip_witness :
  exists s', import_animation (IO := Scripted hero_script) "/w/prop.fbx" hero_walk_existing hero_walk_scene
             = (s', Ok hero_walk_existing) /\ actions s' = actions hero_walk_scene.
Proof.
  apply (import_animation_no_new_clip (IO := Scripted hero_script) "/w/prop.fbx" hero_walk_existing hero_walk_scene
           (match scripted_import hero_script "/w/prop.fbx" hero_walk_scene with Some s => s | None => empty_scene end));
    vm_compute; [reflexivity | set_solver].
Defined.

(** The clip [Walk] of the spec's session is named after [walk.fbx]. *)
Lemma import_animations_names_witness :
  exists ap, ap ∈ ["/w/walk.fbx"; "/w/run.fbx"] /\
    PyStr.startswith (PyStr.lower (act_name (mk_action 1 "Walk"))) (PyStr.lower (PosixPath.stem ap)) = true.
Proof.
  apply (import_animations_names (IO := Scripted hero_script) ["/w/walk.fbx"; "/w/run.fbx"] (act_set hero_base)
           hero_base hero_loop_scene hero_loop_existing (mk_action 1 "Walk")).
  - vm_compute. reflexivity.
  - apply list_elem_of_In. vm_compute. auto.
  - vm_compute. set_solver.
Defined.

(** Two sources [left.fbx] and [right.fbx], each bringing a clip [Wave]. *)
Definition wave_import (ap : string) (s : scene) : scene :=
  match scripted_import hero_script ap s with Some s1 => s1 | None => empty_scene end.

Lemma import_animations_order_witness :
  exists s' ex', import_animations (IO := Scripted hero_script) ["/w/left.fbx"; "/w/right.fbx"] (act_set hero_base) hero_base
                 = (s', Ok ex') /\
    set_action_name (PosixPath.stem "/w/left.fbx" +:+ "_" +:+ act_name (mk_action 1 "Wave")) (mk_action 1 "Wave") ∈ actions s' /\
    set_action_name (PosixPath.stem "/w/right.fbx" +:+ "_" +:+ act_name (mk_action 2 "Wave")) (mk_action 2 "Wave") ∈ actions s' /\
    PosixPath.stem "/w/left.fbx" +:+ "_" +:+ act_name (mk_action 1 "Wave")
      <> PosixPath.stem "/w/right.fbx" +:+ "_" +:+ act_name (mk_action 2 "Wave").
Proof.
  apply (import_animations_order (IO := Scripted hero_script) "/w/left.fbx" "/w/right.fbx" (act_set hero_base) hero_base
           (wave_import "/w/left.fbx" hero_base)
           (wave_import "/w/right.fbx" (fst (import_animation (IO := Scripted hero_script) "/w/left.fbx" (act_set hero_base) hero_base)))
           (mk_action 1 "Wave") (mk_action 2 "Wave")).
  all: first [vm_compute; reflexivity | vm_compute; discriminate | apply list_elem_of_In; vm_compute; auto | vm_compute; set_solver].
Defined.

Lemma finalize_binding_spec_witness :
  finalize_binding 1 hero_loop_scene =
  Some (update_obj 1 (set_anim (Some (mk_anim_data (expected_binding
          (mk_obj 1 "Armature" ARMATURE None false) hero_loop_scene)))) hero_loop_scene).
Proof.
  apply finalize_binding_spec; vm_compute; [repeat constructor; set_solver | reflexivity].
Defined.

Lemma parse_args_render_witness :
  parse_args (render (mk_args "hero.fbx" ["walk.fbx"; "run.fbx"] "out/hero.glb"))
  = Parsed (mk_args "hero.fbx" ["walk.fbx"; "run.fbx"] "out/hero.glb").
Proof. apply parse_args_render. repeat constructor. Defined.

Lemma makedirs_terminates_witness :
  makedirs 11 "/w/out/glb" hero_fs <> None /\ makedirs 11 "/w/out/glb" hero_fs = makedirs 40 "/w/out/glb" hero_fs.
Proof. apply makedirs_terminates; simpl; lia. Defined.

(** The output directory of the hero session, two levels below [/w]. *)
Lemma makedirs_spec_witness :
  (forall f', makedirs 11 "/w/out/glb" hero_fs = Some (Some f') ->
              fs_files f' = fs_files hero_fs /\ fs_wf f' /\ "/w/out/glb" ∈ fs_dirs f') /\
  ("/w/out/glb" ∈ fs_dirs hero_fs -> makedirs 11 "/w/out/glb" hero_fs = Some (Some hero_fs)) /\
  ("/w/out/glb" ∈ fs_files hero_fs -> makedirs 11 "/w/out/glb" hero_fs = Some None).
Proof.
  apply (makedirs_spec 11 "/w/out/glb" hero_fs);
    [simpl; lia | apply (bool_decide_unpack _); vm_compute; reflexivity | vm_compute; discriminate..].
Defined.

(** A world for [start_colors.py]: an OBJ file with CRLF, CR and LF line
    ends, a regular file ["d/x"] and a directory ["out"]. *)
Definition sc_obj : string :=
  "v 1" +:+ String "010"%char ("f 1 2 3" +:+ String "013"%char (String "010"%char ("f 2" +:+ String "013"%char ("f" +:+ String "010"%char "f 4")))).

Definition sc_fs : StartColors.tfs := StartColors.mk_tfs (<["m.obj" := sc_obj]> (<["d/x" := "hi"]> ∅)) {[ "out" ]}.

(** [python start_colors.py args] on an 80-column terminal. *)
Definition sc_session (args : list string) : StartColors.tworld :=
  StartColors.mk_tworld sc_fs [] [] ("start_colors.py" :: args) 80.

Definition sc_w0 : StartColors.tworld := sc_session [].

Lemma process_obj_file_ok_witness :
  StartColors.process_obj_file "m.obj" "out/c.txt" sc_w0 =
  StartColors.write_stdout "Processed 3 faces. Output written to out/c.txt."
    (StartColors.set_tfs
       (StartColors.mk_tfs (<["out/c.txt" := StartColors.colors 3]> (StartColors.t_files (StartColors.t_fs sc_w0)))
          (StartColors.t_dirs (StartColors.t_fs sc_w0))) sc_w0).
Proof.
  apply (StartColors.process_obj_file_ok "m.obj" "out/c.txt" sc_obj); vm_compute;
    first [discriminate | reflexivity | set_solver].
Defined.

Lemma process_obj_file_in_place_witness :
  StartColors.process_obj_file "m.obj" "m.obj" sc_w0 =
  StartColors.write_stdout "Processed 0 faces. Output written to m.obj."
    (StartColors.set_tfs
       (StartColors.mk_tfs (<["m.obj" := ""]> (StartColors.t_files (StartColors.t_fs sc_w0)))
          (StartColors.t_dirs (StartColors.t_fs sc_w0))) sc_w0).
Proof. apply (StartColors.process_obj_file_in_place "m.obj" sc_obj); vm_compute; first [reflexivity | set_solver]. Defined.

Lemma process_obj_file_missing_out_dir_witness :
  StartColors.process_obj_file "m.obj" "nodir/c.txt" sc_w0 =
  StartColors.write_stdout "The file m.obj does not exist." sc_w0.
Proof.
  apply (StartColors.process_obj_file_missing_out_dir "m.obj" "nodir/c.txt" sc_obj); vm_compute;
    first [reflexivity | set_solver].
Defined.

Lemma process_obj_file_missing_input_witness :
  StartColors.process_obj_file "nope.obj" "out/c.txt" sc_w0 =
  StartColors.write_stdout "The file nope.obj does not exist." sc_w0.
Proof. apply StartColors.process_obj_file_missing_input; vm_compute; first [reflexivity | set_solver]. Defined.

Lemma import_animations_refines_witness :
  MergeSpec.merge_spec (IO := Scripted hero_script) ["/w/walk.fbx"; "/w/run.fbx"] (MergeSpec.abs hero_base)
  = match Ok hero_loop_existing : outcome string (gset nat) with
    | Ok _ => Some (MergeSpec.abs hero_loop_scene) | Raise _ => None end.
Proof.
  apply (MergeSpec.import_animations_refines (IO := Scripted hero_script)
           ["/w/walk.fbx"; "/w/run.fbx"] (act_set hero_base) hero_base hero_loop_scene (Ok hero_loop_existing)).
  - split; vm_compute; repeat constructor; set_solver.
  - done.
  - vm_compute. reflexivity.
Defined.

Lemma sc_main_two_args_witness :
  StartColors.sc_main (sc_session ["m.obj"; "out/c.txt"]) =
  (StartColors.process_obj_file "m.obj" "out/c.txt" (sc_session ["m.obj"; "out/c.txt"]),
   StartColors.SCParsed "m.obj" "out/c.txt").
Proof. apply (StartColors.sc_main_two_args "start_colors.py"); reflexivity. Defined.

Lemma sc_main_dashdash_output_witness :
  StartColors.sc_main (sc_session ["--"; "m.obj"; "--"]) =
  (StartColors.write_stdout "An error occurred: expected str, bytes or os.PathLike object, not list"
     (sc_session ["--"; "m.obj"; "--"]), StartColors.SCParsed "m.obj" (StartColors.VList [])).
Proof.
  apply (StartColors.sc_main_dashdash_output "start_colors.py" "m.obj" sc_obj); vm_compute;
    first [reflexivity | set_solver | right; reflexivity].
Defined.

(** One value: the usage and the missing positional on stderr. *)
Lemma sc_main_wrong_count_witness :
  StartColors.sc_main (sc_session ["m.obj"]) =
  (StartColors.write_stderr ["usage: start_colors.py [-h] input_file output_file";
                           "start_colors.py: error: the following arguments are required: output_file"]
     (sc_session ["m.obj"]), StartColors.SCError "the following arguments are required: output_file").
Proof.
  assert (H := StartColors.sc_main_wrong_count "start_colors.py" ["m.obj"] (sc_session ["m.obj"])).
  vm_compute in H |- *. apply H; [reflexivity | repeat constructor | lia].
Defined.

Lemma sc_main_help_text_witness :
  StartColors.sc_main (sc_session ["m.obj"; "-h"; "out/c.txt"]) =
  (StartColors.write_stdout
     (String.concat CliText.nl
        ["usage: start_colors.py [-h] input_file output_file"; "";
         "Process OBJ file to generate an output file based on face count."; "";
         "positional arguments:";
         "  input_file   Path to the input OBJ file";
         "  output_file  Path to the output file"; "";
         "options:";
         "  -h, --help   show this help message and exit"]) (sc_session ["m.obj"; "-h"; "out/c.txt"]),
   StartColors.SCHelp).
Proof.
  rewrite (StartColors.sc_main_help_text "start_colors.py" ["m.obj"] ["out/c.txt"]);
    [vm_compute; reflexivity | reflexivity | repeat constructor | vm_compute; discriminate | reflexivity | simpl; lia..].
Defined.

(** [-x] between the values is the only word left over. *)
Lemma sc_parse_unknown_witness :
  StartColors.sc_parse_args ["m.obj"; "-x"; "out/c.txt"] = StartColors.SCError "unrecognized arguments: -x".
Proof. exact (proj1 (proj2 (StartColors.sc_parse_unknown "m.obj" "out/c.txt" "-x" eq_refl eq_refl eq_refl))). Defined.

Lemma abspath_abs_witness : PyStr.startswith (PosixPath.abspath "/w" "a/../b.fbx") "/" = true.
Proof. apply PosixPath.abspath_abs. reflexivity. Defined.

Lemma import_animations_progress_witness :
  exists s' ex', @import_animations (Scripted hero_script) ["/w/walk.fbx"; "/w/run.fbx"] (act_set hero_base) hero_base
                 = (s', Ok ex').
Proof. apply import_animations_progress. repeat constructor; intros s; eexists; reflexivity. Defined.

Lemma blender_main_progress_witness :
  exists w', @blender_main (Scripted hero_script) hero_words w0 = (w', Ok tt) /\
             w_stdout w' = w_stdout w0 ++ ["Wrote " +:+ PosixPath.abspath "/w" "out/hero_out.glb"].
Proof.
  apply (DriverRuns.blender_main_progress (IO := Scripted hero_script) hero_words w0
           (mk_args "hero.fbx" ["walk.fbx"; "run.fbx"] "out/hero_out.glb") hero_base);
    vm_compute; try reflexivity; try discriminate;
    repeat first [constructor | intros ?; eexists; reflexivity | eexists; reflexivity | intros ?; reflexivity].
Defined.

(** A base model with no armature. *)
Definition prop_base : scene :=
  match scripted_import hero_script "/w/prop.fbx" empty_scene with Some s => s | None => empty_scene end.

Lemma blender_main_no_armature_witness :
  @blender_main (Scripted hero_script) ["--model"; "prop.fbx"; "--out"; "o.glb"] w0
  = (set_scene prop_base w0, Raise (SystemExit "No ARMATURE found after importing model FBX.")).
Proof.
  apply (DriverRuns.blender_main_no_armature (IO := Scripted hero_script) _ w0 (mk_args "prop.fbx" [] "o.glb"));
    vm_compute; first [reflexivity | constructor].
Defined.


(** [blender ... -- -h] and [blender ... --] on an 80-column terminal:
    the help on stdout, and the usage with the missing options on
    stderr, as CPython 3.11 prints them. *)
Lemma blender_main_parser_exit_witness :
  help_entry (session (blender ["-h"])) =
    String.concat CliText.nl
      ["usage: blender [-h] --model MODEL [--anim ANIM] --out OUT"; ""; "options:";
       "  -h, --help     show this help message and exit"; "  --model MODEL"; "  --anim ANIM"; "  --out OUT"] /\
  @blender_main (Scripted hero_script) ["-h"] (session (blender ["-h"])) =
    (add_stdout (help_entry (session (blender ["-h"]))) (set_scene empty_scene (session (blender ["-h"]))),
     Raise (ParserExit Help)) /\
  error_entries (session (blender [])) "the following arguments are required: --model, --out" =
    ["usage: blender [-h] --model MODEL [--anim ANIM] --out OUT";
     "blender: error: the following arguments are required: --model, --out"] /\
  @blender_main (Scripted hero_script) [] (session (blender [])) =
    (add_stderr (error_entries (session (blender [])) "the following arguments are required: --model, --out")
       (set_scene empty_scene (session (blender []))),
     Raise (ParserExit (ArgError "the following arguments are required: --model, --out"))).
Proof.
  split; [vm_compute; reflexivity|].
  split; [apply (proj1 (DriverRuns.blender_main_parser_exit (IO := Scripted hero_script) _ _)); vm_compute; reflexivity|].
  split; [vm_compute; reflexivity|].
  apply (proj2 (DriverRuns.blender_main_parser_exit (IO := Scripted hero_script) _ _)). vm_compute. reflexivity.
Defined.

(** [blender] on a 59-column terminal gets the one-line usage; at 58
    columns the usage wraps, so the bound is exact. *)
Lemma format_help_wide_witness :
  CliText.format_usage CliText.fbx_parser "blender" (CliText.formatter_width 58) =
    "usage: blender [-h] --model MODEL [--anim ANIM] --out" +:+ CliText.nl +:+ "               OUT" +:+ CliText.nl /\
  (CliText.format_usage CliText.fbx_parser "blender" (CliText.formatter_width 59) =
     "usage: " +:+ "blender" +:+ " [-h] --model MODEL [--anim ANIM] --out OUT" +:+ CliText.nl /\
   CliText.format_help CliText.fbx_parser "blender" (CliText.formatter_width 59) =
     "usage: " +:+ "blender" +:+ " [-h] --model MODEL [--anim ANIM] --out OUT" +:+ CliText.nl +:+ CliText.nl
     +:+ "options:" +:+ CliText.nl +:+ "  -h, --help     show this help message and exit" +:+ CliText.nl
     +:+ "  --model MODEL" +:+ CliText.nl +:+ "  --anim ANIM" +:+ CliText.nl +:+ "  --out OUT" +:+ CliText.nl) /\
  PyStr.has_char "010"%char (CliText.usage_body CliText.fbx_parser "blender" (CliText.formatter_width 58)) = true.
Proof.
  destruct (CliText.format_help_wide "blender" ltac:(discriminate) eq_refl) as [Hw Hn].
  destruct (Hw 59 ltac:(simpl; lia)) as [H1 H2].
  split_and!; [vm_compute; reflexivity | exact H1 | exact H2 | exact (Hn 58 ltac:(simpl; lia))].
Defined.

Lemma main_spec_witness :
  (w_argv (session ["blender"; "-b"]) = ["blender"; "-b"] ->
   @main (Scripted hero_script) (session ["blender"; "-b"])
   = (session ["blender"; "-b"], Raise (SystemExit "Expected Blender args separator `--`."))) /\
  (w_argv (session ["blender"; "-b"]) = ["blender"; "-b"] ++ "--" :: hero_words ->
   @main (Scripted hero_script) (session ["blender"; "-b"])
   = @blender_main (Scripted hero_script) hero_words (session ["blender"; "-b"])).
Proof.
  apply DriverRuns.main_spec. rewrite !not_elem_of_cons. split_and!; try discriminate. apply not_elem_of_nil.
Defined.

Lemma process_obj_file_fs_witness :
  let w := StartColors.process_obj_file "m.obj" "out/c.txt" sc_w0 in
  StartColors.tfs_wf (StartColors.t_fs w) /\
  StartColors.t_dirs (StartColors.t_fs w) = StartColors.t_dirs (StartColors.t_fs sc_w0) /\
  (forall p, p <> "out/c.txt" -> StartColors.t_files (StartColors.t_fs w) !! p
                                 = StartColors.t_files (StartColors.t_fs sc_w0) !! p).
Proof.
  apply StartColors.process_obj_file_fs. unfold sc_w0, sc_session, sc_fs. intros p Hp Hin.
  cbn [StartColors.t_fs StartColors.t_dirs StartColors.t_files] in Hp, Hin.
  apply elem_of_dom in Hp as [c Hc]. apply elem_of_singleton in Hin. subst. vm_compute in Hc. discriminate.
Defined.

End Scenarios.
